(** * os-automation: the signup workflow and its helper utilities

    A shallow embedding of the parts of [utils/utilities.py] and
    [pages/accounts/signup.py] that carry logic of their own: the random
    selection helpers, the Salesforce pagination, the click fallback of
    [Utility.click_option] and the legacy signup workflow.

    Conventions.
    - Python [int] is [Z]; [str] is [string]; [list] is [list].
    - A call either returns a value, raises an exception, or (for the
      [while] loops) is still running when the fuel given to the model is
      used up: the type [outcome].
    - The random generator and the Salesforce session answer by the number
      of the call; the counters are threaded through the functions as
      explicit state.
    - The browser and the mail services answer as a function of the log of
      all requests made so far; the log is the state that the page
      objects thread.

    The embedding comes first, then the notions the properties are stated
    with, then the properties, one module for each part of the code. *)

From Stdlib Require Import ZArith QArith Qround List String Ascii Bool Lia.
From Stdlib Require Import DecimalString.
From Stdlib Require Import Permutation Sorted.
From ExtLib Require Import Structures.Monad.
Import ListNotations.
Import MonadNotation.
Local Open Scope string_scope.
Local Open Scope list_scope.
Local Open Scope Z_scope.

(** ** Exceptions and outcomes *)

Inductive exn : Type :=
| ValueError (msg : string)
| IndexError
| TypeError (msg : string)
| AttributeError (msg : string)
| AssertionError (msg : string)
| AccountsException (msg : string)
| WebDriverException (msg : string)
| ElementClickInterceptedException
| NoSuchElementException
| StaleElementReferenceException
| JavascriptException
| TimeoutException (msg : string).

Inductive outcome (A : Type) : Type :=
| Returns (a : A)
| Raises (e : exn)
| OutOfFuel.
Arguments Returns {A} a.
Arguments Raises {A} e.
Arguments OutOfFuel {A}.

(** [except WebDriverException] catches the class and its subclasses. *)
Definition is_WebDriverException (e : exn) : bool :=
  match e with
  | WebDriverException _
  | ElementClickInterceptedException
  | NoSuchElementException
  | StaleElementReferenceException
  | JavascriptException
  | TimeoutException _ => true
  | _ => false
  end.

(** ** Calls into the outside world

    A computation runs against an environment [E] (the browser, the mail
    box) and a log of the requests [V] made so far, oldest first.  What the
    environment answers may depend on everything requested before.
    [sleep] leaves no trace.  Of the exceptions a collaborator may throw,
    the model has those that the code itself raises or catches. *)

Section Calls.
Context {E V : Type}.

Definition M (A : Type) : Type := E -> list V -> outcome A * list V.

Definition M_ret {A} (a : A) : M A := fun _ log => (Returns a, log).

Definition M_bind {A B} (m : M A) (f : A -> M B) : M B :=
  fun env log =>
    match m env log with
    | (Returns a, log') => f a env log'
    | (Raises e, log') => (Raises e, log')
    | (OutOfFuel, log') => (OutOfFuel, log')
    end.

(** [raise e] *)
Definition raise {A} (e : exn) : M A := fun _ log => (Raises e, log).

(** A request without an answer of interest. *)
Definition emit (v : V) : M unit := fun _ log => (Returns tt, log ++ [v]).

(** A request that the environment answers or fails. *)
Definition call {A} (v : V) (answer : E -> list V -> exn + A) : M A :=
  fun env log =>
    match answer env log with
    | inr a => (Returns a, log ++ [v])
    | inl e => (Raises e, log ++ [v])
    end.

(** Reading the current state of the environment. *)
Definition ask {A} (read : E -> list V -> A) : M A :=
  fun env log => (Returns (read env log), log).

(** [try: m] with the exception, if any, handed to the continuation. *)
Definition try_ {A} (m : M A) : M (exn + A) :=
  fun env log =>
    match m env log with
    | (Returns a, log') => (Returns (inr a), log')
    | (Raises e, log') => (Returns (inl e), log')
    | (OutOfFuel, log') => (OutOfFuel, log')
    end.

(** The loop is cut off: the fuel of the model is used up. *)
Definition out_of_fuel {A} : M A := fun _ log => (OutOfFuel, log).

End Calls.
Arguments M : clear implicits.

#[export] Instance Monad_M {E V : Type} : Monad (M E V) :=
  {| ret := @M_ret E V; bind := @M_bind E V |}.

Local Open Scope monad_scope.

(** ** Python list primitives *)

Module Py.

Definition len {A} (l : list A) : Z := Z.of_nat (List.length l).

(** [l[i]]: a negative index counts from the end, anything outside
    [-len l .. len l - 1] raises [IndexError] (here [None]). *)
Definition getitem {A} (l : list A) (i : Z) : option A :=
  if 0 <=? i then nth_error l (Z.to_nat i)
  else if - len l <=? i then nth_error l (Z.to_nat (len l + i))
  else None.

(** [x in l] for a type with decidable equality. *)
Definition contains {A} (eq_dec : forall x y : A, {x = y} + {x <> y})
           (x : A) (l : list A) : bool :=
  if in_dec eq_dec x l then true else false.


(** [sorted(l)] on integers. The result of sorting integers does not
    depend on the algorithm; insertion sort stands for it. *)
Fixpoint insert (x : Z) (l : list Z) : list Z :=
  match l with
  | [] => [x]
  | y :: l' => if x <=? y then x :: y :: l' else y :: insert x l'
  end.

Fixpoint sorted (l : list Z) : list Z :=
  match l with
  | [] => []
  | x :: l' => insert x (sorted l')
  end.

(** [[l[i + 1] - l[i] for i in range(len(l) - 1)]] *)
Definition differences (l : list Z) : list Z :=
  map (fun i => nth (S i) l 0 - nth i l 0) (seq 0 (List.length l - 1)).

End Py.

(** ** Python string primitives *)

Module Str.

(** Truth value of a string: the empty string is false. *)
Definition truthy (s : string) : bool :=
  match s with EmptyString => false | String _ _ => true end.

(** [s.split(c)] for a one-character separator. *)
Fixpoint split (c : ascii) (s : string) : list string :=
  match s with
  | EmptyString => [EmptyString]
  | String a s' =>
      if Ascii.eqb a c then EmptyString :: split c s'
      else match split c s' with
           | [] => [String a EmptyString]
           | w :: ws => String a w :: ws
           end
  end.

(** [s.endswith(suffix)] *)
Definition endswith (s suffix : string) : bool :=
  (String.length suffix <=? String.length s)%nat &&
  String.eqb (substring (String.length s - String.length suffix)
                        (String.length suffix) s) suffix.

(** [sub in s] *)
Fixpoint contains (sub s : string) : bool :=
  prefix sub s ||
  match s with
  | EmptyString => false
  | String _ s' => contains sub s'
  end.

(** [s.rfind(c)] for one character: the last index of [c], or -1. *)
Fixpoint rfind_from (c : ascii) (s : string) (i : Z) (found : Z) : Z :=
  match s with
  | EmptyString => found
  | String a s' => rfind_from c s' (i + 1) (if Ascii.eqb a c then i else found)
  end.

Definition rfind (c : ascii) (s : string) : Z := rfind_from c s 0 (-1).

(** [s[:stop]] *)
Definition slice_to (s : string) (stop : Z) : string :=
  let n := Z.of_nat (String.length s) in
  let stop' := if stop <? 0 then Z.max 0 (n + stop) else Z.min stop n in
  substring 0 (Z.to_nat stop') s.

Definition is_space (a : ascii) : bool :=
  let n := nat_of_ascii a in
  (n =? 32)%nat || ((9 <=? n)%nat && (n <=? 13)%nat).

Fixpoint lstrip (s : string) : string :=
  match s with
  | String a s' => if is_space a then lstrip s' else s
  | EmptyString => EmptyString
  end.

Fixpoint rstrip (s : string) : string :=
  match s with
  | EmptyString => EmptyString
  | String a s' =>
      match rstrip s' with
      | EmptyString => if is_space a then EmptyString else String a EmptyString
      | r => String a r
      end
  end.

(** [s.strip()] *)
Definition strip (s : string) : string := rstrip (lstrip s).

(** [s.lower()] on ASCII letters. *)
Definition lower_ascii (a : ascii) : ascii :=
  let n := nat_of_ascii a in
  if (65 <=? n)%nat && (n <=? 90)%nat then ascii_of_nat (n + 32) else a.

Fixpoint lower (s : string) : string :=
  match s with
  | EmptyString => EmptyString
  | String a s' => String (lower_ascii a) (lower s')
  end.

End Str.

(** ** The driver as [Utility] sees it *)

(** [selenium.webdriver.common.by.By] *)
Inductive By : Type := CSS_SELECTOR | ID | CLASS_NAME.

Definition locator : Type := (By * string)%type.

(** A reference to a [WebElement]. *)
Definition element : Type := nat.

(** The requests of [Utility.click_option] to the driver. *)
Inductive command : Type :=
| FindElement (loc : locator)
| ScrollIntoView (target : element)
| ShiftViewBy (shift : Z)
| NativeClick (target : element)
| JavascriptClick (target : element).

(** The driver: its browser, and its answers to the requests given the
    requests before.  A click answers [None] when it is done and [Some e]
    when it raises [e]. *)
Record driver : Type := {
  browserName : string;
  find_element : list command -> locator -> exn + element;
  element_click : list command -> element -> option exn;
  javascript_click : list command -> element -> option exn
}.

(** ** utils/utilities.py: the random generator *)

(** The module-level generator of Python's [random]: the [n]-th draw
    answers [randint(a, b)] with [randint_at n a b] and [random()] with
    [random_at n].  Floats are idealised as exact rationals. *)
Record generator : Type := {
  randint_at : nat -> Z -> Z -> Z;
  random_at : nat -> Q
}.

(** What the library documents of its generator: [randint(a, b)] lies in
    [a .. b] and [random()] in the half-open interval from 0 to 1. *)
Record lawful (g : generator) : Prop := {
  randint_range : forall n a b, a <= b -> a <= randint_at g n a b <= b;
  random_range : forall n, (0 <= random_at g n)%Q /\ (random_at g n < 1)%Q
}.

(** Every value of [a .. b] keeps turning up among the draws: the
    assumption under which the rejection loops below come to an end. *)
Definition fair (g : generator) (a b : Z) : Prop :=
  forall (n : nat) (k : Z), a <= k <= b ->
    exists m, (n <= m)%nat /\ randint_at g m a b = k.

(** [int(x)] of a float truncates towards zero. *)
Definition int_of_float (x : Q) : Z :=
  if Qle_bool 0 x then Qfloor x else Qceiling x.

(** A generator for running the model: [randint] walks through its
    range, [random] through the sevenths. *)
Definition cycling : generator := {|
  randint_at n a b := a + Z.of_nat n mod (b - a + 1);
  random_at n := Z.of_nat (n mod 7) # 7
|}.

Module Utility.

(** [Utility.random(start, end)]; the generator position is threaded. *)
Definition random (g : generator) (pos : nat) (start end_ : Z) : Z * nat :=
  if start >=? end_ then (start, pos)
  else (randint_at g pos start end_, S pos).

(** [Utility.summed_list(length, total, use_float=False)]: [setup] is
    [int]. *)
Definition summed_list (g : generator) (pos : nat) (length total : Z)
  : outcome (list Z) * nat :=
  if length <? 1 then
    (Raises (ValueError "The list length must be >= 1"), pos)
  else if total <? 0 then
    (Raises (ValueError "The sum (total) must be >= 0"), pos)
  else
    let n := Z.to_nat (length - 1) in
    let group :=
      [0] ++
      Py.sorted (map (fun i => int_of_float (random_at g (pos + i) * inject_Z total))
                     (seq 0 n)) ++
      [total] in
    (Returns (Py.differences group), (pos + n)%nat).

(** The loop of [Utility.random_set]:
    [while len(new_set) < size: ...]. *)
Fixpoint random_set_loop {A} (eq_dec : forall x y : A, {x = y} + {x <> y})
         (g : generator) (fuel : nat) (group : list A) (size : Z)
         (new_set : list A) (pos : nat) : outcome (list A) * nat :=
  match fuel with
  | O => (OutOfFuel, pos)
  | S fuel' =>
      if Py.len new_set <? size then
        let (idx, pos') := random g pos 0 (Py.len group - 1) in
        match Py.getitem group idx with
        | None => (Raises IndexError, pos')
        | Some selected =>
            if Py.contains eq_dec selected new_set
            then random_set_loop eq_dec g fuel' group size new_set pos'
            else random_set_loop eq_dec g fuel' group size (new_set ++ [selected]) pos'
        end
      else (Returns new_set, pos)
  end.

(** [Utility.random_set(group, size=1)] *)
Definition random_set {A} (eq_dec : forall x y : A, {x = y} + {x <> y})
           (g : generator) (fuel : nat) (group : list A) (size : Z) (pos : nat)
  : outcome (list A) * nat :=
  if size <=? 0 then (Returns [], pos)
  else if size >=? Py.len group then (Returns group, pos)
  else random_set_loop eq_dec g fuel group size [] pos.

Definition done_or_raised (r : option exn) : exn + unit :=
  match r with None => inr tt | Some e => inl e end.

(** [Utility.scroll_to(driver, element=element, shift=shift)] *)
Definition scroll_to (target : element) (shift : Z) : M driver command unit :=
  emit (ScrollIntoView target) ;;
  if shift =? 0 then ret tt else emit (ShiftViewBy shift).

(** The fallback of [Utility.click_option]:
    [for _ in range(10): try: driver.execute_script(JAVASCRIPT_CLICK, element); break ...] *)
Fixpoint javascript_click_attempts (attempts : nat) (loc : option locator)
         (target : element) : M driver command unit :=
  match attempts with
  | O => ret tt
  | S attempts' =>
      r <- try_ (call (JavascriptClick target)
                      (fun d log => done_or_raised (javascript_click d log target))) ;;
      match r with
      | inr _ => ret tt
      | inl ElementClickInterceptedException =>
          javascript_click_attempts attempts' loc target
      | inl NoSuchElementException
      | inl StaleElementReferenceException =>
          match loc with
          | Some l =>
              target' <- call (FindElement l) (fun d log => find_element d log l) ;;
              javascript_click_attempts attempts' loc target'
          | None => javascript_click_attempts attempts' loc target
          end
      | inl e => raise e
      end
  end.

(** [Utility.click_option(driver, locator=None, element=None, force_js_click=False)] *)
Definition click_option (loc : option locator) (target : option element)
           (force_js_click : bool) : M driver command unit :=
  target <- match target, loc with
            | Some el, _ => ret el
            | None, Some l => call (FindElement l) (fun d log => find_element d log l)
            | None, None => raise (TypeError "find_element() argument after * must be an iterable")
            end ;;
  scroll_to target (-80) ;;
  r <- try_ (name <- ask (fun d _ => browserName d) ;;
             if force_js_click || String.eqb (Str.lower name) "safari"
             then raise (WebDriverException "Bypassing the driver-defined click")
             else call (NativeClick target)
                       (fun d log => done_or_raised (element_click d log target))) ;;
  match r with
  | inr _ => ret tt
  | inl e =>
      if is_WebDriverException e
      then javascript_click_attempts 10 loc target
      else raise e
  end.

End Utility.

(** ** pages/accounts/signup.py: the browser and the mail box *)

(** The page objects that the signup code constructs. *)
Inductive page : Type :=
| ChangeYourEmailPage
| CompleteSignupPage
| ConfirmEmailPage
| EducatorSignupPage
| StudentSignupPage
| SuccessfulVerificationPage
| VerifyInstructorPage
| ProfilePage
| TermsPage
| PlainPage
| DestinationPage (name : string).

Definition class_name (p : page) : string :=
  match p with
  | ChangeYourEmailPage => "ChangeYourEmail"
  | CompleteSignupPage => "CompleteSignup"
  | ConfirmEmailPage => "ConfirmEmail"
  | EducatorSignupPage => "EducatorSignup"
  | StudentSignupPage => "StudentSignup"
  | SuccessfulVerificationPage => "SuccessfulVerification"
  | VerifyInstructorPage => "VerifyInstructor"
  | ProfilePage => "Profile"
  | TermsPage => "Terms"
  | PlainPage => "Page"
  | DestinationPage name => name
  end.

(** A received message, with the verification code read from it. *)
Record message : Type := { pin : string }.

(** What [execute_script] hands back. *)
Inductive js_value : Type :=
| JsNull
| JsString (s : string)
| JsElement (textContent : string).

Definition js_truthy (v : js_value) : bool :=
  match v with
  | JsNull => false
  | JsString s => Str.truthy s
  | JsElement _ => true
  end.

(** The text an exception built from a script result carries. *)
Definition js_text (v : js_value) : string :=
  match v with
  | JsNull => "None"
  | JsString s => s
  | JsElement t => t
  end.

(** The requests of the signup pages to the browser and to the mail
    services.  [Click] is a [Utility.click_option] on the element found
    by the locator, [ClearField] a [Utility.clear_field], [Select] a
    [Utility.select]; [SetField] is a property setter of
    [regions.accounts.fields]. *)
Inductive request : Type :=
| Select (loc : locator) (label : option string)
| SendKeys (loc : locator) (keys : option string)
| Click (loc : locator)
| ClearField (loc : locator)
| SetField (field value : string)
| SelectSubject (title : string)
| WaitForMail (account : string)
| ReadGmail (account : string)
| OpenWebmail
| WebmailLogIn (email password : option string)
| WaitForNewPin
| Get (url : string)
| SocialLogIn (provider : string) (login password : option string)
| WaitUntil (condition : string)
| WaitForPageToLoad (p : page).

(** The application under test and the mail services: each answer is a
    function of the requests made so far. *)
Record site : Type := {
  (** [driver.current_url] *)
  current_url : list request -> string;
  (** [driver.execute_script(script)] *)
  execute_script : list request -> string -> js_value;
  (** [find_element(loc).text]; [None] when the element is not there *)
  element_text : list request -> locator -> option string;
  (** whether [WebDriverWait(driver, 1).until(find_element(loc))] finds
      the element before it times out *)
  element_appears : list request -> locator -> bool;
  (** whether [wait_for_page_to_load] returns before it times out *)
  page_loads : list request -> page -> bool;
  (** [RestMail(account).wait_for_mail()]: the messages, oldest first *)
  wait_for_mail : list request -> string -> list message;
  (** [page.emails] of the webmail page: the entries of the inbox listing *)
  webmail_emails : list request -> list message;
  (** [GmailReader(account).read_mail().sort_mail().latest.get_pin] *)
  gmail_latest_pin : list request -> string -> string;
  (** the titles of the subject options shown by the profile form *)
  subject_titles : list request -> list string
}.

(** A [RestMail] object. *)
Record RestMail : Type := { account : string; address : string }.

(** The double quote, for the scripts that carry one. *)
Definition dquote : string := String (ascii_of_nat 34) EmptyString.

(** [utils.utilities.go_to_(destination)]: wait for the page, and turn a
    timeout into one that names the page and the location reached. *)
Definition go_to_ (destination : page) : M site request page :=
  call (WaitForPageToLoad destination)
       (fun s log =>
          if page_loads s log destination then inr destination
          else inl (TimeoutException
                      ("Expected page <" ++ class_name destination ++
                       "> failed to load; ended at: " ++ current_url s log)%string)).

(** Modelled from the spec: [AccountsBase.location], defined in
    [pages/accounts/base.py], is the current location of the browser. *)
Definition location : M site request string := ask current_url.

Definition SUBMIT : locator := (CSS_SELECTOR, "[type=submit]").

Definition INVALID_MESSAGE_TEXT : string :=
  ("return document.querySelector(" ++ dquote ++ ".invalid-message" ++ dquote ++
   ").textContent;")%string.

Definition INVALID_MESSAGE : string :=
  ("return document.querySelector(" ++ dquote ++ ".invalid-message" ++ dquote ++
   ");")%string.

Module CompleteSignup.

Definition _finish_button_locator : locator := SUBMIT.

(** [CompleteSignup.Content.finish] *)
Definition finish : M site request page :=
  emit (Click _finish_button_locator) ;;
  url <- ask current_url ;;
  if Str.contains "profile" url then go_to_ ProfilePage else ret PlainPage.

End CompleteSignup.

Module ConfirmEmail.

Definition _pin_locator : locator := (CSS_SELECTOR, "#confirm_pin").
Definition _confirm_my_account_button_locator : locator := SUBMIT.

(** The setter of [ConfirmEmail.Content.pin] *)
Definition set_pin (pin : string) : M site request unit :=
  emit (ClearField _pin_locator) ;;
  emit (SendKeys _pin_locator (Some pin)).

(** [ConfirmEmail.Content.confirm_my_account] *)
Definition confirm_my_account : M site request page :=
  current_page <- location ;;
  emit (Click _confirm_my_account_button_locator) ;;
  url <- ask current_url ;;
  if String.eqb url current_page then
    v <- ask (fun s log => execute_script s log INVALID_MESSAGE_TEXT) ;;
    raise (AccountsException (js_text v))
  else if Str.contains "sheerid.com" url then go_to_ VerifyInstructorPage
  else go_to_ CompleteSignupPage.

End ConfirmEmail.

Module StudentSignup.

Definition _continue_button_locator : locator := SUBMIT.
Definition _policy_agreement_locator : locator := (CSS_SELECTOR, "#signup_terms_accepted").

(** [StudentSignup.Content.i_agree] *)
Definition i_agree : M site request unit := emit (Click _policy_agreement_locator).

(** [StudentSignup.Content._continue] *)
Definition _continue : M site request page :=
  current_page <- location ;;
  emit (Click _continue_button_locator) ;;
  url <- ask current_url ;;
  if String.eqb url current_page then
    v <- ask (fun s log => execute_script s log INVALID_MESSAGE_TEXT) ;;
    raise (AccountsException (js_text v))
  else go_to_ ConfirmEmailPage.

(** [x[-1].pin] *)
Definition newest_pin (box : list message) : M site request string :=
  match Py.getitem box (-1) with
  | Some m => ret (pin m)
  | None => raise IndexError
  end.

(** The [.content] of the page that [confirm_my_account] returned: the
    SheerID form has none. *)
Definition content (p : page) : M site request page :=
  match p with
  | VerifyInstructorPage =>
      raise (AttributeError "'VerifyInstructor' object has no attribute 'content'")
  | _ => ret p
  end.

(** [StudentSignup.sign_up(first, last, email, password, page=None)] *)
Definition sign_up (first last : string) (email : RestMail) (password : string)
           (destination : option page) : M site request page :=
  emit (SetField "first_name" first) ;;
  emit (SetField "last_name" last) ;;
  emit (SetField "email" (address email)) ;;
  emit (SetField "password" password) ;;
  i_agree ;;
  _continue ;;
  box <- call (WaitForMail (account email))
              (fun s log => inr (wait_for_mail s log (account email))) ;;
  pin <- newest_pin box ;;
  ConfirmEmail.set_pin pin ;;
  complete_sign_up <- ConfirmEmail.confirm_my_account ;;
  content complete_sign_up ;;
  CompleteSignup.finish ;;
  match destination with
  | Some p => go_to_ p
  | None => go_to_ ProfilePage
  end.

End StudentSignup.

Module SuccessfulVerification.

Definition _continue_button_locator : locator := (CSS_SELECTOR, ".sid-btn").

(** [SuccessfulVerification._continue] *)
Definition _continue : M site request page :=
  emit (Click _continue_button_locator) ;;
  go_to_ CompleteSignupPage.

End SuccessfulVerification.

Module EducatorSignup.

Definition _continue_button_locator : locator := SUBMIT.
Definition _policy_agreement_locator : locator := (CSS_SELECTOR, "#signup_terms_accepted").
Definition _verify_my_instructor_status_button_locator : locator := SUBMIT.

(** [EducatorSignup.Content.i_agree] *)
Definition i_agree : M site request unit := emit (Click _policy_agreement_locator).

(** [EducatorSignup.Content._continue] *)
Definition _continue : M site request page :=
  current_page <- location ;;
  emit (Click _continue_button_locator) ;;
  url <- ask current_url ;;
  (if String.eqb url current_page then
     error <- ask (fun s log => execute_script s log INVALID_MESSAGE) ;;
     if js_truthy error then raise (AccountsException (js_text error)) else ret tt
   else ret tt) ;;
  go_to_ ConfirmEmailPage.

(** [EducatorSignup.sign_up(first, last, email, password, phone, school, page=None)].
    [VerifyInstructor.school_name] and [verify_my_instructor_status] are
    not part of the sources at hand: the first is taken as a field setter,
    the second as the click on its button followed by the wait for the
    page whose [_continue] is used next. *)
Definition sign_up (first last : string) (email : RestMail)
           (password phone school : string) (destination : option page)
  : M site request page :=
  emit (SetField "first_name" first) ;;
  emit (SetField "last_name" last) ;;
  emit (SetField "phone" phone) ;;
  emit (SetField "email" (address email)) ;;
  emit (SetField "password" password) ;;
  i_agree ;;
  (if negb (Str.endswith (address email) ".edu") then _continue ;; ret tt else ret tt) ;;
  _continue ;;
  box <- call (WaitForMail (account email))
              (fun s log => inr (wait_for_mail s log (account email))) ;;
  pin <- StudentSignup.newest_pin box ;;
  ConfirmEmail.set_pin pin ;;
  ConfirmEmail.confirm_my_account ;;
  url <- location ;;
  (if negb (Str.endswith url "/i/done") then
     emit (SetField "school_name" school) ;;
     emit (Click _verify_my_instructor_status_button_locator) ;;
     go_to_ SuccessfulVerificationPage ;;
     SuccessfulVerification._continue ;;
     ret tt
   else ret tt) ;;
  CompleteSignup.finish ;;
  match destination with
  | Some p => go_to_ p
  | None => go_to_ ProfilePage
  end.

End EducatorSignup.

(** ** pages/accounts/signup.py: the subject catalog *)

Module SignupOld.

(** [SignupOld.SUBJECTS] *)
Definition SUBJECTS : list (string * string) := [
  ("accounting", "Accounting");
  ("algebra_and_trigonometry", "Algebra and Trigonometry");
  ("american_government", "American Government");
  ("anatomy_physiology", "Anatomy and Physiology");
  ("astronomy", "Astronomy");
  ("biology", "Biology");
  ("calculus", "Calculus");
  ("chemistry", "Chemistry");
  ("chem_atoms_first", "Chemistry: Atoms First");
  ("college_algebra", "College Algebra");
  ("college_physics_algebra", "College Physics");
  ("concepts_of_bio_non_majors", "Concepts of Biology");
  ("introduction_to_business", "Introduction to Business");
  ("introduction_to_sociology", "Introduction to Sociology 2e");
  ("introductory_statistics", "Introductory Statistics");
  ("microbiology", "Microbiology");
  ("pre_algebra", "Prealgebra");
  ("precalc", "Precalculus");
  ("economics", "Principles of Economics");
  ("macro_econ", "Principles of Macroeconomics");
  ("ap_macro_econ", "Principles of Macroeconomics for AP® Courses");
  ("micro_econ", "Principles of Microeconomics");
  ("ap_micro_econ", "Principles of Microeconomics for AP® Courses");
  ("psychology", "Psychology");
  ("ap_physics", "The AP Physics Collection");
  ("us_history", "U.S. History");
  ("university_physics_calc", "University Physics");
  ("not_listed", "Not Listed")
].

(** The titles of the catalog, in catalog order. *)
Definition titles : list string := map snd SUBJECTS.

(** The loop of [SignupOld.subject_list]:
    [while len(group) < size: ...]. *)
Fixpoint subject_list_loop (g : generator) (fuel : nat) (size : Z)
         (group : list string) (pos : nat) : outcome (list string) * nat :=
  match fuel with
  | O => (OutOfFuel, pos)
  | S fuel' =>
      if Py.len group <? size then
        let (idx, pos') := Utility.random g pos 0 (Py.len SUBJECTS - 1) in
        match Py.getitem SUBJECTS idx with
        | None => (Raises IndexError, pos')
        | Some entry =>
            let book := snd entry in
            if Py.contains string_dec book group
            then subject_list_loop g fuel' size group pos'
            else subject_list_loop g fuel' size (group ++ [book]) pos'
        end
      else (Returns group, pos)
  end.

(** [SignupOld.subject_list(size=1)]; the function of the same name in
    [tests/accounts/test_accounts_signup.py] has the same body. *)
Definition subject_list (g : generator) (fuel : nat) (size : Z) (pos : nat)
  : outcome (list string) * nat :=
  let subjects := Py.len SUBJECTS in
  let size := if size >? subjects then subjects else size in
  subject_list_loop g fuel size [] pos.

(** *** The legacy signup workflow *)

Definition STUDENT : string := "Student".
Definition INSTRUCTOR : string := "Instructor".

Definition FIRST : Z := 1.
Definition LAST : Z := 2.
Definition SUFFIX : Z := 3.

Definition _next_button_locator : locator := (CSS_SELECTOR, "[type=submit]").
Definition _error_locator : locator := (CSS_SELECTOR, ".alert").

Module UserType.
Definition _signup_role_locator : locator := (ID, "signup_role").
Definition _signup_email_locator : locator := (ID, "signup_email").
End UserType.

Module PinVerification.
Definition _pin_locator : locator := (ID, "pin_pin").
Definition _error_locator : locator := (CLASS_NAME, "alert-danger").

(** [PinVerification.pin_failure] *)
Definition pin_failure : M site request bool :=
  ask (fun s log => element_appears s log _error_locator).

(** [PinVerification.clear_pin] *)
Definition clear_pin : M site request unit := emit (ClearField _pin_locator).

(** The setter of [PinVerification.verify_pin] *)
Definition set_verify_pin (pin : string) : M site request unit :=
  emit (SendKeys _pin_locator (Some pin)).
End PinVerification.

Module SetPassword.
Definition _password_locator : locator := (ID, "signup_password").
Definition _password_confirmation_locator : locator := (ID, "signup_password_confirmation").
Definition _go_to_social_locator : locator := (CSS_SELECTOR, "[href$=social]").
End SetPassword.

Module UserFields.
Definition _first_name_locator : locator := (ID, "profile_first_name").
Definition _last_name_locator : locator := (ID, "profile_last_name").
Definition _school_locator : locator := (ID, "profile_school").
Definition _news_locator : locator := (ID, "profile_newsletter").
Definition _policy_agreement_locator : locator := (ID, "profile_i_agree").

(** [UserFields.toggle_news] *)
Definition toggle_news : M site request unit := emit (Click _news_locator).

(** [UserFields.agree_to_terms] *)
Definition agree_to_terms : M site request unit := emit (Click _policy_agreement_locator).
End UserFields.

Module SocialLogin.
Definition _facebook_button_locator : locator := (ID, "facebook-login-button").
Definition _google_button_locator : locator := (ID, "google-login-button").
End SocialLogin.

Module InstructorVerification.
Definition _phone_locator : locator := (ID, "profile_phone_number").
Definition _student_number_locator : locator := (ID, "profile_num_students").
Definition _webpage_verification_locator : locator := (ID, "profile_url").
Definition _using_openstax_locator : locator := (ID, "profile_using_openstax").

(** [InstructorVerification.select_subjects(subject_list)] *)
Definition select_subjects (subject_list : list string) : M site request unit :=
  shown <- ask subject_titles ;;
  fold_left (fun (done : M site request unit) (title : string) =>
               done ;;
               if Py.contains string_dec title subject_list
               then emit (SelectSubject title) else ret tt)
            shown (ret tt).
End InstructorVerification.

Module InstructorNotice.
Definition _get_email_confirmation_locator : locator := (CSS_SELECTOR, "[type=checkbox]").

(** [InstructorNotice.get_confirmation_email] *)
Definition get_confirmation_email : M site request unit :=
  emit (Click _get_email_confirmation_locator).
End InstructorNotice.

(** [SignupOld.next()] *)
Definition next : M site request unit := emit (Click _next_button_locator).

(** [SignupOld.error] *)
Definition error : M site request string :=
  ask (fun s log =>
         match element_text s log _error_locator with
         | Some text => Str.strip text
         | None => ""
         end).

(** [assert(not self.error), '{0}'.format(self.error)] *)
Definition assert_no_error : M site request unit :=
  e <- error ;;
  if Str.truthy e then
    message <- error ;;
    raise (AssertionError message)
  else ret tt.

(** The keyword arguments of [account_signup]; [None] for a key that is
    not given. *)
Record kwargs : Type := {
  email_password : option string;
  name : option (list string);
  news : option bool;
  phone : option string;
  school : option string;
  social : option string;
  social_login : option string;
  social_password : option string;
  students : option Z;
  subjects : option (list string);
  use : option string;
  webpage : option string
}.

(** [kwargs.get('name')[i]] *)
Definition name_part (kw : kwargs) (i : Z) : M site request string :=
  match name kw with
  | None => raise (TypeError "'NoneType' object is not subscriptable")
  | Some parts =>
      match Py.getitem parts i with
      | Some part => ret part
      | None => raise IndexError
      end
  end.

(** [str(students)] *)
Definition str_of_students (students : option Z) : string :=
  match students with
  | None => "None"
  | Some n => DecimalString.NilZero.string_of_int (Z.to_int n)
  end.

(** The mail reader that the loop builds for its provider. *)
Inductive mailer : Type :=
| GuerrillaMailPage
| RestMailBox (account_name : string).

(** [SignupOld._get_pin(page, provider, return_url, email, password)] *)
Definition _get_pin (mail : mailer) (provider return_url : string)
           (email password : option string) : M site request string :=
  if Str.contains "restmail" provider then
    match mail with
    | RestMailBox account_name =>
        box <- call (WaitForMail account_name)
                    (fun s log => inr (wait_for_mail s log account_name)) ;;
        StudentSignup.newest_pin box
    | GuerrillaMailPage =>
        raise (AttributeError "'GuerrillaMail' object has no attribute 'wait_for_mail'")
    end
  else
    match mail with
    | GuerrillaMailPage =>
        emit OpenWebmail ;;
        (if Str.contains "google" provider
         then emit (WebmailLogIn email password) else ret tt) ;;
        emit WaitForNewPin ;;
        emails <- ask webmail_emails ;;
        match Py.getitem emails 0 with
        | Some m => emit (Get return_url) ;; ret (pin m)
        | None => raise IndexError
        end
    | RestMailBox _ =>
        raise (AttributeError "'RestMail' object has no attribute 'open'")
    end.

(** The body of [while not_verified:] up to the PIN: the reader for the
    provider, then the PIN it finds. *)
Definition fetch_pin (seed_url email provider : string) (kw : kwargs)
  : M site request string :=
  if Str.contains "google" provider then
    call (ReadGmail (substring 0 7 email))
         (fun s log => inr (gmail_latest_pin s log (substring 0 7 email)))
  else
    mail <- (if Str.contains "guerrilla" provider then ret GuerrillaMailPage
             else if Str.contains "restmail" provider
                  then ret (RestMailBox (Str.slice_to email (Str.rfind "@" email)))
                  else raise (TypeError "'str' object is not callable")) ;;
    _get_pin mail provider (seed_url ++ "/verify_email")%string (Some email) None.

(** One turn of the loop: fetch, clear, submit, and whether the page
    reports a failure. *)
Definition pin_attempt (seed_url email provider : string) (kw : kwargs)
  : M site request bool :=
  pin <- fetch_pin seed_url email provider kw ;;
  if negb (Str.truthy pin) then raise (ValueError "PIN not found")
  else
    PinVerification.clear_pin ;;
    PinVerification.set_verify_pin pin ;;
    next ;;
    PinVerification.pin_failure.

(** [# verify the pin]: [not_verified = True; while not_verified: ...] *)
Fixpoint verify_the_pin (fuel : nat) (seed_url email provider : string)
         (kw : kwargs) : M site request unit :=
  match fuel with
  | O => out_of_fuel
  | S fuel' =>
      failure <- pin_attempt seed_url email provider kw ;;
      if failure then verify_the_pin fuel' seed_url email provider kw
      else ret tt
  end.

(** [# select user type and email] *)
Definition select_user_type_and_email (email _type : string) (tutor : bool)
  : M site request unit :=
  let non_student_role := negb (String.eqb _type STUDENT) in
  (if negb tutor then emit (Select UserType._signup_role_locator (Some _type))
   else ret tt) ;;
  emit (SendKeys UserType._signup_email_locator (Some email)) ;;
  next ;;
  assert_no_error ;;
  if non_student_role && negb (Str.endswith email "edu") then next else ret tt.

(** [# set the initial password], or the social login *)
Definition password_or_social (password : option string) (kw : kwargs)
  : M site request unit :=
  match social kw with
  | None =>
      emit (SendKeys SetPassword._password_locator password) ;;
      emit (SendKeys SetPassword._password_confirmation_locator password) ;;
      next ;;
      assert_no_error ;;
      emit (WaitUntil "'profile' in self.location")
  | Some provider =>
      emit (Click SetPassword._go_to_social_locator) ;;
      if String.eqb provider "facebook" then
        emit (Click SocialLogin._facebook_button_locator) ;;
        emit (SocialLogIn "facebook" (social_login kw) (social_password kw))
      else
        emit (Click SocialLogin._google_button_locator) ;;
        emit (SocialLogIn "google" (social_login kw) (social_password kw))
  end.

(** [# enter user details in group order] *)
Definition enter_user_details (_type : string) (kw : kwargs) : M site request unit :=
  let non_student_role := negb (String.eqb _type STUDENT) in
  let instructor := String.eqb _type INSTRUCTOR in
  (match social kw with
   | None =>
       first <- name_part kw FIRST ;;
       emit (SendKeys UserFields._first_name_locator (Some first)) ;;
       last <- name_part kw LAST ;;
       emit (SendKeys UserFields._last_name_locator (Some last)) ;;
       name_part kw SUFFIX ;;
       ret tt
   | Some _ => ret tt
   end) ;;
  (if non_student_role
   then emit (SendKeys InstructorVerification._phone_locator (phone kw)) else ret tt) ;;
  emit (SendKeys UserFields._school_locator (school kw)) ;;
  (if instructor
   then emit (SendKeys InstructorVerification._student_number_locator
                       (Some (str_of_students (students kw))))
   else ret tt) ;;
  (if non_student_role
   then emit (SendKeys InstructorVerification._webpage_verification_locator (webpage kw))
   else ret tt) ;;
  if instructor
  then emit (Select InstructorVerification._using_openstax_locator (use kw))
  else ret tt.

(** [Salesforce.get]-like default of [kwargs.get('subjects', [])] *)
Definition requested_subjects (kw : kwargs) : list string :=
  match subjects kw with Some l => l | None => [] end.

(** [# completion]: the subjects of interest *)
Definition select_the_subjects (_type : string) (kw : kwargs) : M site request unit :=
  let non_student_role := negb (String.eqb _type STUDENT) in
  let subjects_to_select :=
    if non_student_role
    then filter (fun title => Py.contains string_dec title (requested_subjects kw)) titles
    else [] in
  match subjects_to_select with
  | [] => ret tt
  | _ :: _ => InstructorVerification.select_subjects subjects_to_select
  end.

(** [not kwargs.get('news')] *)
Definition no_news (kw : kwargs) : bool :=
  match news kw with Some true => false | _ => true end.

(** The newsletter, the terms, and the submission of the profile. *)
Definition terms_and_newsletter (_type : string) (tutor : bool) (kw : kwargs)
  : M site request unit :=
  let non_student_role := negb (String.eqb _type STUDENT) in
  (if no_news kw then UserFields.toggle_news else ret tt) ;;
  (if negb tutor then UserFields.agree_to_terms else ret tt) ;;
  next ;;
  if non_student_role then assert_no_error else ret tt.

(** [# request e-mail confirmation for an elevated account] *)
Definition request_confirmation (_type : string) : M site request unit :=
  let non_student_role := negb (String.eqb _type STUDENT) in
  if non_student_role
  then InstructorNotice.get_confirmation_email ;; next
  else ret tt.

(** [SignupOld.account_signup(email, password, _type, provider, tutor,
    destination, **kwargs)]; [seed_url] is the attribute of the page, [kw]
    the keyword arguments after a nested [kwargs] entry has been
    unwrapped. *)
Definition account_signup (fuel : nat) (seed_url : string)
           (email : string) (password : option string) (_type provider : string)
           (tutor : bool) (destination : option page) (kw : kwargs)
  : M site request page :=
  select_user_type_and_email email _type tutor ;;
  verify_the_pin fuel seed_url email provider kw ;;
  password_or_social password kw ;;
  emit (WaitUntil "'accounts' in urlparse(self.selenium.current_url).netloc") ;;
  enter_user_details _type kw ;;
  select_the_subjects _type kw ;;
  terms_and_newsletter _type tutor kw ;;
  request_confirmation _type ;;
  if tutor then go_to_ TermsPage
  else match destination with
       | Some p => go_to_ p
       | None => go_to_ ProfilePage
       end.

End SignupOld.

(** ** utils/utilities.py: the Salesforce reader *)

Module Salesforce.

Section Query.
(** [R]: a raw record of the API; [T]: a typed record ([Contact], [Lead],
    [Organization]). *)
Context {R T : Type}.

(** A response of the API, read with [results.get(key, default)]. *)
Record response : Type := {
  totalSize : option Z;
  records_of : option (list R);
  nextRecordUrl : option string
}.

(** The [simple_salesforce] session: [query] answers a SOQL request,
    [query_more] answers the [n]-th follow-up request for an identifier. *)
Record session : Type := {
  sf_query : string -> response;
  sf_query_more : nat -> string -> response
}.

(** The fields of the [Salesforce] object, and the identifiers sent to
    [query_more] so far. *)
Record state : Type := {
  _size : Z;
  _records : list R;
  records : list T;
  requested : list string
}.

Definition get {A} (field : option A) (default : A) : A :=
  match field with Some v => v | None => default end.

(** [results.get('nextRecordUrl', '').split('/')[-1]] *)
Definition additional_records_of (results : response) : string :=
  last (Str.split "/" (get (nextRecordUrl results) "")) "".

(** [while additional_records: ...] *)
Fixpoint query_more_loop (sf : session) (fuel : nat) (additional_records : string)
         (acc : list R) (requests : list string) : outcome (list R * list string) :=
  match fuel with
  | O => OutOfFuel
  | S fuel' =>
      if Str.truthy additional_records then
        let results := sf_query_more sf (List.length requests) additional_records in
        query_more_loop sf fuel' (additional_records_of results)
                        (acc ++ get (records_of results) [])
                        (requests ++ [additional_records])
      else Returns (acc, requests)
  end.

(** [Salesforce.query(query, record_type=None)] *)
Definition query (sf : session) (fuel : nat) (query : string)
           (record_type : option (R -> T)) : outcome state :=
  let results := sf_query sf query in
  let size := get (totalSize results) 0 in
  match query_more_loop sf fuel (additional_records_of results)
                        (get (records_of results) []) [] with
  | Returns (recs, requests) =>
      Returns {| _size := size;
                 _records := recs;
                 records := match record_type with
                            | Some make => map make recs
                            | None => []
                            end;
                 requested := requests |}
  | Raises e => Raises e
  | OutOfFuel => OutOfFuel
  end.

(** The page with number [n] of the answer to [q]: the first response,
    then the response to the identifier of the page before. *)
Fixpoint nth_page (sf : session) (q : string) (n : nat) : response :=
  match n with
  | O => sf_query sf q
  | S n' => sf_query_more sf n' (additional_records_of (nth_page sf q n'))
  end.

(** Page [k] is the first one without an identifier of a next page. *)
Definition last_page (sf : session) (q : string) (k : nat) : Prop :=
  additional_records_of (nth_page sf q k) = "" /\
  forall j, (j < k)%nat -> additional_records_of (nth_page sf q j) <> "".

(** The records of the pages 0 to [k], in page order. *)
Definition records_through (sf : session) (q : string) (k : nat) : list R :=
  List.concat (map (fun n => get (records_of (nth_page sf q n)) []) (seq 0 (S k))).

(** The identifiers carried by the pages 0 to [k - 1]. *)
Definition identifiers_before (sf : session) (q : string) (k : nat) : list string :=
  map (fun n => additional_records_of (nth_page sf q n)) (seq 0 k).

End Query.
Arguments response : clear implicits.
Arguments session : clear implicits.
Arguments state : clear implicits.

End Salesforce.

(** ** What the properties are stated with *)

Module Observations.
Import Utility SignupOld Salesforce.

(** *** The click fallback *)

(** The errors that the fallback loop of [click_option] catches. *)
Definition is_tolerated (e : exn) : bool :=
  match e with
  | ElementClickInterceptedException
  | NoSuchElementException
  | StaleElementReferenceException => true
  | _ => false
  end.

Definition is_javascript_click (c : command) : bool :=
  match c with JavascriptClick _ => true | _ => false end.

(** The number of synthetic dispatches in a log. *)
Definition javascript_clicks (log : list command) : nat :=
  List.length (filter is_javascript_click log).


(** *** The form submissions *)


(** A signup form that rejects what is submitted: the location stays and
    the page shows an inline message. *)
Definition rejecting : site := {|
  current_url _ := "https://accounts.openstax.org/i/signup/student";
  execute_script _ _ := JsString "Invalid email";
  element_text _ _ := None;
  element_appears _ _ := false;
  page_loads _ _ := true;
  wait_for_mail _ _ := [];
  webmail_emails _ := [];
  gmail_latest_pin _ _ := "";
  subject_titles _ := []
|}.

(** A signup form that accepts: every click leads to a new location. *)
Definition accepting : site := {|
  current_url log :=
    ("https://accounts.openstax.org/i/step/" ++
     NilZero.string_of_uint (Nat.to_uint (List.length log)))%string;
  execute_script _ _ := JsNull;
  element_text _ _ := None;
  element_appears _ _ := false;
  page_loads _ _ := true;
  wait_for_mail _ _ := [{| pin := "482913" |}];
  webmail_emails _ := [];
  gmail_latest_pin _ _ := "";
  subject_titles _ := []
|}.

(** *** The legacy workflow *)

Definition By_eqb (a b : By) : bool :=
  match a, b with
  | CSS_SELECTOR, CSS_SELECTOR | ID, ID | CLASS_NAME, CLASS_NAME => true
  | _, _ => false
  end.

Definition locator_eqb (a b : locator) : bool :=
  By_eqb (fst a) (fst b) && String.eqb (snd a) (snd b).

(** The clicks on one control in a log. *)
Definition is_click (loc : locator) (r : request) : bool :=
  match r with
  | Click l => locator_eqb l loc
  | _ => false
  end.

Definition count (p : request -> bool) (log : list request) : nat :=
  List.length (filter p log).

Definition clicks (loc : locator) (log : list request) : nat :=
  count (is_click loc) log.

Definition is_fetch (r : request) : bool :=
  match r with
  | WaitForMail _ | ReadGmail _ | OpenWebmail => true
  | _ => false
  end.

Definition is_clear_pin (r : request) : bool :=
  match r with
  | ClearField l => locator_eqb l PinVerification._pin_locator
  | _ => false
  end.

Definition is_send_pin (r : request) : bool :=
  match r with
  | SendKeys l _ => locator_eqb l PinVerification._pin_locator
  | _ => false
  end.

Definition is_next : request -> bool := is_click _next_button_locator.

Definition is_toggle : request -> bool := is_click UserFields._news_locator.

Definition is_confirm_pin (r : request) : bool :=
  match r with
  | SendKeys l _ => locator_eqb l ConfirmEmail._pin_locator
  | _ => false
  end.

(** A site on which nothing goes wrong: no alert is shown, every page
    loads, the location changes with every request, the inbox holds two
    codes and the PIN page reports a failure until the submit button has
    been clicked three times. *)
Definition smooth : site := {|
  current_url log :=
    ("https://accounts.openstax.org/step/" ++
     NilZero.string_of_uint (Nat.to_uint (List.length log)))%string;
  execute_script _ _ := JsNull;
  element_text _ _ := None;
  element_appears log _ :=
    (count (is_click _next_button_locator) log <? 3)%nat;
  page_loads _ _ := true;
  wait_for_mail _ _ := [{| pin := "111111" |}; {| pin := "482913" |}];
  webmail_emails _ := [{| pin := "222222" |}; {| pin := "111111" |}];
  gmail_latest_pin _ _ := "333333";
  subject_titles _ := titles
|}.

(** The keyword arguments of an instructor who wants no news. *)
Definition instructor_details : kwargs := {|
  email_password := None;
  name := Some [""; "Ana"; "Lee"; ""];
  news := Some false;
  phone := Some "7135550123";
  school := Some "Rice University";
  social := None;
  social_login := None;
  social_password := None;
  students := Some 40;
  subjects := Some ["Biology"; "Calculus"; "NotACatalogEntry"];
  use := Some "Interested in using OpenStax in the future";
  webpage := Some "http://openstax.org"
|}.


(** The requests of the first step of [account_signup] up to its first
    [next()]. *)
Definition role_and_email_entered (email _type : string) (tutor : bool) : list request :=
  (if negb tutor then [Select UserType._signup_role_locator (Some _type)] else []) ++
  [SendKeys UserType._signup_email_locator (Some email); Click _next_button_locator].

(** The requests of [EducatorSignup.sign_up] before its first
    [_continue]. *)
Definition educator_form_filled (first last : string) (email : RestMail)
           (password phone : string) : list request :=
  [SetField "first_name" first; SetField "last_name" last; SetField "phone" phone;
   SetField "email" (address email); SetField "password" password;
   Click EducatorSignup._policy_agreement_locator].

Definition continued : list request :=
  [Click EducatorSignup._continue_button_locator; WaitForPageToLoad ConfirmEmailPage].


(** The log after [k] turns of the loop. *)
Definition after_attempts (s : site) (seed_url email provider : string) (kw : kwargs)
           (k : nat) (log : list request) : list request :=
  Nat.iter k (fun l => snd (pin_attempt seed_url email provider kw s l)) log.


(** Whatever happens, [m] only appends to the log, and no request of the
    kind [p]. *)
Definition silent {A} (p : request -> bool) (m : M site request A) : Prop :=
  forall s log, exists delta, snd (m s log) = log ++ delta /\ count p delta = 0%nat.

(** When [m] returns, it has added [n] requests of the kind [p]. *)
Definition adds {A} (p : request -> bool) (n : nat) (m : M site request A) : Prop :=
  forall s log a log', m s log = (Returns a, log') ->
    count p log' = (count p log + n)%nat.

(** *** The Salesforce reader *)

(** Three pages: two follow-up requests, then the end. *)
Definition three_pages : session nat := {|
  sf_query _ :=
    {| totalSize := Some 5; records_of := Some [1; 2]%nat;
       nextRecordUrl := Some "/services/data/v42.0/query/01g-2" |};
  sf_query_more n _ :=
    match n with
    | O => {| totalSize := Some 5; records_of := Some [3; 4]%nat;
              nextRecordUrl := Some "/services/data/v42.0/query/01g-4" |}
    | _ => {| totalSize := Some 5; records_of := Some [5]%nat;
              nextRecordUrl := None |}
    end
|}.

End Observations.

(** ** utils/utilities.py: further helpers of [Utility] *)

Module UtilityHelpers.

(** [Utility.HEX_DIGITS] *)
Definition HEX_DIGITS : string := "0123456789ABCDEF".

(** [[cls.HEX_DIGITS[randint(0, 0xF)] for _ in range(length)]] *)
Fixpoint hex_digits (g : generator) (n : nat) (pos : nat) : outcome (list ascii) * nat :=
  match n with
  | O => (Returns [], pos)
  | S n' =>
      match Py.getitem (list_ascii_of_string HEX_DIGITS) (randint_at g pos 0 15) with
      | None => (Raises IndexError, S pos)
      | Some c =>
          match hex_digits g n' (S pos) with
          | (Returns cs, pos') => (Returns (c :: cs), pos')
          | (Raises e, pos') => (Raises e, pos')
          | (OutOfFuel, pos') => (OutOfFuel, pos')
          end
      end
  end.

(** [Utility.random_hex(length=20, lower=False)] *)
Definition random_hex (g : generator) (pos : nat) (length : Z) (lower : bool)
  : outcome string * nat :=
  match hex_digits g (Z.to_nat length) pos with
  | (Returns cs, pos') =>
      let line := string_of_list_ascii cs in
      (Returns (if negb lower then line else Str.lower line), pos')
  | (Raises e, pos') => (Raises e, pos')
  | (OutOfFuel, pos') => (OutOfFuel, pos')
  end.

(** [_id if _id else ...]: [False], [None] and the empty string are
    false. *)
Definition given (_id : option string) : option string :=
  match _id with
  | Some s => if Str.truthy s then Some s else None
  | None => None
  end.

(** [Utility.fake_email(first_name, surname, _id=False)] *)
Definition fake_email (g : generator) (pos : nat) (first_name surname : string)
           (_id : option string) : outcome string * nat :=
  let address id_string :=
    Str.lower (first_name ++ "." ++ surname ++ "." ++ id_string ++ "@restmail.net")%string in
  match given _id with
  | Some id_string => (Returns (address id_string), pos)
  | None =>
      let (size, pos1) := Utility.random g pos 4 7 in
      match random_hex g pos1 size false with
      | (Returns id_string, pos2) => (Returns (address id_string), pos2)
      | (Raises e, pos2) => (Raises e, pos2)
      | (OutOfFuel, pos2) => (OutOfFuel, pos2)
      end
  end.

(** [str(n)] of an integer. *)
Definition str_of_int (n : Z) : string := NilZero.string_of_int (Z.to_int n).

(** [Utility.random_phone(area_code=713, number_only=True)]; the area
    code is taken as the text that the f-string prints for it. *)
Definition random_phone (g : generator) (pos : nat) (area_code : string)
           (number_only : bool) : string * nat :=
  let (line, pos') := Utility.random g pos 100 199 in
  if number_only
  then ((area_code ++ "5550" ++ str_of_int line)%string, pos')
  else (("(" ++ area_code ++ ") 555-0" ++ str_of_int line)%string, pos').

(** [Utility.wait_for_overlay_then(target, time, interval)]: the loop
    [for _ in range(attempts): try: target(); break; except
    WebDriverException: sleep(interval)], where [attempts] is the value of
    [int(time / interval)] (20 for the default arguments) and [target k]
    is what the [k]-th call of [target()] raises, if anything.  The
    number of calls made is returned with the outcome. *)
Fixpoint overlay_attempts (attempts : nat) (target : nat -> option exn) (calls : nat)
  : outcome unit * nat :=
  match attempts with
  | O => (Returns tt, calls)
  | S attempts' =>
      match target calls with
      | None => (Returns tt, S calls)
      | Some e =>
          if is_WebDriverException e
          then overlay_attempts attempts' target (S calls)
          else (Raises e, S calls)
      end
  end.

Definition wait_for_overlay_then (target : nat -> option exn) (attempts : Z)
  : outcome unit * nat :=
  overlay_attempts (Z.to_nat attempts) target 0.

(** *** [Utility.test_url_and_warn] *)

Inductive http_method : Type := HEAD | GET.

(** What the check reads of a response: [status_code] and
    [headers.get('X-Cache', '')]. *)
Record http_response : Type := { status_code : Z; x_cache : string }.

(** What the call comes to: the value returned, or the error of reading
    the local [browser], which is bound only when a driver is given. *)
Inductive verdict : Type :=
| Verdict (ok : bool)
| UnboundLocalError.

(** The state of the check: the last response and the number of requests
    made. *)
Record checked : Type := { test : http_response; requests : nat }.

Definition cloudfront_error (r : http_response) : bool :=
  Str.contains "Error from cloudfront" (x_cache r).

(** [requests.head(url) if _head else requests.get(url, headers=agent.get(browser))]:
    [web n m] is the answer to the [n]-th request, made with method [m];
    [browser] is [None] when no driver was given. *)
Definition fetch (web : nat -> http_method -> http_response) (browser : option string)
           (_head : bool) (n : nat) : option http_response :=
  if _head then Some (web n HEAD)
  else match browser with
       | Some _ => Some (web n GET)
       | None => None
       end.

(** [for _ in range(20): sleep(3); test = ...; code = test.status_code;
    if code != 503: break] *)
Fixpoint retry (web : nat -> http_method -> http_response) (browser : option string)
         (_head : bool) (turns : nat) (state : checked) : option checked :=
  match turns with
  | O => Some state
  | S turns' =>
      match fetch web browser _head (requests state) with
      | None => None
      | Some r =>
          let state' := {| test := r; requests := S (requests state) |} in
          if status_code r =? 503 then retry web browser _head turns' state'
          else Some state'
      end
  end.

(** The requests of [test_url_and_warn], up to the verdict. *)
Definition query_url (web : nat -> http_method -> http_response) (browser : option string)
           (_head : bool) : option checked :=
  match fetch web browser _head 0 with
  | None => None
  | Some first =>
      let after_first := {| test := first; requests := 1 |} in
      let retried :=
        if (status_code first =? 403) && _head then
          match fetch web browser false 1 with
          | None => None
          | Some second => Some (false, {| test := second; requests := 2 |})
          end
        else Some (_head, after_first) in
      match retried with
      | None => None
      | Some (_head', state) =>
          if (status_code (test state) =? 503) || cloudfront_error (test state)
          then retry web browser _head' 20 state
          else Some state
      end
  end.

(** [Utility.test_url_and_warn(_head=True, url=url, driver=driver)]: the
    verdict, whether a warning was issued, and the state reached. *)
Definition test_url_and_warn (web : nat -> http_method -> http_response)
           (browser : option string) (_head : bool) : verdict * bool * option checked :=
  match query_url web browser _head with
  | None => (UnboundLocalError, false, None)
  | Some state =>
      if status_code (test state) >=? 400 then
        if cloudfront_error (test state)
        then (Verdict true, true, Some state)
        else (Verdict false, true, Some state)
      else (Verdict true, false, Some state)
  end.

(** *** [Utility.switch_to] *)

(** The requests of [switch_to]: the click on the link (or the action
    handed in), and the switch to a window. *)
Inductive window_request : Type :=
| Act
| SwitchToWindow (handle : string).

(** The browser and its windows, given the requests so far: the current
    handle, the handles of all windows, what [Utility.click_option]
    raises, if anything, and what [action()] returns or raises. *)
Record windows : Type := {
  current_window_handle : list window_request -> string;
  window_handles : list window_request -> list string;
  click_raises : list window_request -> option exn;
  action_returns : list window_request -> exn + option string
}.

(** [Utility.switch_to(driver, link_locator, element, action, force_js_click)];
    [action] tells whether an action was handed in.  The three reads of
    [driver.window_handles] follow one another without a request in
    between. *)
Definition switch_to (action : bool) : M windows window_request (option string) :=
  current <- ask current_window_handle ;;
  data <- (if negb action
           then call Act (fun w log =>
                            match click_raises w log with
                            | None => inr None
                            | Some e => inl e
                            end)
           else call Act action_returns) ;;
  handles <- ask window_handles ;;
  match Py.getitem handles 0 with
  | None => raise IndexError
  | Some first =>
      let new_handle := if String.eqb current first then 1 else 0 in
      (if Py.len handles >? 1 then
         match Py.getitem handles new_handle with
         | Some handle => emit (SwitchToWindow handle)
         | None => raise IndexError
         end
       else ret tt) ;;
      ret (match data with
           | Some d => if Str.truthy d then Some d else None
           | None => None
           end)
  end.

End UtilityHelpers.

(** ** utils/utilities.py: the test cards *)

(** [class Status] *)
Module Status.
Definition STATUS : string := "status".
Definition VALID : Z := 2.
Definition NO_VERIFY : Z := 3.
Definition TYPED : Z := 4.
Definition OTHER : Z := 5.
Definition TYPE : string := "type".
Definition AMEX : string := "American Express".
Definition DINERS : string := "Diners Club".
Definition DISCOVER : string := "Discover".
Definition JCB : string := "JCB".
Definition MAESTRO : string := "Maestro".
Definition MC : string := "Mastercard".
Definition VISA : string := "Visa".
Definition RESPONSE : string := "response".
Definition DECLINED : string := "processor declined".
Definition FAILED : string := "failed (3000)".
End Status.

Module Card.

(** A value held by an entry of [Card.options], and a state asked for. *)
Inductive value : Type :=
| Int (n : Z)
| Text (s : string).

(** An entry of [Card.options]: a dictionary with these six keys. *)
Record card : Type := {
  number : string;
  cvv : string;
  type : string;
  status : Z;
  response : string;
  data : string
}.

(** What a call on the deck may raise: the [KeyError] of a key that the
    entries do not have, or an exception of the other kinds. *)
Inductive error : Type :=
| KeyError (key : string)
| Raised (e : exn).

(** [card[key]] *)
Definition item (c : card) (key : string) : error + value :=
  if String.eqb key "number" then inr (Text (number c))
  else if String.eqb key "cvv" then inr (Text (cvv c))
  else if String.eqb key "type" then inr (Text (type c))
  else if String.eqb key "status" then inr (Int (status c))
  else if String.eqb key "response" then inr (Text (response c))
  else if String.eqb key "data" then inr (Text (data c))
  else inl (KeyError key).

(** [a == b]: a number and a text are never equal. *)
Definition value_eqb (a b : value) : bool :=
  match a, b with
  | Int m, Int n => m =? n
  | Text s, Text t => String.eqb s t
  | _, _ => false
  end.

(** The truth value of an argument: zero and the empty text are false. *)
Definition value_truthy (v : value) : bool :=
  match v with
  | Int n => negb (n =? 0)
  | Text s => Str.truthy s
  end.

(** [list(filter(lambda card: card[_field] == _state, _use_list))] *)
Fixpoint matching (_field : string) (_state : value) (_use_list : list card)
  : error + list card :=
  match _use_list with
  | [] => inr []
  | c :: rest =>
      match item c _field with
      | inl e => inl e
      | inr v =>
          match matching _field _state rest with
          | inl e => inl e
          | inr found => inr (if value_eqb v _state then c :: found else found)
          end
      end
  end.

(** [Card.get_by(field=None, state=None, use_list=None)] on a deck
    [options]. *)
Definition get_by (options : list card) (field : option string) (state : option value)
           (use_list : option (list card)) : error + list card :=
  let _field := match field with
                | Some f => if Str.truthy f then f else Status.STATUS
                | None => Status.STATUS
                end in
  let _state := match state with
                | Some v => if value_truthy v then v else Int Status.VALID
                | None => Int Status.VALID
                end in
  let _use_list := match use_list with
                   | Some (c :: rest) => c :: rest
                   | _ => options
                   end in
  matching _field _state _use_list.

(** [cards[randint(0, len(cards) - 1)]]: the library refuses the empty
    range of an empty list with a [ValueError]. *)
Definition pick (g : generator) (pos : nat) (cards : list card) : (error + card) * nat :=
  if Py.len cards - 1 <? 0
  then (inl (Raised (ValueError "empty range for randrange()")), pos)
  else match Py.getitem cards (randint_at g pos 0 (Py.len cards - 1)) with
       | Some c => (inr c, S pos)
       | None => (inl (Raised IndexError), S pos)
       end.

(** [Card.generic()] *)
Definition generic (g : generator) (pos : nat) (options : list card)
  : (error + card) * nat :=
  match get_by options None None None with
  | inr cards => pick g pos cards
  | inl e => (inl e, pos)
  end.

(** [_card = card if card else Status.VISA] *)
Definition _card (card : option string) : string :=
  match card with
  | Some c => if Str.truthy c then c else Status.VISA
  | None => Status.VISA
  end.

(** [_status = status if status else Status.VALID] *)
Definition _status (status : option Z) : Z :=
  match status with
  | Some n => if negb (n =? 0) then n else Status.VALID
  | None => Status.VALID
  end.

(** [Utility.get_test_credit_card(card=None, status=None)], the deck
    being the one that [Card()] has read. *)
Definition get_test_credit_card (g : generator) (pos : nat) (options : list card)
           (card : option string) (status : option Z)
  : (error + string * string) * nat :=
  match get_by options (Some Status.STATUS) (Some (Int (_status status))) None with
  | inl e => (inl e, pos)
  | inr test_cards =>
      match get_by options (Some Status.TYPE) (Some (Text (_card card))) (Some test_cards) with
      | inl e => (inl e, pos)
      | inr test_cards =>
          match pick g pos test_cards with
          | (inr use_card, pos') => (inr (number use_card, cvv use_card), pos')
          | (inl e, pos') => (inl e, pos')
          end
      end
  end.

End Card.

(** ** utils/utilities.py: waiting for a page behind an external link *)

(** [url if url else ...]: no URL, or an empty one. *)
Definition url_given (url : option string) : option string :=
  match url with
  | Some u => if Str.truthy u then Some u else None
  | None => None
  end.

(** [destination.wait_for_page_to_load()] *)
Definition wait_for_page_to_load (destination : page) : M site request unit :=
  call (WaitForPageToLoad destination)
       (fun s log => if page_loads s log destination then inr tt
                     else inl (TimeoutException "")).

(** [utils.utilities.go_to_external_(destination, url=None)] *)
Definition go_to_external_ (destination : page) (url : option string)
  : M site request page :=
  loaded <- match url_given url with
            | Some u =>
                r <- try_ (wait_for_page_to_load destination) ;;
                match r with
                | inr _ => ret true
                | inl (TimeoutException _) => emit (Get u) ;; ret false
                | inl e => raise e
                end
            | None => ret false
            end ;;
  if loaded : bool then ret destination
  else
    call (WaitForPageToLoad destination)
         (fun s log =>
            if page_loads s log destination then inr destination
            else inl (TimeoutException
                        ("Expected page <" ++ class_name destination ++
                         "> failed to load" ++
                         match url_given url with
                         | Some u => " (URL: " ++ u ++ ")"
                         | None => ""
                         end ++
                         "; ended at: " ++ current_url s log)%string)).

(** ** pages/accounts/signup.py: the request for faculty access *)

Module FacultyAccess.
Import SignupOld.

(** [subject_list(Utility.random(1, 5))]: the selection that
    [instructor_access] falls back on and that the signup tests ask for. *)
Definition random_subjects (g : generator) (fuel : nat) (pos : nat)
  : outcome (list string) * nat :=
  let (size, pos') := Utility.random g pos 1 5 in
  subject_list g fuel size pos'.

Definition _apply_role_locator : locator := (CSS_SELECTOR, "#apply_role").
Definition _apply_email_locator : locator := (CSS_SELECTOR, "#apply_email").
Definition _apply_phone_locator : locator := (CSS_SELECTOR, "#apply_phone_number").
Definition _apply_school_locator : locator := (CSS_SELECTOR, "#apply_school").
Definition _apply_student_locator : locator := (CSS_SELECTOR, "#apply_num_students").
Definition _apply_url_locator : locator := (CSS_SELECTOR, "#apply_url").
Definition _apply_using_locator : locator := (CSS_SELECTOR, "#apply_using_openstax").
Definition _apply_newsletter_locator : locator := (CSS_SELECTOR, "#apply_newsletter").

(** [if not interests: interests = self.subject_list(Utility.random(1, 5))];
    the model of the generator is pure, so the draw is made by a
    computation that asks the site nothing. *)
Definition interests_or_random (g : generator) (fuel : nat) (pos : nat)
           (interests : option (list string)) : M site request (list string) :=
  match interests with
  | Some (title :: rest) => ret (title :: rest)
  | _ =>
      match fst (random_subjects g fuel pos) with
      | Returns drawn => ret drawn
      | Raises e => raise e
      | OutOfFuel => out_of_fuel
      end
  end.

(** [for book in books: if book.find_element(label).text in interests:
    Utility.click_option(driver, element=book.find_element(checkbox))] *)
Definition check_books (shown interests : list string) : M site request unit :=
  fold_left (fun (done : M site request unit) (title : string) =>
               done ;;
               if Py.contains string_dec title interests
               then emit (SelectSubject title) else ret tt)
            shown (ret tt).

(** [SignupOld.instructor_access(role, school_email, phone_number, school,
    webpage, students=None, using=None, interests=None,
    get_newsletter=True)].  The books are the elements of class
    [subject], read as [subject_titles]; a [Utility.scroll_to] on its own
    is no request. *)
Definition instructor_access (g : generator) (fuel : nat) (pos : nat)
           (role : string) (school_email phone_number school webpage : option string)
           (students using_ : option string) (interests : option (list string))
           (get_newsletter : bool) : M site request unit :=
  emit (Select _apply_role_locator (Some role)) ;;
  emit (SendKeys _apply_email_locator school_email) ;;
  emit (SendKeys _apply_phone_locator phone_number) ;;
  emit (SendKeys _apply_school_locator school) ;;
  (if String.eqb role INSTRUCTOR
   then emit (SendKeys _apply_student_locator students) else ret tt) ;;
  emit (SendKeys _apply_url_locator webpage) ;;
  (if String.eqb role INSTRUCTOR
   then emit (Select _apply_using_locator using_) else ret tt) ;;
  books <- ask subject_titles ;;
  interests <- interests_or_random g fuel pos interests ;;
  check_books books interests ;;
  (if negb get_newsletter then emit (Click _apply_newsletter_locator) else ret tt) ;;
  next ;;
  InstructorNotice.get_confirmation_email ;;
  next.

End FacultyAccess.

(** ** What the further properties are stated with *)

Module Notions.
Import UtilityHelpers SignupOld FacultyAccess Observations.

Definition is_digit (c : ascii) : Prop := In c (list_ascii_of_string "0123456789").

(** The calls of [target] before the call [k] were all answered with an
    error that [except WebDriverException] catches. *)
Definition blocked_before (target : nat -> option exn) (k : nat) : Prop :=
  forall j, (j < k)%nat -> exists e, target j = Some e /\ is_WebDriverException e = true.

(** A target that an overlay covers during the first three calls. *)
Definition covered_thrice (k : nat) : option exn :=
  if (k <? 3)%nat then Some ElementClickInterceptedException else None.

(** A deck with one declined Visa card and one valid Mastercard. *)
Definition small_deck : list Card.card := [
  {| Card.number := "4000111111111115"; Card.cvv := "123"; Card.type := Status.VISA;
     Card.status := Status.OTHER; Card.response := Status.DECLINED; Card.data := "" |};
  {| Card.number := "5555555555554444"; Card.cvv := "456"; Card.type := Status.MC;
     Card.status := Status.VALID; Card.response := ""; Card.data := "" |}
].

(** A browser with two windows, the first one current, whose link opens
    nothing new. *)
Definition two_windows : windows := {|
  current_window_handle _ := "CDwindow-1";
  window_handles _ := ["CDwindow-1"; "CDwindow-2"];
  click_raises _ := None;
  action_returns _ := inr (Some "data")
|}.

(** A page that loads only after it has been requested by its URL. *)
Definition loads_after_get : site := {|
  current_url _ := "https://openstax.org/";
  execute_script _ _ := JsNull;
  element_text _ _ := None;
  element_appears _ _ := false;
  page_loads log _ :=
    existsb (fun r => match r with Get _ => true | _ => false end) log;
  wait_for_mail _ _ := [];
  webmail_emails _ := [];
  gmail_latest_pin _ _ := "";
  subject_titles _ := []
|}.

Definition is_native_click (c : command) : bool :=
  match c with NativeClick _ => true | _ => false end.

(** The number of clicks of the driver itself in a log. *)
Definition native_clicks (log : list command) : nat :=
  List.length (filter is_native_click log).

(** A click is bypassed when it is forced to the script or the browser
    is Safari. *)
Definition bypassed (d : driver) (force_js_click : bool) : bool :=
  force_js_click || String.eqb (Str.lower (browserName d)) "safari".

(** A Safari that takes every click. *)
Definition safari : driver := {|
  browserName := "Safari";
  find_element _ _ := inr 7%nat;
  element_click _ _ := None;
  javascript_click _ _ := None
|}.

(** The entries of the form of [instructor_access], in the order in
    which they are made. *)
Definition access_form_filled (role : string)
           (school_email phone_number school webpage students using_ : option string)
  : list request :=
  [Select _apply_role_locator (Some role);
   SendKeys _apply_email_locator school_email;
   SendKeys _apply_phone_locator phone_number;
   SendKeys _apply_school_locator school] ++
  (if String.eqb role INSTRUCTOR then [SendKeys _apply_student_locator students] else []) ++
  [SendKeys _apply_url_locator webpage] ++
  (if String.eqb role INSTRUCTOR then [Select _apply_using_locator using_] else []).

(** The books of a page that are among the titles given, in page order. *)
Definition books_checked (shown interests : list string) : list request :=
  map SelectSubject (filter (fun title => Py.contains string_dec title interests) shown).

(** No list of interests, or an empty one. *)
Definition no_interests (interests : option (list string)) : Prop :=
  interests = None \/ interests = Some [].

(** A request for access by an instructor who names two books and
    wants no news, on the site [smooth]. *)
Definition access_requested : list request :=
  Eval vm_compute in
    snd (instructor_access cycling 10 0 INSTRUCTOR (Some "ana.lee@rice.edu")
                           (Some "7135550123") (Some "Rice University")
                           (Some "http://openstax.org") (Some "40")
                           (Some "Interested in using OpenStax in the future")
                           (Some ["Biology"; "Calculus"]) false smooth []).

(** The page that [account_signup] hands back. *)
Definition landing (tutor : bool) (destination : option page) : page :=
  if tutor then TermsPage
  else match destination with
       | Some p => p
       | None => ProfilePage
       end.

(** The controls of the profile form that only an elevated role is
    asked to fill: the phone number, the number of students, the web
    page, the use of OpenStax, the subjects, and the box that asks for a
    confirmation message. *)
Definition is_instructor_control (r : request) : bool :=
  match r with
  | SendKeys l _ =>
      locator_eqb l InstructorVerification._phone_locator ||
      locator_eqb l InstructorVerification._student_number_locator ||
      locator_eqb l InstructorVerification._webpage_verification_locator
  | Select l _ => locator_eqb l InstructorVerification._using_openstax_locator
  | SelectSubject _ => true
  | Click l => locator_eqb l InstructorNotice._get_email_confirmation_locator
  | _ => false
  end.

(** The choice of a role and the agreement to the terms. *)
Definition is_role_or_terms (r : request) : bool :=
  match r with
  | Select l _ => locator_eqb l UserType._signup_role_locator
  | Click l => locator_eqb l UserFields._policy_agreement_locator
  | _ => false
  end.

(** A request to one of the mail services. *)
Definition is_mail (r : request) : bool :=
  match r with
  | WaitForMail _ | ReadGmail _ | OpenWebmail | WebmailLogIn _ _ | WaitForNewPin => true
  | _ => false
  end.

(** The keys of the catalog, as the documentation of [account_signup]
    lists them. *)
Definition keys : list string := map fst SUBJECTS.

(** A page that shows an alert once the address has been submitted. *)
Definition address_taken : site := {|
  current_url _ := "https://accounts.openstax.org/signup";
  execute_script _ _ := JsNull;
  element_text log _ :=
    if (count is_next log =? 0)%nat then None else Some "  Email already in use  ";
  element_appears _ _ := false;
  page_loads _ _ := true;
  wait_for_mail _ _ := [{| pin := "482913" |}];
  webmail_emails _ := [];
  gmail_latest_pin _ _ := "";
  subject_titles _ := []
|}.

(** The keyword arguments of a student. *)
Definition student_details : kwargs := {|
  email_password := None;
  name := Some [""; "Ana"; "Lee"; ""];
  news := Some false;
  phone := None;
  school := Some "OpenStax Automation";
  social := None;
  social_login := None;
  social_password := None;
  students := None;
  subjects := None;
  use := None;
  webpage := None
|}.

(** The requests of a student signup on the site [smooth]. *)
Definition student_signed_up : list request :=
  Eval vm_compute in
    snd (account_signup 5 "https://accounts.openstax.org" "ana.lee@restmail.net"
                        (Some "pw") STUDENT "restmail" false None student_details
                        smooth []).

(** The subjects of the catalog that are asked for and shown. *)
Definition wanted_and_shown (kw : kwargs) (shown : list string) : list string :=
  filter (fun title => Py.contains string_dec title titles &&
                       Py.contains string_dec title (requested_subjects kw)) shown.

(** An instructor who names the subjects by their keys. *)
Definition subjects_by_key : kwargs := {|
  email_password := None;
  name := Some [""; "Ana"; "Lee"; ""];
  news := Some false;
  phone := Some "7135550123";
  school := Some "Rice University";
  social := None;
  social_login := None;
  social_password := None;
  students := Some 40;
  subjects := Some ["biology"; "calculus"];
  use := Some "Interested in using OpenStax in the future";
  webpage := Some "http://openstax.org"
|}.

(** The requests of the PIN loop on the site [smooth], which accepts
    the third submission. *)
Definition pin_verified : list request :=
  Eval vm_compute in
    snd (verify_the_pin 5 "https://accounts.openstax.org" "ana.lee@restmail.net"
                        "restmail" student_details smooth []).

(** The page that [StudentSignup.sign_up] hands back. *)
Definition arrival (destination : option page) : page :=
  match destination with
  | Some p => p
  | None => ProfilePage
  end.

(** The requests of a student who signs up on the new pages of the
    site [accepting]. *)
Definition student_registered : list request :=
  Eval vm_compute in
    snd (StudentSignup.sign_up "Ana" "Lee"
           {| account := "ana.lee"; address := "ana.lee@restmail.net" |}
           "pw" None accepting []).

End Notions.

(** ** Properties of the list primitives *)

Module PyFacts.
Import Py.

Lemma contains_true {A} eq_dec (x : A) l : contains eq_dec x l = true <-> In x l.
Proof. unfold contains. destruct (in_dec eq_dec x l); split; intros; congruence || assumption. Qed.

Lemma contains_false {A} eq_dec (x : A) l : contains eq_dec x l = false <-> ~ In x l.
Proof. unfold contains. destruct (in_dec eq_dec x l); split; intros; congruence || tauto. Qed.









End PyFacts.

(** ** Running a sequence of calls step by step *)

Module CallFacts.

Section Run.
Context {E V : Type}.

Lemma run_bind {A B} (m : M E V A) (f : A -> M E V B) s log a log' :
  m s log = (Returns a, log') -> bind m f s log = f a s log'.
Proof. intros H. cbn [bind Monad_M]. unfold M_bind. now rewrite H. Qed.

Lemma run_bind_raises {A B} (m : M E V A) (f : A -> M E V B) s log e log' :
  m s log = (Raises e, log') -> bind m f s log = (Raises e, log').
Proof. intros H. cbn [bind Monad_M]. unfold M_bind. now rewrite H. Qed.

Lemma run_ret {A B} (a : A) (f : A -> M E V B) s log :
  bind (ret a) f s log = f a s log.
Proof. reflexivity. Qed.

Lemma run_ret_eq {A B} (a : A) (f : A -> M E V B) :
  bind (ret a) f = f a.
Proof. reflexivity. Qed.


Lemma run_emit {B} r (f : unit -> M E V B) s log :
  bind (emit r) f s log = f tt s (log ++ [r]).
Proof. reflexivity. Qed.

Lemma run_ask {A B} (read : E -> list V -> A) (f : A -> M E V B) s log :
  bind (ask read) f s log = f (read s log) s log.
Proof. reflexivity. Qed.

Lemma run_call {A B} r (answer : E -> list V -> exn + A)
      (f : A -> M E V B) s log a :
  answer s log = inr a -> bind (call r answer) f s log = f a s (log ++ [r]).
Proof. intros H. apply run_bind. unfold call. now rewrite H. Qed.

End Run.

End CallFacts.

(** ** Properties of the utilities *)

Module UtilityFacts.
Import Utility Observations.





(** *** The rejection loop of [random_set] *)

Section RejectionLoop.
Context {A : Type} (eq_dec : forall x y : A, {x = y} + {x <> y}).
Variable g : generator.
Hypothesis Hg : lawful g.
Variable group : list A.
Variable size : Z.
Hypothesis Hgroup : 2 <= Py.len group.

Lemma getitem_nth (k : nat) x :
  nth_error group k = Some x -> Py.getitem group (Z.of_nat k) = Some x.
Proof.
  intros H. unfold Py.getitem.
  destruct (Z.leb_spec 0 (Z.of_nat k)); [|lia].
  now rewrite Nat2Z.id.
Qed.

Lemma getitem_in_range k :
  0 <= k <= Py.len group - 1 ->
  exists x, Py.getitem group k = Some x /\ In x group.
Proof.
  intros Hk. unfold Py.getitem, Py.len in *.
  destruct (Z.leb_spec 0 k); [|lia].
  destruct (nth_error group (Z.to_nat k)) as [x|] eqn:E.
  - exists x. split; [reflexivity|]. eapply nth_error_In; eassumption.
  - apply nth_error_None in E. lia.
Qed.

(** One turn of the loop while the selection is still short. *)
Lemma loop_step fuel new_set pos :
  Py.len new_set < size ->
  exists x,
    Py.getitem group (randint_at g pos 0 (Py.len group - 1)) = Some x /\
    In x group /\
    random_set_loop eq_dec g (S fuel) group size new_set pos =
      if Py.contains eq_dec x new_set
      then random_set_loop eq_dec g fuel group size new_set (S pos)
      else random_set_loop eq_dec g fuel group size (new_set ++ [x]) (S pos).
Proof.
  intros Hshort.
  destruct (getitem_in_range (randint_at g pos 0 (Py.len group - 1)))
    as (x & Hx & Hin).
  { apply (randint_range g Hg). lia. }
  exists x. split; [exact Hx|]. split; [exact Hin|].
  cbn [random_set_loop]. unfold random.
  destruct (Z.ltb_spec (Py.len new_set) size); [|lia].
  destruct (Z.geb_spec 0 (Py.len group - 1)); [lia|].
  now rewrite Hx.
Qed.

Lemma loop_done fuel new_set pos :
  size <= Py.len new_set ->
  random_set_loop eq_dec g (S fuel) group size new_set pos = (Returns new_set, pos).
Proof.
  intros H. cbn [random_set_loop].
  destruct (Z.ltb_spec (Py.len new_set) size); [lia | reflexivity].
Qed.

Lemma len_snoc (l : list A) x : Py.len (l ++ [x]) = Py.len l + 1.
Proof. unfold Py.len. rewrite length_app. cbn [List.length]. lia. Qed.

Lemma NoDup_snoc (l : list A) x : NoDup l -> ~ In x l -> NoDup (l ++ [x]).
Proof.
  intros Hl Hx. apply NoDup_app; [exact Hl | repeat constructor; intros [] | ].
  intros y Hy [<- | []]. contradiction.
Qed.

Lemma incl_snoc (l : list A) x : incl l group -> In x group -> incl (l ++ [x]) group.
Proof.
  intros Hl Hx. apply incl_app; [exact Hl|]. intros y [<- | []]. exact Hx.
Qed.

(** What the loop returns, when it returns. *)
Lemma loop_returns fuel : forall new_set pos l pos',
  random_set_loop eq_dec g fuel group size new_set pos = (Returns l, pos') ->
  NoDup new_set -> incl new_set group ->
  NoDup l /\ incl l group /\ (Py.len new_set <= size -> Py.len l = size).
Proof.
  induction fuel as [|fuel IH]; intros new_set pos l pos' Hrun Hnd Hincl.
  - discriminate.
  - destruct (Z.lt_ge_cases (Py.len new_set) size) as [Hshort | Hfull].
    + destruct (loop_step fuel new_set pos Hshort) as (x & _ & Hx & Heq).
      rewrite Heq in Hrun.
      destruct (Py.contains eq_dec x new_set) eqn:E.
      * exact (IH _ _ _ _ Hrun Hnd Hincl).
      * apply PyFacts.contains_false in E.
        destruct (IH _ _ _ _ Hrun (NoDup_snoc _ _ Hnd E) (incl_snoc _ _ Hincl Hx))
          as (H1 & H2 & H3).
        repeat split; try assumption. intros _. apply H3.
        rewrite len_snoc. lia.
    + rewrite loop_done in Hrun by exact Hfull.
      inversion Hrun; subst. repeat split; try assumption. lia.
Qed.

(** The index is always inside the list: the loop raises nothing. *)
Lemma loop_no_raise fuel : forall new_set pos e pos',
  random_set_loop eq_dec g fuel group size new_set pos <> (Raises e, pos').
Proof.
  induction fuel as [|fuel IH]; intros new_set pos e pos'.
  - discriminate.
  - destruct (Z.lt_ge_cases (Py.len new_set) size) as [Hshort | Hfull].
    + destruct (loop_step fuel new_set pos Hshort) as (x & _ & _ & ->).
      destruct (Py.contains eq_dec x new_set); apply IH.
    + rewrite loop_done by exact Hfull. discriminate.
Qed.

(** If a value outside the selection is drawn [d] draws from now, the
    selection grows after at most [d + 1] turns. *)
Lemma loop_progress : forall d new_set pos x,
  Py.len new_set < size ->
  Py.getitem group (randint_at g (pos + d) 0 (Py.len group - 1)) = Some x ->
  ~ In x new_set ->
  exists f1 y pos',
    In y group /\ ~ In y new_set /\
    forall f, random_set_loop eq_dec g (f1 + f) group size new_set pos =
              random_set_loop eq_dec g f group size (new_set ++ [y]) pos'.
Proof.
  induction d as [|d IH]; intros new_set pos x Hshort Hdraw Hnew.
  - rewrite Nat.add_0_r in Hdraw.
    exists 1%nat, x, (S pos).
    destruct (loop_step 0 new_set pos Hshort) as (x' & Hx' & Hin & _).
    assert (x' = x) by congruence. subst x'.
    split; [exact Hin|]. split; [exact Hnew|]. intros f.
    destruct (loop_step f new_set pos Hshort) as (x' & Hx'' & _ & Heq).
    assert (x' = x) by congruence. subst x'.
    cbn [Nat.add]. rewrite Heq.
    now rewrite (proj2 (PyFacts.contains_false eq_dec x new_set) Hnew).
  - destruct (loop_step 0 new_set pos Hshort) as (x0 & Hx0 & Hin0 & _).
    destruct (Py.contains eq_dec x0 new_set) eqn:E.
    + rewrite <- Nat.add_succ_comm in Hdraw.
      destruct (IH new_set (S pos) x Hshort Hdraw Hnew)
        as (f1 & y & pos' & Hy & Hy' & Hrun).
      exists (S f1), y, pos'. split; [exact Hy|]. split; [exact Hy'|].
      intros f. cbn [Nat.add].
      destruct (loop_step (f1 + f) new_set pos Hshort) as (x' & Hx' & _ & Heq).
      assert (x' = x0) by congruence. subst x'.
      rewrite Heq, E. apply Hrun.
    + exists 1%nat, x0, (S pos). apply PyFacts.contains_false in E.
      split; [exact Hin0|]. split; [exact E|]. intros f.
      destruct (loop_step f new_set pos Hshort) as (x' & Hx' & _ & Heq).
      assert (x' = x0) by congruence. subst x'.
      cbn [Nat.add]. rewrite Heq.
      now rewrite (proj2 (PyFacts.contains_false eq_dec x0 new_set) E).
Qed.

(** A selection shorter than the number of distinct values of [group]
    misses one of them. *)
Lemma missing_value new_set :
  NoDup new_set ->
  Py.len new_set < Py.len (nodup eq_dec group) ->
  exists k x, (k < List.length group)%nat /\ nth_error group k = Some x /\
              ~ In x new_set.
Proof.
  intros Hnd Hlt.
  destruct (Forall_Exists_dec (fun x => In x new_set)
                              (fun x => in_dec eq_dec x new_set) group)
    as [Hall | Hex].
  - exfalso.
    assert (Hincl : incl (nodup eq_dec group) new_set).
    { intros x Hx. apply nodup_In in Hx.
      rewrite Forall_forall in Hall. now apply Hall. }
    apply NoDup_incl_length in Hincl; [|apply NoDup_nodup].
    unfold Py.len in Hlt. lia.
  - apply Exists_exists in Hex. destruct Hex as (x & Hin & Hnot).
    apply In_nth_error in Hin. destruct Hin as (k & Hk).
    exists k, x. split; [|split; assumption].
    apply nth_error_Some. congruence.
Qed.

(** With a fair generator the loop comes to an end whenever [group]
    has [size] distinct values. *)
Lemma loop_terminates :
  fair g 0 (Py.len group - 1) ->
  size <= Py.len (nodup eq_dec group) ->
  forall n new_set pos,
    Z.to_nat (size - Py.len new_set) = n ->
    NoDup new_set -> incl new_set group ->
    exists fuel l pos',
      random_set_loop eq_dec g fuel group size new_set pos = (Returns l, pos').
Proof.
  intros Hfair Hdistinct.
  induction n as [|n IH]; intros new_set pos Hn Hnd Hincl.
  - exists 1%nat, new_set, pos. apply loop_done. lia.
  - assert (Hshort : Py.len new_set < size) by lia.
    destruct (missing_value new_set Hnd) as (k & x & Hk & Hx & Hnew); [lia|].
    destruct (Hfair pos (Z.of_nat k)) as (m & Hm & Hdraw).
    { unfold Py.len. lia. }
    apply getitem_nth in Hx. rewrite <- Hdraw in Hx.
    replace m with (pos + (m - pos))%nat in Hx by lia.
    destruct (loop_progress _ _ _ _ Hshort Hx Hnew)
      as (f1 & y & pos1 & Hy & Hy' & Hrun).
    destruct (IH (new_set ++ [y]) pos1) as (fuel & l & pos' & Hend).
    { rewrite len_snoc. lia. }
    { now apply NoDup_snoc. }
    { now apply incl_snoc. }
    exists (f1 + fuel)%nat, l, pos'. now rewrite Hrun.
Qed.

(** Without [size] distinct values in [group] the loop never ends. *)
Lemma loop_diverges fuel pos :
  Py.len (nodup eq_dec group) < size ->
  fst (random_set_loop eq_dec g fuel group size [] pos) = OutOfFuel.
Proof.
  intros Hfew.
  destruct (random_set_loop eq_dec g fuel group size [] pos) as [[l | e |] pos'] eqn:E.
  - exfalso.
    destruct (loop_returns _ _ _ _ _ E) as (Hnd & Hincl & Hlen);
      [constructor | intros ? [] |].
    assert (Hsub : incl l (nodup eq_dec group)).
    { intros x Hx. apply nodup_In. now apply Hincl. }
    apply NoDup_incl_length in Hsub; [|exact Hnd].
    assert (0 <= Py.len (nodup eq_dec group)) by (unfold Py.len; lia).
    unfold Py.len in *. cbn [List.length] in Hlen. lia.
  - exfalso. eapply loop_no_raise; eassumption.
  - reflexivity.
Qed.

End RejectionLoop.

Lemma cycling_lawful : lawful cycling.
Proof.
  split.
  - intros n a b Hab. cbn.
    assert (0 <= Z.of_nat n mod (b - a + 1) < b - a + 1)
      by (apply Z.mod_pos_bound; lia).
    lia.
  - intros n. unfold cycling. cbn [random_at].
    unfold Qle, Qlt. cbn [Qnum Qden].
    assert (n mod 7 < 7)%nat by (apply Nat.mod_upper_bound; lia).
    lia.
Qed.

Lemma cycling_fair a b : a <= b -> fair cycling a b.
Proof.
  intros Hab n k Hk.
  exists (n * Z.to_nat (b - a + 1) + Z.to_nat (k - a))%nat. split; [nia|].
  cbn [randint_at cycling].
  rewrite Nat2Z.inj_add, Nat2Z.inj_mul, !Z2Nat.id by lia.
  replace (Z.of_nat n * (b - a + 1) + (k - a))
    with ((k - a) + Z.of_nat n * (b - a + 1)) by lia.
  rewrite Z.mod_add by lia.
  rewrite Z.mod_small by lia. lia.
Qed.



Example summed_list_run :
  summed_list cycling 0 4 100 = (Returns [0; 14; 14; 72], 3%nat).
Proof. reflexivity. Qed.

(** C10. [random_set] on a list without repeated values: the empty list
    for [size <= 0], the list itself for [size >= len(group)], otherwise
    (the generator being fair) a selection of exactly [size] distinct
    members of [group].  When [group] has fewer than [size] distinct
    values and [0 < size < len(group)], the call never returns. *)
Theorem random_set_spec {A} (eq_dec : forall x y : A, {x = y} + {x <> y})
        (g : generator) (group : list A) (size : Z) :
  lawful g ->
  (NoDup group ->
     (size <= 0 ->
        forall fuel pos, random_set eq_dec g fuel group size pos = (Returns [], pos)) /\
     (Py.len group <= size ->
        forall fuel pos, random_set eq_dec g fuel group size pos = (Returns group, pos)) /\
     (0 < size < Py.len group ->
        (fair g 0 (Py.len group - 1) ->
           forall pos, exists fuel l pos',
             random_set eq_dec g fuel group size pos = (Returns l, pos')) /\
        (forall fuel pos l pos',
           random_set eq_dec g fuel group size pos = (Returns l, pos') ->
           NoDup l /\ Py.len l = size /\ incl l group))) /\
  (0 < size < Py.len group -> Py.len (nodup eq_dec group) < size ->
     forall fuel pos, fst (random_set eq_dec g fuel group size pos) = OutOfFuel).
Proof.
  intros Hg. split.
  - intros Hnd. split; [|split].
    + intros Hsize fuel pos. unfold random_set.
      destruct (Z.leb_spec size 0); [reflexivity | lia].
    + intros Hsize fuel pos. unfold random_set.
      destruct (Z.leb_spec size 0).
      * destruct group; [reflexivity|]. unfold Py.len in Hsize. cbn in Hsize. lia.
      * destruct (Z.geb_spec size (Py.len group)); [reflexivity | lia].
    + intros Hsize.
      assert (Hunfold : forall fuel pos,
                 random_set eq_dec g fuel group size pos =
                 random_set_loop eq_dec g fuel group size [] pos).
      { intros. unfold random_set.
        destruct (Z.leb_spec size 0); [lia|].
        destruct (Z.geb_spec size (Py.len group)); [lia | reflexivity]. }
      split.
      * intros Hfair pos.
        assert (Hgroup : 2 <= Py.len group) by lia.
        assert (Hdistinct : size <= Py.len (nodup eq_dec group))
          by (rewrite (nodup_fixed_point eq_dec Hnd); lia).
        destruct (loop_terminates eq_dec g Hg group size Hgroup Hfair Hdistinct
                                  _ [] pos eq_refl)
          as (fuel & l & pos' & Hrun); [constructor | intros ? [] |].
        exists fuel, l, pos'. now rewrite Hunfold.
      * intros fuel pos l pos' Hrun. rewrite Hunfold in Hrun.
        assert (Hgroup : 2 <= Py.len group) by lia.
        destruct (loop_returns eq_dec g Hg group size Hgroup fuel [] pos l pos' Hrun)
          as (H1 & H2 & H3); [constructor | intros ? [] |].
        repeat split; try assumption. apply H3. unfold Py.len. cbn. lia.
  - intros Hsize Hfew fuel pos. unfold random_set.
    destruct (Z.leb_spec size 0); [lia|].
    destruct (Z.geb_spec size (Py.len group)); [lia|].
    apply loop_diverges; [exact Hg | lia | exact Hfew].
Qed.

Lemma random_set_spec_witness :
  (exists fuel l pos',
      random_set Z.eq_dec cycling fuel [10; 20; 30; 40] 2 0 = (Returns l, pos')) /\
  (forall fuel, fst (random_set Z.eq_dec cycling fuel [10; 10; 10] 2 0) = OutOfFuel).
Proof.
  split.
  - apply (proj1 (random_set_spec Z.eq_dec cycling [10; 20; 30; 40] 2 cycling_lawful)).
    + repeat constructor; cbn; lia.
    + cbn; lia.
    + apply cycling_fair. cbn; lia.
  - intros fuel.
    apply (proj2 (random_set_spec Z.eq_dec cycling [10; 10; 10] 2 cycling_lawful));
      cbn; lia.
Defined.

Example random_set_run :
  random_set Z.eq_dec cycling 5 [10; 20; 30; 40] 2 0 = (Returns [10; 20], 2%nat).
Proof. reflexivity. Qed.

End UtilityFacts.

(** ** Properties of the subject selection *)

Module SubjectFacts.
Import SignupOld Observations.

Lemma getitem_map {A B} (f : A -> B) (l : list A) (i : Z) :
  Py.getitem (map f l) i = option_map f (Py.getitem l i).
Proof.
  unfold Py.getitem, Py.len. rewrite length_map.
  destruct (0 <=? i); [apply nth_error_map|].
  destruct (- Z.of_nat (List.length l) <=? i); [apply nth_error_map | reflexivity].
Qed.

(** The loop of [subject_list] is the loop of [random_set] run on the
    titles. *)
Lemma subject_list_loop_random_set g fuel : forall size group pos,
  subject_list_loop g fuel size group pos =
  Utility.random_set_loop string_dec g fuel titles size group pos.
Proof.
  induction fuel as [|fuel IH]; intros size group pos; [reflexivity|].
  cbn [subject_list_loop Utility.random_set_loop].
  destruct (Py.len group <? size); [|reflexivity].
  replace (Py.len titles) with (Py.len SUBJECTS)
    by (unfold titles, Py.len; now rewrite length_map).
  destruct (Utility.random g pos 0 (Py.len SUBJECTS - 1)) as [idx pos'].
  unfold titles. rewrite getitem_map.
  destruct (Py.getitem SUBJECTS idx) as [entry|]; [|reflexivity].
  cbn [option_map]. rewrite !IH. reflexivity.
Qed.

Lemma titles_NoDup : NoDup titles.
Proof.
  replace titles with (nodup string_dec titles) by (vm_compute; reflexivity).
  apply NoDup_nodup.
Qed.

Lemma titles_len : Py.len titles = 28.
Proof. reflexivity. Qed.

Lemma SUBJECTS_len : Py.len SUBJECTS = 28.
Proof. reflexivity. Qed.

(** C5. [subject_list(size)] returns (the generator being fair) a list of
    catalog titles without repetition, of length [min(size, 28)] when
    [size >= 1]; the whole catalog, each title once, when [size] is at
    least the catalog size; the empty list when [size = 0]. *)
Theorem subject_list_spec (g : generator) (size : Z) :
  lawful g ->
  (fair g 0 (Py.len SUBJECTS - 1) ->
     forall pos, exists fuel l pos',
       subject_list g fuel size pos = (Returns l, pos')) /\
  (forall fuel pos l pos',
     subject_list g fuel size pos = (Returns l, pos') ->
     NoDup l /\ incl l titles /\
     (1 <= size -> Py.len l = Z.min size (Py.len SUBJECTS)) /\
     (Py.len SUBJECTS <= size -> Permutation l titles) /\
     (size = 0 -> l = [])).
Proof.
  intros Hg.
  assert (Hgroup : 2 <= Py.len titles) by (rewrite titles_len; lia).
  unfold subject_list. rewrite SUBJECTS_len.
  set (size' := if size >? 28 then 28 else size).
  assert (Hsize' : size' = Z.min size 28).
  { unfold size'. destruct (Z.gtb_spec size 28); lia. }
  split.
  - intros Hfair pos.
    rewrite <- titles_len in Hfair.
    destruct (UtilityFacts.loop_terminates string_dec g Hg titles size' Hgroup Hfair)
      with (n := Z.to_nat (size' - Py.len (@nil string))) (new_set := @nil string) (pos := pos)
      as (fuel & l & pos' & Hrun).
    + rewrite (nodup_fixed_point string_dec titles_NoDup), titles_len. lia.
    + reflexivity.
    + constructor.
    + intros ? [].
    + exists fuel, l, pos'. now rewrite subject_list_loop_random_set.
  - intros fuel pos l pos' Hrun.
    rewrite subject_list_loop_random_set in Hrun.
    destruct (UtilityFacts.loop_returns string_dec g Hg titles size' Hgroup
                                        fuel [] pos l pos' Hrun)
      as (Hnd & Hincl & Hlen); [constructor | intros ? [] |].
    assert (Hlen0 : size <= 0 -> l = []).
    { intros Hle. destruct fuel as [|fuel]; [discriminate|].
      rewrite UtilityFacts.loop_done in Hrun by (cbn; lia). congruence. }
    split; [exact Hnd|]. split; [exact Hincl|]. split; [|split].
    + intros H1. rewrite Hlen by (cbn; lia). exact Hsize'.
    + intros Hall. apply NoDup_Permutation_bis; [exact Hnd | | exact Hincl].
      assert (Py.len l = 28) by (rewrite Hlen by (cbn; lia); lia).
      pose proof titles_len. unfold Py.len in *. lia.
    + intros ->. now apply Hlen0.
Qed.

Lemma subject_list_spec_witness :
  exists fuel l pos', subject_list cycling fuel 30 5 = (Returns l, pos').
Proof.
  apply (proj1 (subject_list_spec cycling 30 UtilityFacts.cycling_lawful)).
  apply UtilityFacts.cycling_fair. rewrite SUBJECTS_len. lia.
Defined.

Example subject_list_run :
  subject_list cycling 10 3 0 =
  (Returns ["Accounting"; "Algebra and Trigonometry"; "American Government"], 3%nat).
Proof. reflexivity. Qed.

End SubjectFacts.

(** ** Properties of the Salesforce pagination *)

Module SalesforceFacts.
Import Salesforce Observations.

Section Pagination.
Context {R T : Type}.
Variable sf : session R.
Variable q : string.

Let token (n : nat) : string := additional_records_of (nth_page sf q n).
Let recs (n : nat) : list R := get (records_of (nth_page sf q n)) [].

Lemma truthy_nonempty s : Str.truthy s = true <-> s <> "".
Proof. destruct s; cbn; split; congruence. Qed.

Lemma truthy_empty s : Str.truthy s = false <-> s = "".
Proof. destruct s; cbn; split; congruence. Qed.

(** From page [n] on, [k] further pages carry an identifier and the next
    one does not: the loop fetches exactly those [k] pages. *)
Lemma loop_run : forall k n fuel acc reqs,
  List.length reqs = n ->
  (forall j, (n <= j < n + k)%nat -> token j <> "") ->
  token (n + k) = "" ->
  (k < fuel)%nat ->
  query_more_loop sf fuel (token n) acc reqs =
  Returns (acc ++ List.concat (map recs (seq (S n) k)), reqs ++ map token (seq n k)).
Proof.
  induction k as [|k IH]; intros n fuel acc reqs Hn Hmore Hlast Hfuel;
    (destruct fuel as [|fuel]; [lia|]); cbn [query_more_loop].
  - rewrite Nat.add_0_r in Hlast. rewrite Hlast. cbn.
    now rewrite !app_nil_r.
  - assert (Htok : token n <> "") by (apply Hmore; lia).
    apply truthy_nonempty in Htok. rewrite Htok. rewrite Hn.
    change (sf_query_more sf n (token n)) with (nth_page sf q (S n)).
    change (additional_records_of (nth_page sf q (S n))) with (token (S n)).
    change (get (records_of (nth_page sf q (S n))) []) with (recs (S n)).
    rewrite (IH (S n)).
    + cbn [seq map List.concat]. now rewrite <- !app_assoc.
    + rewrite length_app. cbn. lia.
    + intros j Hj. apply Hmore. lia.
    + now rewrite Nat.add_succ_comm.
    + lia.
Qed.

(** A loop that returns has met a page without identifier. *)
Lemma loop_stops : forall fuel n acc reqs out,
  List.length reqs = n ->
  query_more_loop sf fuel (token n) acc reqs = Returns out ->
  exists k, (k < fuel)%nat /\ token (n + k) = "" /\
            forall j, (n <= j < n + k)%nat -> token j <> "".
Proof.
  induction fuel as [|fuel IH]; intros n acc reqs out Hn Hrun; [discriminate|].
  cbn [query_more_loop] in Hrun.
  destruct (Str.truthy (token n)) eqn:E.
  - rewrite Hn in Hrun.
    change (sf_query_more sf n (token n)) with (nth_page sf q (S n)) in Hrun.
    apply IH in Hrun; [|rewrite length_app; cbn; lia].
    destruct Hrun as (k & Hk & Hlast & Hmore).
    exists (S k). split; [lia|]. split; [now rewrite <- Nat.add_succ_comm|].
    intros j Hj. destruct (Nat.eq_dec j n) as [-> | Hne].
    + now apply truthy_nonempty.
    + apply Hmore. lia.
  - exists 0%nat. split; [lia|]. split.
    + rewrite Nat.add_0_r. now apply truthy_empty.
    + intros j Hj. lia.
Qed.

Lemma loop_never_raises : forall fuel tok acc reqs e,
  query_more_loop sf fuel tok acc reqs <> Raises e.
Proof.
  induction fuel as [|fuel IH]; intros tok acc reqs e; cbn [query_more_loop].
  - discriminate.
  - destruct (Str.truthy tok); [apply IH | discriminate].
Qed.

Lemma loop_endless : forall fuel n acc reqs,
  (forall j, token j <> "") ->
  List.length reqs = n ->
  query_more_loop sf fuel (token n) acc reqs = OutOfFuel.
Proof.
  intros fuel n acc reqs Hall Hn.
  destruct (query_more_loop sf fuel (token n) acc reqs) as [out | e |] eqn:E.
  - apply loop_stops in E; [|exact Hn].
    destruct E as (k & _ & Hlast & _). now apply Hall in Hlast.
  - now apply loop_never_raises in E.
  - reflexivity.
Qed.

(** C8. [Salesforce.query] materializes in [_records] the records of
    every page in page order: a further page is requested exactly when
    the page before carried a non-empty identifier, with that identifier,
    and the requests end at the first page that carries none.  If every
    page carries one, the call never returns. *)
Theorem query_concatenates_pages (record_type : option (R -> T)) :
  (forall k, last_page sf q k ->
     forall fuel, (k < fuel)%nat ->
       exists st : state R T,
         query sf fuel q record_type = Returns st /\
         _records st = records_through sf q k /\
         requested st = identifiers_before sf q k) /\
  (forall fuel (st : state R T),
     query sf fuel q record_type = Returns st ->
     exists k, last_page sf q k /\
               _records st = records_through sf q k /\
               requested st = identifiers_before sf q k) /\
  ((forall j, additional_records_of (nth_page sf q j) <> "") ->
     forall fuel, query sf fuel q record_type = @OutOfFuel (state R T)).
Proof.
  assert (Hrun : forall k, last_page sf q k -> forall fuel, (k < fuel)%nat ->
            query_more_loop sf fuel (token 0) (recs 0) [] =
            Returns (records_through sf q k, identifiers_before sf q k)).
  { intros k [Hlast Hmore] fuel Hfuel.
    rewrite (loop_run k 0 fuel (recs 0) []); try assumption; try reflexivity.
    intros j Hj. apply Hmore. lia. }
  split; [|split].
  - intros k Hk fuel Hfuel. unfold query.
    change (additional_records_of (sf_query sf q)) with (token 0).
    change (get (records_of (sf_query sf q)) []) with (recs 0).
    rewrite (Hrun k Hk fuel Hfuel). eexists. split; [reflexivity|].
    split; reflexivity.
  - intros fuel st Hq. unfold query in Hq.
    change (additional_records_of (sf_query sf q)) with (token 0) in Hq.
    change (get (records_of (sf_query sf q)) []) with (recs 0) in Hq.
    destruct (query_more_loop sf fuel (token 0) (recs 0) []) as [[r rq] | e |] eqn:E;
      try discriminate.
    pose proof E as E'. apply loop_stops in E'; [|reflexivity].
    destruct E' as (k & Hfuel & Hlast & Hmore).
    assert (Hk : last_page sf q k).
    { split; [exact Hlast|]. intros j Hj. apply Hmore. lia. }
    rewrite (Hrun k Hk fuel Hfuel) in E. inversion E; subst.
    exists k. inversion Hq; subst. cbn. auto.
  - intros Hall fuel. unfold query.
    change (additional_records_of (sf_query sf q)) with (token 0).
    rewrite loop_endless; [reflexivity | exact Hall | reflexivity].
Qed.

End Pagination.

Lemma three_pages_end (q : string) : last_page three_pages q 2.
Proof.
  split; [reflexivity|].
  intros j Hj. destruct j as [|[|j]]; [discriminate | discriminate | lia].
Qed.

Lemma query_concatenates_pages_witness :
  exists st : state nat Z,
    query three_pages 3 "SELECT Id FROM Account" (Some Z.of_nat) = Returns st /\
    _records st = records_through three_pages "SELECT Id FROM Account" 2 /\
    requested st = identifiers_before three_pages "SELECT Id FROM Account" 2.
Proof.
  apply (proj1 (query_concatenates_pages three_pages "SELECT Id FROM Account"
                  (Some Z.of_nat)) 2%nat (three_pages_end _) 3%nat).
  lia.
Defined.

Example query_three_pages :
  query three_pages 3 "SELECT Id FROM Account" (Some (fun n : nat => Z.of_nat n)) =
  Returns {| _size := 5;
             _records := [1; 2; 3; 4; 5]%nat;
             records := [1; 2; 3; 4; 5];
             requested := ["01g-2"; "01g-4"] |}.
Proof. reflexivity. Qed.

End SalesforceFacts.

(** ** Properties of the click fallback *)

Module ClickFacts.
Import Utility Observations CallFacts.

Lemma javascript_clicks_snoc log c :
  javascript_clicks (log ++ [c]) =
  (javascript_clicks log + if is_javascript_click c then 1 else 0)%nat.
Proof.
  unfold javascript_clicks. rewrite filter_app, length_app. cbn.
  destruct (is_javascript_click c); reflexivity.
Qed.

Section Exhausted.
Variable d : driver.
Variable loc : option locator.
Hypothesis Hjs : forall log el, exists e,
  javascript_click d log el = Some e /\ is_tolerated e = true.
Hypothesis Hfind : forall log l, exists el, find_element d log l = inr el.


End Exhausted.



(** An error of the synthetic dispatch that the loop does not catch is
    raised at once. *)
Lemma attempt_raises_other_errors (d : driver) (loc : option locator)
      (target : element) (n : nat) (log : list command) (e : exn) :
  javascript_click d log target = Some e ->
  is_tolerated e = false ->
  javascript_click_attempts (S n) loc target d log =
    (Raises e, log ++ [JavascriptClick target]).
Proof.
  intros He Htol. cbn [javascript_click_attempts].
  cbn [bind Monad_M]. unfold M_bind, try_, call. rewrite He. cbn [done_or_raised].
  destruct e; try discriminate Htol; reflexivity.
Qed.


End ClickFacts.

(** ** Properties of the form submissions *)

Module FormFacts.
Import Observations.





(** The [Continue] of the educator page is more lenient: with the
    location unchanged it raises only if the page has an inline message,
    and otherwise goes on to wait for the confirmation page. *)
Lemma educator_continue_rejected (s : site) (log : list request) :
  let submitted := log ++ [Click EducatorSignup._continue_button_locator] in
  current_url s submitted = current_url s log ->
  EducatorSignup._continue s log =
    if js_truthy (execute_script s submitted INVALID_MESSAGE)
    then (Raises (AccountsException (js_text (execute_script s submitted INVALID_MESSAGE))),
          submitted)
    else go_to_ ConfirmEmailPage s submitted.
Proof.
  intros submitted Hsame. unfold EducatorSignup._continue, location.
  generalize INVALID_MESSAGE. intros script. cbn.
  fold submitted. rewrite Hsame, String.eqb_refl.
  unfold M_bind, ask. cbv beta.
  destruct (js_truthy (execute_script s submitted script)); reflexivity.
Qed.

Example continue_rejected :
  StudentSignup._continue rejecting [] =
  (Raises (AccountsException "Invalid email"),
   [Click StudentSignup._continue_button_locator]).
Proof. reflexivity. Qed.

Example continue_accepted :
  StudentSignup._continue accepting [] =
  (Returns ConfirmEmailPage,
   [Click StudentSignup._continue_button_locator; WaitForPageToLoad ConfirmEmailPage]).
Proof. reflexivity. Qed.

Example confirm_rejected :
  ConfirmEmail.confirm_my_account rejecting [] =
  (Raises (AccountsException "Invalid email"),
   [Click ConfirmEmail._confirm_my_account_button_locator]).
Proof. reflexivity. Qed.

End FormFacts.

(** ** Properties of the legacy signup workflow *)

Module WorkflowFacts.
Import SignupOld Observations CallFacts.

Lemma count_app p l1 l2 : count p (l1 ++ l2) = (count p l1 + count p l2)%nat.
Proof. unfold count. now rewrite filter_app, length_app. Qed.

Lemma count_snoc p l r : count p (l ++ [r]) = (count p l + if p r then 1 else 0)%nat.
Proof. rewrite count_app. unfold count. cbn. now destruct (p r). Qed.

(** *** How many requests of a kind a computation adds *)

Section Adding.
Variable p : request -> bool.

Lemma silent_count {A} (m : M site request A) s log :
  silent p m -> count p (snd (m s log)) = count p log.
Proof.
  intros H. destruct (H s log) as (delta & -> & Hd). rewrite count_app. lia.
Qed.

Lemma silent_nothing {A} (m : M site request A) :
  (forall s log, snd (m s log) = log) -> silent p m.
Proof. intros H s log. exists []. rewrite H, app_nil_r. split; reflexivity. Qed.

Lemma silent_ret {A} (a : A) : silent p (ret a).
Proof. now apply silent_nothing. Qed.

Lemma silent_raise {A} e : silent p (@raise site request A e).
Proof. now apply silent_nothing. Qed.

Lemma silent_out_of_fuel {A} : silent p (@out_of_fuel site request A).
Proof. now apply silent_nothing. Qed.

Lemma silent_ask {A} (read : site -> list request -> A) : silent p (ask read).
Proof. now apply silent_nothing. Qed.

Lemma silent_emit r : p r = false -> silent p (emit r).
Proof.
  intros H s log. exists [r]. split; [reflexivity|].
  unfold count. cbn. now rewrite H.
Qed.

Lemma silent_call {A} r (answer : site -> list request -> exn + A) :
  p r = false -> silent p (call r answer).
Proof.
  intros H s log. exists [r]. split.
  - unfold call. now destruct (answer s log).
  - unfold count. cbn. now rewrite H.
Qed.

Lemma silent_bind {A B} (m : M site request A) (f : A -> M site request B) :
  silent p m -> (forall a, silent p (f a)) -> silent p (bind m f).
Proof.
  intros Hm Hf s log. cbn [bind Monad_M]. unfold M_bind.
  destruct (Hm s log) as (d1 & H1 & Hc1).
  destruct (m s log) as [[a | e |] log1]; cbn [snd] in *; subst log1;
    try (now exists d1).
  destruct (Hf a s (log ++ d1)) as (d2 & H2 & Hc2).
  exists (d1 ++ d2). rewrite H2, app_assoc, count_app. split; [reflexivity | lia].
Qed.

Lemma silent_if {A} (b : bool) (m1 m2 : M site request A) :
  silent p m1 -> silent p m2 -> silent p (if b then m1 else m2).
Proof. destruct b; auto. Qed.

Lemma silent_adds {A} (m : M site request A) : silent p m -> adds p 0 m.
Proof.
  intros H s log a log' Hrun. pose proof (silent_count m s log H) as Hc.
  rewrite Hrun in Hc. cbn [snd] in Hc. lia.
Qed.

Lemma adds_raise {A} n e : adds p n (@raise site request A e).
Proof. intros s log a log' Hrun. discriminate. Qed.

Lemma adds_call {A} r (answer : site -> list request -> exn + A) :
  p r = true -> adds p 1 (call r answer).
Proof.
  intros H s log a log' Hrun. unfold call in Hrun.
  destruct (answer s log); inversion Hrun; subst.
  rewrite count_snoc, H. reflexivity.
Qed.

Lemma adds_emit r : p r = true -> adds p 1 (emit r).
Proof.
  intros H s log a log' Hrun. inversion Hrun; subst.
  rewrite count_snoc, H. reflexivity.
Qed.

Lemma adds_bind {A B} n k (m : M site request A) (f : A -> M site request B) :
  adds p n m -> (forall a, adds p k (f a)) -> adds p (n + k) (bind m f).
Proof.
  intros Hm Hf s log b log' Hrun. cbn [bind Monad_M] in Hrun. unfold M_bind in Hrun.
  destruct (m s log) as [[a | e |] log1] eqn:E; try discriminate.
  rewrite (Hf a s log1 b log' Hrun), (Hm s log a log1 E). lia.
Qed.

Lemma adds_if {A} n (b : bool) (m1 m2 : M site request A) :
  adds p n m1 -> adds p n m2 -> adds p n (if b then m1 else m2).
Proof. destruct b; auto. Qed.

End Adding.

(** Settles [silent p m] for straight-line code. *)
Ltac silence :=
  repeat first
    [ apply silent_bind; [|intros ?]
    | apply silent_ret | apply silent_raise | apply silent_ask
    | apply silent_out_of_fuel
    | apply silent_emit; reflexivity
    | apply silent_call; reflexivity
    | apply silent_if
    | match goal with
      | |- silent _ (match ?x with _ => _ end) => destruct x
      end ].

(** *** The newsletter *)

Lemma select_subjects_silent l : silent is_toggle (InstructorVerification.select_subjects l).
Proof.
  unfold InstructorVerification.select_subjects.
  apply silent_bind; [apply silent_ask|]. intros shown.
  assert (H : forall (done : M site request unit),
             silent is_toggle done ->
             silent is_toggle
               (fold_left (fun (done : M site request unit) (title : string) =>
                             done ;;
                             if Py.contains string_dec title l
                             then emit (SelectSubject title) else ret tt)
                          shown done)).
  { induction shown as [|title shown IH]; intros done Hdone; [exact Hdone|].
    cbn [fold_left]. apply IH. silence. exact Hdone. }
  apply H. silence.
Qed.

Lemma fetch_pin_silent seed_url email provider kw :
  silent is_toggle (fetch_pin seed_url email provider kw).
Proof. unfold fetch_pin, _get_pin, StudentSignup.newest_pin. silence. Qed.

Lemma verify_the_pin_silent fuel seed_url email provider kw :
  silent is_toggle (verify_the_pin fuel seed_url email provider kw).
Proof.
  induction fuel as [|fuel IH]; cbn [verify_the_pin]; [silence|].
  apply silent_bind.
  - unfold pin_attempt, PinVerification.clear_pin, PinVerification.set_verify_pin,
      PinVerification.pin_failure, next.
    apply silent_bind; [apply fetch_pin_silent|]. intros pin. silence.
  - intros failure. apply silent_if; [exact IH | silence].
Qed.

Lemma terms_and_newsletter_adds _type tutor kw :
  adds is_toggle (if no_news kw then 1 else 0) (terms_and_newsletter _type tutor kw).
Proof.
  unfold terms_and_newsletter.
  replace (if no_news kw then 1 else 0)%nat
    with ((if no_news kw then 1 else 0) + 0)%nat by lia.
  apply adds_bind.
  - destruct (no_news kw).
    + apply adds_emit. reflexivity.
    + apply silent_adds. silence.
  - intros _. apply silent_adds.
    unfold UserFields.agree_to_terms, next, assert_no_error, error. silence.
Qed.

Lemma count_after_emit {B} p r (k : M site request B) s log :
  silent p k ->
  count p (snd ((emit r ;; k) s log)) = (count p log + if p r then 1 else 0)%nat.
Proof.
  intros Hk. rewrite run_emit, (silent_count p k s _ Hk). apply count_snoc.
Qed.

Lemma count_after_ret {A B} p (a : A) (k : M site request B) s log :
  silent p k -> count p (snd ((ret a ;; k) s log)) = count p log.
Proof. intros Hk. rewrite (run_ret a). now apply silent_count. Qed.

(** The step adds its one click, or none, whether or not it ends well. *)
Lemma terms_and_newsletter_count _type tutor kw s log :
  count is_toggle (snd (terms_and_newsletter _type tutor kw s log)) =
  (count is_toggle log + if no_news kw then 1 else 0)%nat.
Proof.
  unfold terms_and_newsletter, UserFields.toggle_news.
  destruct (no_news kw).
  - rewrite count_after_emit; [reflexivity|].
    unfold UserFields.agree_to_terms, next, assert_no_error, error. silence.
  - rewrite count_after_ret; [lia|].
    unfold UserFields.agree_to_terms, next, assert_no_error, error. silence.
Qed.

(** C6. In the step that ends the profile form, a caller who asks for no
    news ([news] absent or false) gets exactly one click on the newsletter
    checkbox, a caller who asks for news gets none: whatever the site
    shows and whatever happened before.  The same count holds over a
    whole run of [account_signup] that returns. *)
Theorem newsletter_toggled_once_unless_requested
        (s : site) (log : list request) (_type : string) (tutor : bool) (kw : kwargs) :
  let after := snd (terms_and_newsletter _type tutor kw s log) in
  (news kw = None \/ news kw = Some false ->
     clicks UserFields._news_locator after = S (clicks UserFields._news_locator log)) /\
  (news kw = Some true ->
     clicks UserFields._news_locator after = clicks UserFields._news_locator log) /\
  (forall fuel seed_url email password provider destination p log',
     account_signup fuel seed_url email password _type provider tutor destination kw s log
       = (Returns p, log') ->
     clicks UserFields._news_locator log' =
     (clicks UserFields._news_locator log + if no_news kw then 1 else 0)%nat).
Proof.
  intros after.
  assert (Hstep : clicks UserFields._news_locator after =
                  (clicks UserFields._news_locator log + if no_news kw then 1 else 0)%nat)
    by apply terms_and_newsletter_count.
  split; [|split].
  - intros Hnews. rewrite Hstep. unfold no_news.
    destruct Hnews as [-> | ->]; lia.
  - intros Hnews. rewrite Hstep. unfold no_news. rewrite Hnews. lia.
  - intros fuel seed_url email password provider destination p log' Hrun.
    revert Hrun. unfold clicks.
    assert (Hadds : adds is_toggle (0 + (0 + (0 + (0 + (0 + (0 +
                      ((if no_news kw then 1 else 0) + (0 + 0))))))))
                      (account_signup fuel seed_url email password _type provider
                                      tutor destination kw)).
    { unfold account_signup.
      apply adds_bind.
      { apply silent_adds.
        unfold select_user_type_and_email, next, assert_no_error, error. silence. }
      intros _. apply adds_bind; [apply silent_adds, verify_the_pin_silent|].
      intros _. apply adds_bind.
      { apply silent_adds.
        unfold password_or_social, next, assert_no_error, error. silence. }
      intros _. apply adds_bind; [apply silent_adds; silence|].
      intros _. apply adds_bind.
      { apply silent_adds. unfold enter_user_details, name_part. silence. }
      intros _. apply adds_bind.
      { apply silent_adds. unfold select_the_subjects.
        destruct (if negb (_type =? STUDENT)%string
                  then filter (fun title => Py.contains string_dec title (requested_subjects kw))
                              titles
                  else []); [silence | apply select_subjects_silent]. }
      intros _. apply adds_bind; [apply terms_and_newsletter_adds|].
      intros _. apply adds_bind.
      { apply silent_adds.
        unfold request_confirmation, InstructorNotice.get_confirmation_email, next.
        silence. }
      intros _. apply silent_adds. unfold go_to_. silence. }
    intros Hrun. pose proof (Hadds s log p log' Hrun) as H.
    unfold is_toggle in H. rewrite H. destruct (no_news kw); lia.
Qed.

Lemma newsletter_toggled_witness :
  clicks UserFields._news_locator
         (snd (terms_and_newsletter INSTRUCTOR false instructor_details smooth [])) = 1%nat.
Proof.
  apply (proj1 (newsletter_toggled_once_unless_requested
                  smooth [] INSTRUCTOR false instructor_details)).
  right. reflexivity.
Defined.

Example newsletter_in_a_whole_run :
  clicks UserFields._news_locator
    (snd (account_signup 5 "https://accounts.openstax.org" "ana.lee@rice.edu" (Some "pw")
                         INSTRUCTOR "restmail" false None instructor_details smooth [])) = 1%nat.
Proof. reflexivity. Qed.

(** *** The extra confirmation before the PIN *)

(** When the page shows no alert after the first [next()], the legacy
    workflow confirms once more exactly for a non-student whose address
    does not end with the three letters [edu]. *)
Lemma legacy_extra_confirmation (s : site) (log : list request)
      (email _type : string) (tutor : bool) :
  let entered := log ++ role_and_email_entered email _type tutor in
  fst (error s entered) = Returns "" ->
  select_user_type_and_email email _type tutor s log =
    (Returns tt,
     entered ++
     if negb (_type =? STUDENT)%string && negb (Str.endswith email "edu")
     then [Click _next_button_locator] else []).
Proof.
  intros entered Herr.
  assert (Hsame : select_user_type_and_email email _type tutor s log =
            (assert_no_error ;;
             if negb (_type =? STUDENT)%string && negb (Str.endswith email "edu")
             then next else ret tt) s entered).
  { unfold entered, role_and_email_entered, select_user_type_and_email.
    destruct tutor; cbn; rewrite <- ?app_assoc; reflexivity. }
  rewrite Hsame. unfold assert_no_error.
  unfold error, ask in *. cbn [fst] in Herr. injection Herr as Hstrip.
  cbn [bind Monad_M]. unfold M_bind. cbn beta.
  rewrite Hstrip. cbn [Str.truthy].
  destruct (negb (_type =? STUDENT)%string && negb (Str.endswith email "edu")).
  - reflexivity.
  - cbn. now rewrite app_nil_r.
Qed.

Lemma educator_continue_accepted (s : site) (log : list request) :
  current_url s (log ++ [Click EducatorSignup._continue_button_locator]) <> current_url s log ->
  page_loads s (log ++ [Click EducatorSignup._continue_button_locator]) ConfirmEmailPage = true ->
  EducatorSignup._continue s log =
    (Returns ConfirmEmailPage,
     log ++ [Click EducatorSignup._continue_button_locator;
             WaitForPageToLoad ConfirmEmailPage]).
Proof.
  intros Hnew Hloads. apply String.eqb_neq in Hnew.
  unfold EducatorSignup._continue, location. cbn.
  rewrite Hnew. cbn. unfold go_to_, call. rewrite Hloads.
  now rewrite <- app_assoc.
Qed.

(** On a form that accepts what is submitted, the new educator signup
    continues twice before it fetches the mail exactly when the address
    does not end with [.edu], and once when it does. *)
Lemma educator_extra_confirmation (s : site) (log : list request)
      (first last : string) (email : RestMail) (password phone school : string)
      (destination : option page) :
  (forall l, current_url s (l ++ [Click EducatorSignup._continue_button_locator])
             <> current_url s l) ->
  (forall l, page_loads s l ConfirmEmailPage = true) ->
  exists rest,
    snd (EducatorSignup.sign_up first last email password phone school destination s log) =
    log ++ educator_form_filled first last email password phone ++
    (if Str.endswith (address email) ".edu" then continued else continued ++ continued) ++
    [WaitForMail (account email)] ++ rest.
Proof.
  intros Hnew Hloads.
  unfold EducatorSignup.sign_up, EducatorSignup.i_agree.
  set (after_mail := fun box : list message =>
         pin <- StudentSignup.newest_pin box ;; _).
  assert (Hrest : forall box, silent (fun _ => false) (after_mail box)).
  { intros box. unfold after_mail, StudentSignup.newest_pin, ConfirmEmail.set_pin,
      ConfirmEmail.confirm_my_account, location, CompleteSignup.finish,
      SuccessfulVerification._continue, go_to_.
    silence. }
  rewrite !run_emit.
  set (filled := (((((log ++ _) ++ _) ++ _) ++ _) ++ _) ++ _).
  assert (Hfilled : filled = log ++ educator_form_filled first last email password phone).
  { unfold filled, educator_form_filled. now rewrite <- !app_assoc. }
  destruct (Str.endswith (address email) ".edu"); cbn [negb]; cbv iota.
  - rewrite (run_ret tt).
    rewrite (run_bind _ _ _ _ _ _ (educator_continue_accepted s filled (Hnew _) (Hloads _))).
    rewrite (run_call _ _ _ _ _ _ eq_refl).
    destruct (Hrest (wait_for_mail s (filled ++ continued) (account email))
                    s ((filled ++ continued) ++ [WaitForMail (account email)]))
      as (rest & Hrun & _).
    exists rest. fold continued. rewrite Hrun, Hfilled. now rewrite <- !app_assoc.
  - rewrite (run_bind _ _ _ _ _ _
               (run_bind _ _ _ _ _ _ (educator_continue_accepted s filled (Hnew _) (Hloads _)))).
    cbv beta.
    rewrite (run_bind _ _ _ _ _ _
               (educator_continue_accepted s (filled ++ continued) (Hnew _) (Hloads _))).
    rewrite (run_call _ _ _ _ _ _ eq_refl).
    destruct (Hrest (wait_for_mail s ((filled ++ continued) ++ continued) (account email))
                    s (((filled ++ continued) ++ continued) ++ [WaitForMail (account email)]))
      as (rest & Hrun & _).
    exists rest. fold continued. rewrite Hrun, Hfilled. now rewrite <- !app_assoc.
Qed.

(** C1, at an address where the code departs from it.  An instructor
    signs up with an address whose last letters are [edu] without the dot:
    the address does not end with [.edu], and yet the legacy workflow
    goes on to the PIN after a single [next()], without the extra
    confirmation; the new educator signup, given the same address, does
    continue twice before it fetches the mail. *)
Theorem legacy_signup_takes_edu_letters_for_institution :
  let email := "ana.lee@campus.xedu" in
  let teacher := {| account := "ana.lee"; address := email |} in
  Str.endswith email ".edu" = false /\
  select_user_type_and_email email INSTRUCTOR false smooth [] =
    (Returns tt,
     [Select UserType._signup_role_locator (Some INSTRUCTOR);
      SendKeys UserType._signup_email_locator (Some email);
      Click _next_button_locator]) /\
  firstn 11 (snd (EducatorSignup.sign_up "Ana" "Lee" teacher "Sn0wLeopard!" "7135550123"
                                         "Rice University" None smooth [])) =
    educator_form_filled "Ana" "Lee" teacher "Sn0wLeopard!" "7135550123" ++
    continued ++ continued ++ [WaitForMail "ana.lee"].
Proof. repeat split. Qed.

Example legacy_confirms_for_other_domains :
  select_user_type_and_email "ana.lee@restmail.net" INSTRUCTOR false smooth [] =
  (Returns tt,
   [Select UserType._signup_role_locator (Some INSTRUCTOR);
    SendKeys UserType._signup_email_locator (Some "ana.lee@restmail.net");
    Click _next_button_locator; Click _next_button_locator]).
Proof. reflexivity. Qed.

Example legacy_skips_for_edu :
  select_user_type_and_email "ana.lee@rice.edu" INSTRUCTOR false smooth [] =
  (Returns tt,
   [Select UserType._signup_role_locator (Some INSTRUCTOR);
    SendKeys UserType._signup_email_locator (Some "ana.lee@rice.edu");
    Click _next_button_locator]).
Proof. reflexivity. Qed.

(** *** The PIN loop *)

Lemma fetch_pin_adds seed_url email provider kw :
  adds is_fetch 1 (fetch_pin seed_url email provider kw).
Proof.
  unfold fetch_pin, _get_pin.
  destruct (Str.contains "google" provider); [apply adds_call; reflexivity|].
  destruct (Str.contains "guerrilla" provider).
  - rewrite (run_ret_eq GuerrillaMailPage).
    destruct (Str.contains "restmail" provider); [apply adds_raise|].
    apply (adds_bind is_fetch 1 0); [apply adds_emit; reflexivity|].
    intros _. apply silent_adds. silence.
  - destruct (Str.contains "restmail" provider).
    + rewrite (run_ret_eq (RestMailBox _)).
      apply (adds_bind is_fetch 1 0); [apply adds_call; reflexivity|].
      intros box. apply silent_adds. unfold StudentSignup.newest_pin. silence.
    + intros s log a log' Hrun. discriminate.
Qed.

Section Loop.
Variable s : site.
Variables seed_url email provider : string.
Variable kw : kwargs.

Let after := after_attempts s seed_url email provider kw.

(** Every fetch finds a PIN. *)
Hypothesis Hfound : forall log, exists pin log',
  fetch_pin seed_url email provider kw s log = (Returns pin, log') /\ pin <> "".








End Loop.





(** *** The PIN that is submitted *)

(** [box[-1]] is the last element of a box that is not empty. *)
Lemma getitem_last {A} (l : list A) (d : A) :
  Py.getitem l (-1) = match l with [] => None | _ :: _ => Some (last l d) end.
Proof.
  unfold Py.getitem, Py.len.
  destruct l as [|x l]; [reflexivity|].
  change (0 <=? -1) with false. cbv iota.
  replace (- Z.of_nat (List.length (x :: l)) <=? -1) with true
    by (symmetry; apply Z.leb_le; cbn [List.length]; lia).
  replace (Z.to_nat (Z.of_nat (List.length (x :: l)) + -1)) with (List.length l)
    by (cbn [List.length]; lia).
  revert x. induction l as [|y l IH]; intros x; [reflexivity|].
  cbn [List.length nth_error]. rewrite IH. reflexivity.
Qed.








Example restmail_pin_is_of_last_element :
  snd (pin_attempt "https://accounts.openstax.org" "ana.lee@restmail.net"
                   "restmail" instructor_details smooth []) =
    [WaitForMail "ana.lee";
     ClearField PinVerification._pin_locator;
     SendKeys PinVerification._pin_locator (Some "482913");
     Click _next_button_locator].
Proof. reflexivity. Qed.

End WorkflowFacts.

(** ** Sequences that return *)

Module RunFacts.

(** What a sequence returns, its first part has returned before. *)
Lemma bind_returns {E V A B} (m : M E V A) (f : A -> M E V B) s log b log' :
  bind m f s log = (Returns b, log') ->
  exists a log1, m s log = (Returns a, log1) /\ f a s log1 = (Returns b, log').
Proof.
  cbn [bind Monad_M]. unfold M_bind.
  destruct (m s log) as [[a | e |] log1]; try discriminate. eauto.
Qed.

End RunFacts.

(** ** Properties of the string primitives *)

Module StrFacts.

Lemma lower_app a b : Str.lower (a ++ b) = (Str.lower a ++ Str.lower b)%string.
Proof. induction a as [|c a IH]; cbn; [reflexivity | now rewrite IH]. Qed.

Lemma lower_length s : String.length (Str.lower s) = String.length s.
Proof. induction s as [|c s IH]; cbn; [reflexivity | now rewrite IH]. Qed.

Lemma length_app a b :
  String.length (a ++ b) = (String.length a + String.length b)%nat.
Proof. induction a as [|c a IH]; cbn; [reflexivity | now rewrite IH]. Qed.

Lemma append_assoc a b c : ((a ++ b) ++ c = a ++ (b ++ c))%string.
Proof. induction a as [|x a IH]; cbn; [reflexivity | now rewrite IH]. Qed.

Lemma substring_all s : substring 0 (String.length s) s = s.
Proof. induction s as [|c s IH]; cbn; [reflexivity | now rewrite IH]. Qed.

Lemma substring_prefix a b : substring 0 (String.length a) (a ++ b) = a.
Proof.
  induction a as [|c a IH]; cbn.
  - now destruct b.
  - now rewrite IH.
Qed.

Lemma substring_skip a n m b :
  substring (String.length a + n) m (a ++ b) = substring n m b.
Proof. induction a as [|c a IH]; cbn; [reflexivity | exact IH]. Qed.

(** The end of [a ++ b] is looked for in [b] when the suffix is no
    longer than [b]. *)
Lemma endswith_app a b suffix :
  (String.length suffix <= String.length b)%nat ->
  Str.endswith (a ++ b) suffix = Str.endswith b suffix.
Proof.
  intros Hle. unfold Str.endswith. rewrite length_app.
  replace (String.length a + String.length b - String.length suffix)%nat
    with (String.length a + (String.length b - String.length suffix))%nat by lia.
  rewrite substring_skip.
  destruct (Nat.leb_spec (String.length suffix) (String.length a + String.length b));
    destruct (Nat.leb_spec (String.length suffix) (String.length b)); try lia.
  reflexivity.
Qed.

Lemma rfind_from_app c a b i found :
  Str.rfind_from c (a ++ b) i found =
  Str.rfind_from c b (i + Z.of_nat (String.length a)) (Str.rfind_from c a i found).
Proof.
  revert i found. induction a as [|x a IH]; intros i found; cbn [append Str.rfind_from].
  - cbn. now rewrite Z.add_0_r.
  - rewrite IH. cbn [String.length]. f_equal. lia.
Qed.

(** [s[:s.rfind(c)]] gives back what stands before the last [c]. *)
Lemma slice_before_last c a b :
  (forall i found, Str.rfind_from c b i found = found) ->
  Str.slice_to (a ++ String c b) (Str.rfind c (a ++ String c b)) = a.
Proof.
  intros Hb.
  unfold Str.rfind. rewrite rfind_from_app. cbn [Str.rfind_from].
  rewrite Ascii.eqb_refl, Hb.
  unfold Str.slice_to. rewrite length_app. cbn [String.length].
  destruct (Z.ltb_spec (0 + Z.of_nat (String.length a)) 0); [lia|].
  rewrite Z.min_l by lia. cbn [Z.add]. rewrite Nat2Z.id.
  apply substring_prefix.
Qed.

(** An index from 0 to [len l - 1] finds a member of [l]. *)
Lemma getitem_within {A} (l : list A) (k : Z) :
  0 <= k < Py.len l -> exists x, Py.getitem l k = Some x /\ In x l.
Proof.
  intros Hk. unfold Py.getitem, Py.len in *.
  destruct (Z.leb_spec 0 k); [|lia].
  destruct (nth_error l (Z.to_nat k)) as [x|] eqn:E.
  - exists x. split; [reflexivity|]. eapply nth_error_In; eassumption.
  - apply nth_error_None in E. lia.
Qed.

End StrFacts.

(** ** Properties of the random texts *)

Module TextFacts.
Import Utility UtilityHelpers Notions.

Lemma lower_chars s :
  list_ascii_of_string (Str.lower s) = map Str.lower_ascii (list_ascii_of_string s).
Proof. induction s as [|c s IH]; cbn; [reflexivity | now rewrite IH]. Qed.

Lemma string_of_chars_length cs :
  String.length (string_of_list_ascii cs) = List.length cs.
Proof. induction cs as [|c cs IH]; cbn; [reflexivity | now rewrite IH]. Qed.

(** The digits drawn: one draw each, all of them hexadecimal digits. *)
Lemma hex_digits_spec g : lawful g -> forall n pos,
  exists cs, hex_digits g n pos = (Returns cs, (pos + n)%nat) /\
             List.length cs = n /\
             Forall (fun c => In c (list_ascii_of_string HEX_DIGITS)) cs.
Proof.
  intros Hg. induction n as [|n IH]; intros pos.
  - exists []. rewrite Nat.add_0_r. repeat split. constructor.
  - cbn [hex_digits].
    destruct (StrFacts.getitem_within (list_ascii_of_string HEX_DIGITS)
                                      (randint_at g pos 0 15))
      as (c & Hc & Hin).
    { pose proof (randint_range g Hg pos 0 15 ltac:(lia)). cbn. lia. }
    rewrite Hc. destruct (IH (S pos)) as (cs & Hrun & Hlen & Hall).
    rewrite Hrun. exists (c :: cs). split; [f_equal; lia|].
    split; [cbn; now rewrite Hlen|]. now constructor.
Qed.

(** X1. [random_hex(length, lower)] returns a text of [length]
    characters (none for a negative [length]), each one a digit of
    [HEX_DIGITS], or its lower-case form when [lower] is set, and takes
    one draw for each character. *)
Theorem random_hex_spec (g : generator) (pos : nat) (length : Z) (lower : bool) :
  lawful g ->
  exists line,
    random_hex g pos length lower = (Returns line, (pos + Z.to_nat length)%nat) /\
    Z.of_nat (String.length line) = Z.max 0 length /\
    Forall (fun c => In c (list_ascii_of_string
                             (if lower then "0123456789abcdef" else HEX_DIGITS)))
           (list_ascii_of_string line).
Proof.
  intros Hg. unfold random_hex.
  destruct (hex_digits_spec g Hg (Z.to_nat length) pos) as (cs & Hrun & Hlen & Hall).
  rewrite Hrun. eexists. split; [reflexivity|].
  destruct lower; cbn [negb].
  - split.
    + rewrite StrFacts.lower_length, string_of_chars_length, Hlen. lia.
    + rewrite lower_chars, list_ascii_of_string_of_list_ascii.
      apply Forall_map. eapply Forall_impl; [|exact Hall].
      intros c Hc. cbn in Hc.
      repeat (destruct Hc as [<- | Hc]; [vm_compute; tauto|]).
      destruct Hc.
  - split.
    + rewrite string_of_chars_length, Hlen. lia.
    + now rewrite list_ascii_of_string_of_list_ascii.
Qed.

Lemma random_hex_spec_witness :
  exists line,
    random_hex cycling 0 20 true = (Returns line, (0 + Z.to_nat 20)%nat) /\
    Z.of_nat (String.length line) = Z.max 0 20 /\
    Forall (fun c => In c (list_ascii_of_string "0123456789abcdef"))
           (list_ascii_of_string line).
Proof. apply (random_hex_spec cycling 0 20 true UtilityFacts.cycling_lawful). Defined.

Example random_hex_run :
  random_hex cycling 3 6 false = (Returns "345678", 9%nat).
Proof. reflexivity. Qed.

(** Whatever [fake_email] returns is the lowered name with the mail
    domain behind it. *)
Lemma fake_email_shape g pos first_name surname _id email pos' :
  fake_email g pos first_name surname _id = (Returns email, pos') ->
  exists id_string,
    email = (Str.lower (first_name ++ "." ++ surname ++ "." ++ id_string)
             ++ "@restmail.net")%string /\
    (forall given_id, given _id = Some given_id -> id_string = given_id /\ pos' = pos) /\
    (given _id = None ->
       fst (random_hex g (snd (random g pos 4 7)) (fst (random g pos 4 7)) false)
         = Returns id_string).
Proof.
  unfold fake_email. intros Hrun.
  assert (Happ : forall id_string,
             Str.lower (first_name ++ "." ++ surname ++ "." ++ id_string ++ "@restmail.net")
             = (Str.lower (first_name ++ "." ++ surname ++ "." ++ id_string)
                ++ "@restmail.net")%string).
  { intros id_string.
    replace (first_name ++ "." ++ surname ++ "." ++ id_string ++ "@restmail.net")%string
      with ((first_name ++ "." ++ surname ++ "." ++ id_string) ++ "@restmail.net")%string.
    - now rewrite StrFacts.lower_app.
    - rewrite !StrFacts.append_assoc. reflexivity. }
  destruct (given _id) as [id_string|].
  - inversion Hrun; subst. exists id_string. split; [apply Happ|].
    split; [intros ? [= <-]; now split | discriminate].
  - destruct (random g pos 4 7) as [size pos1]. cbn [fst snd].
    destruct (random_hex g pos1 size false) as [[id_string | e |] pos2]; try discriminate.
    inversion Hrun; subst. exists id_string. split; [apply Happ|].
    split; [discriminate | reflexivity].
Qed.

(** X2. [fake_email(first_name, surname, _id)] returns the lower-case
    form of [first_name.surname.id] followed by [@restmail.net]; the id
    is the one given, or, when none is given ([False], [None] or the empty
    text), four to seven digits of [HEX_DIGITS] drawn for the call. *)
Theorem fake_email_spec (g : generator) (pos : nat) (first_name surname : string)
        (_id : option string) :
  lawful g ->
  exists id_string pos',
    fake_email g pos first_name surname _id =
      (Returns (Str.lower (first_name ++ "." ++ surname ++ "." ++ id_string)
                ++ "@restmail.net")%string, pos') /\
    (forall given_id, given _id = Some given_id -> id_string = given_id /\ pos' = pos) /\
    (given _id = None ->
       4 <= Z.of_nat (String.length id_string) <= 7 /\
       Forall (fun c => In c (list_ascii_of_string HEX_DIGITS))
              (list_ascii_of_string id_string)).
Proof.
  intros Hg.
  assert (Hreturns : exists email pos',
             fake_email g pos first_name surname _id = (Returns email, pos')).
  { unfold fake_email. destruct (given _id); [eauto|].
    destruct (random g pos 4 7) as [size pos1].
    destruct (random_hex_spec g pos1 size false Hg) as (line & -> & _). eauto. }
  destruct Hreturns as (email & pos' & Hrun).
  destruct (fake_email_shape _ _ _ _ _ _ _ Hrun) as (id_string & -> & Hgiven & Hdrawn).
  exists id_string, pos'. split; [exact Hrun|]. split; [exact Hgiven|].
  intros Hnone. specialize (Hdrawn Hnone).
  change (random g pos 4 7) with (randint_at g pos 4 7, S pos) in Hdrawn.
  cbn [fst snd] in Hdrawn.
  destruct (random_hex_spec g (S pos) (randint_at g pos 4 7) false Hg)
    as (line & Hline & Hlen & Hall).
  rewrite Hline in Hdrawn. cbn [fst] in Hdrawn. injection Hdrawn as <-.
  pose proof (randint_range g Hg pos 4 7 ltac:(lia)).
  split; [lia | exact Hall].
Qed.

Lemma fake_email_spec_witness :
  exists id_string pos',
    fake_email cycling 0 "Ana" "Lee" None =
      (Returns (Str.lower ("Ana" ++ "." ++ "Lee" ++ "." ++ id_string)
                ++ "@restmail.net")%string, pos') /\
    (forall given_id, given None = Some given_id -> id_string = given_id /\ pos' = 0%nat) /\
    (given None = None ->
       4 <= Z.of_nat (String.length id_string) <= 7 /\
       Forall (fun c => In c (list_ascii_of_string HEX_DIGITS))
              (list_ascii_of_string id_string)).
Proof. apply (fake_email_spec cycling 0 "Ana" "Lee" None UtilityFacts.cycling_lawful). Defined.

Example fake_email_run :
  fake_email cycling 0 "Ana" "Lee" None = (Returns "ana.lee.1234@restmail.net", 5%nat).
Proof. reflexivity. Qed.

(** X3. An address that [fake_email] returned serves the signup as it
    is: the mailbox that the PIN loop of [account_signup] reads for the
    provider [restmail], named by [email[:email.rfind('@')]], is the
    lowered [first_name.surname.id], also when a name holds an [@]; and
    the address ends neither in [edu] nor in [.edu], so both signups take
    it for the address of no institution. *)
Theorem fake_email_names_its_mailbox
        (g : generator) (pos : nat) (first_name surname : string) (_id : option string)
        (email : string) (pos' : nat) :
  fake_email g pos first_name surname _id = (Returns email, pos') ->
  exists id_string,
    let mailbox := Str.lower (first_name ++ "." ++ surname ++ "." ++ id_string) in
    email = (mailbox ++ "@restmail.net")%string /\
    (forall seed_url kw s log,
       snd (SignupOld.fetch_pin seed_url email "restmail" kw s log) =
       log ++ [WaitForMail mailbox]) /\
    Str.endswith email "edu" = false /\
    Str.endswith email ".edu" = false.
Proof.
  intros Hrun.
  destruct (fake_email_shape _ _ _ _ _ _ _ Hrun) as (id_string & -> & _).
  exists id_string. cbv zeta. split; [reflexivity|].
  set (mailbox := Str.lower (first_name ++ "." ++ surname ++ "." ++ id_string)).
  split; [|split].
  - intros seed_url kw s log.
    assert (Hgoogle : Str.contains "google" "restmail" = false) by reflexivity.
    assert (Hguerrilla : Str.contains "guerrilla" "restmail" = false) by reflexivity.
    assert (Hrestmail : Str.contains "restmail" "restmail" = true) by reflexivity.
    unfold SignupOld.fetch_pin. rewrite Hgoogle, Hguerrilla, Hrestmail.
    change (mailbox ++ "@restmail.net")%string
      with (mailbox ++ String "@" "restmail.net")%string.
    rewrite CallFacts.run_ret.
    rewrite StrFacts.slice_before_last by (intros; reflexivity).
    unfold SignupOld._get_pin. rewrite Hrestmail.
    cbn [bind Monad_M]. unfold M_bind, call, StudentSignup.newest_pin.
    destruct (Py.getitem _ _); reflexivity.
  - rewrite StrFacts.endswith_app by (cbn; lia). reflexivity.
  - rewrite StrFacts.endswith_app by (cbn; lia). reflexivity.
Qed.

Lemma fake_email_names_its_mailbox_witness :
  exists id_string,
    let mailbox := Str.lower ("Ana" ++ "." ++ "Lee" ++ "." ++ id_string) in
    "ana.lee.1234@restmail.net" = (mailbox ++ "@restmail.net")%string /\
    (forall seed_url kw s log,
       snd (SignupOld.fetch_pin seed_url "ana.lee.1234@restmail.net" "restmail" kw s log) =
       log ++ [WaitForMail mailbox]) /\
    Str.endswith "ana.lee.1234@restmail.net" "edu" = false /\
    Str.endswith "ana.lee.1234@restmail.net" ".edu" = false.
Proof.
  apply (fake_email_names_its_mailbox cycling 0 "Ana" "Lee" None
           "ana.lee.1234@restmail.net" 5).
  reflexivity.
Defined.

(** The numbers from 100 to 199 print as a 1 and two digits. *)
Lemma line_number_text n :
  100 <= n <= 199 ->
  exists d1 d2, str_of_int n = String "1" (String d1 (String d2 "")) /\
                is_digit d1 /\ is_digit d2.
Proof.
  intros Hn.
  replace n with (100 + Z.of_nat (Z.to_nat (n - 100))) by lia.
  assert (Hk : (Z.to_nat (n - 100) < 100)%nat) by lia.
  generalize dependent (Z.to_nat (n - 100)). intros k Hk.
  do 100 (destruct k as [|k];
          [eexists; eexists; split; [vm_compute; reflexivity | split; vm_compute; tauto]|]).
  lia.
Qed.

(** X4. [random_phone(area_code, number_only)] returns a number of the
    exchange 555 with a line number from 0100 to 0199: the area code, then
    [55501] and two digits; or, when [number_only] is off, the same
    number written as [(area) 555-01dd].  One draw is taken. *)
Theorem random_phone_spec (g : generator) (pos : nat) (area_code : string)
        (number_only : bool) :
  lawful g ->
  exists d1 d2,
    is_digit d1 /\ is_digit d2 /\
    random_phone g pos area_code number_only =
      ((if number_only
        then area_code ++ "55501" ++ String d1 (String d2 "")
        else "(" ++ area_code ++ ") 555-01" ++ String d1 (String d2 ""))%string,
       S pos).
Proof.
  intros Hg. unfold random_phone.
  change (random g pos 100 199) with (randint_at g pos 100 199, S pos).
  destruct (line_number_text (randint_at g pos 100 199)) as (d1 & d2 & Htext & H1 & H2).
  { apply (randint_range g Hg). lia. }
  exists d1, d2. split; [exact H1|]. split; [exact H2|].
  rewrite Htext. destruct number_only; reflexivity.
Qed.

Lemma random_phone_spec_witness :
  exists d1 d2,
    is_digit d1 /\ is_digit d2 /\
    random_phone cycling 7 "713" true =
      (("713" ++ "55501" ++ String d1 (String d2 ""))%string, 8%nat).
Proof. apply (random_phone_spec cycling 7 "713" true UtilityFacts.cycling_lawful). Defined.

Example random_phone_run :
  random_phone cycling 7 "713" false = ("(713) 555-0107", 8%nat).
Proof. reflexivity. Qed.

End TextFacts.

(** ** Properties of the waiting helpers *)

Module WaitFacts.
Import UtilityHelpers Notions.

Lemma overlay_attempts_blocked target : forall attempts calls k,
  (forall j, (calls <= j < calls + k)%nat ->
     exists e, target j = Some e /\ is_WebDriverException e = true) ->
  (k <= attempts)%nat ->
  overlay_attempts attempts target calls =
  overlay_attempts (attempts - k) target (calls + k).
Proof.
  induction attempts as [|attempts IH]; intros calls k Hblocked Hk.
  - replace k with 0%nat by lia. now rewrite Nat.add_0_r.
  - destruct k as [|k].
    + now rewrite Nat.add_0_r.
    + cbn [overlay_attempts].
      destruct (Hblocked calls ltac:(lia)) as (e & -> & ->).
      rewrite (IH (S calls) k).
      * f_equal. lia.
      * intros j Hj. apply Hblocked. lia.
      * lia.
Qed.

(** X5. [wait_for_overlay_then(target, time, interval)] calls [target]
    until a call goes through, at most [int(time / interval)] times.
    After calls that all raised a [WebDriverException] (or one of its
    subclasses): a call that goes through ends the wait; so does the last
    attempt, and the wait then returns as if the target had been reached;
    an error of another class is passed on at once. *)
Theorem wait_for_overlay_then_spec (target : nat -> option exn) (attempts : Z) (k : nat) :
  blocked_before target k ->
  (Z.of_nat k < attempts -> target k = None ->
     wait_for_overlay_then target attempts = (Returns tt, S k)) /\
  (Z.of_nat k = Z.max 0 attempts ->
     wait_for_overlay_then target attempts = (Returns tt, k)) /\
  (forall e, Z.of_nat k < attempts -> target k = Some e ->
     is_WebDriverException e = false ->
     wait_for_overlay_then target attempts = (Raises e, S k)).
Proof.
  intros Hblocked. unfold wait_for_overlay_then.
  assert (Hrun : (k <= Z.to_nat attempts)%nat ->
                 overlay_attempts (Z.to_nat attempts) target 0 =
                 overlay_attempts (Z.to_nat attempts - k) target k).
  { intros Hk. rewrite (overlay_attempts_blocked target _ 0 k); [reflexivity | | exact Hk].
    intros j Hj. apply Hblocked. lia. }
  split; [|split].
  - intros Hk Hthrough. rewrite Hrun by lia.
    destruct (Z.to_nat attempts - k)%nat as [|rest] eqn:E; [lia|].
    cbn [overlay_attempts]. now rewrite Hthrough.
  - intros Hk. rewrite Hrun by lia.
    replace (Z.to_nat attempts - k)%nat with 0%nat by lia. reflexivity.
  - intros e Hk Hraises Hother. rewrite Hrun by lia.
    destruct (Z.to_nat attempts - k)%nat as [|rest] eqn:E; [lia|].
    cbn [overlay_attempts]. now rewrite Hraises, Hother.
Qed.

Lemma covered_thrice_blocked : blocked_before covered_thrice 3.
Proof.
  intros j Hj. exists ElementClickInterceptedException.
  unfold covered_thrice. destruct (Nat.ltb_spec j 3); [split; reflexivity | lia].
Qed.

Lemma wait_for_overlay_then_spec_witness :
  wait_for_overlay_then covered_thrice 20 = (Returns tt, 4%nat) /\
  wait_for_overlay_then covered_thrice 3 = (Returns tt, 3%nat).
Proof.
  split.
  - apply (proj1 (wait_for_overlay_then_spec covered_thrice 20 3 covered_thrice_blocked));
      [lia | reflexivity].
  - apply (proj1 (proj2 (wait_for_overlay_then_spec covered_thrice 3 3
                           covered_thrice_blocked))).
    reflexivity.
Defined.

(** *** The check of a URL *)

Section UrlCheck.
Variable web : nat -> http_method -> http_response.
Variable browser : option string.

Lemma fetch_answer _head n r :
  fetch web browser _head n = Some r -> exists m, r = web n m.
Proof.
  unfold fetch. destruct _head; [intros [= <-]; eauto|].
  destruct browser; [intros [= <-]; eauto | discriminate].
Qed.

(** The loop adds at most one request a turn, and ends with the answer
    to its last request. *)
Lemma retry_bound _head : forall turns state state',
  retry web browser _head turns state = Some state' ->
  (requests state <= requests state' <= requests state + turns)%nat /\
  (state' = state \/ exists m, test state' = web (requests state' - 1) m).
Proof.
  induction turns as [|turns IH]; intros state state' Hrun; cbn [retry] in Hrun.
  - injection Hrun as <-. split; [lia | now left].
  - destruct (fetch web browser _head (requests state)) as [r|] eqn:E; [|discriminate].
    destruct (fetch_answer _ _ _ E) as (m & ->).
    destruct (status_code (web (requests state) m) =? 503).
    + apply IH in Hrun. cbn [requests test] in Hrun. destruct Hrun as (Hn & Hlast).
      split; [lia|]. right. destruct Hlast as [-> | Hlast]; [|exact Hlast].
      cbn [requests test]. exists m. f_equal. lia.
    + injection Hrun as <-. cbn [requests test]. split; [lia|].
      right. exists m. f_equal. lia.
Qed.

(** X6. [test_url_and_warn] asks at most 22 times: the first request, a
    [GET] after a [HEAD] that was answered 403, and twenty repeats.  What
    it returns depends on the last answer only: a warning is issued when
    its status is 400 or more, and the URL is reported as failing when,
    besides, the answer is no CloudFront error. *)
Theorem test_url_and_warn_bounded (_head : bool) (v : verdict) (warned : bool)
        (state : checked) :
  test_url_and_warn web browser _head = (v, warned, Some state) ->
  (1 <= requests state <= 22)%nat /\
  (exists m, test state = web (requests state - 1) m) /\
  warned = (status_code (test state) >=? 400) /\
  v = Verdict (negb warned || cloudfront_error (test state)).
Proof.
  unfold test_url_and_warn. intros Hrun.
  destruct (query_url web browser _head) as [state0|] eqn:Hquery; [|discriminate].
  assert (Hstate : state0 = state).
  { destruct (status_code (test state0) >=? 400);
      [destruct (cloudfront_error (test state0))|]; congruence. }
  subst state0.
  assert (Hbound : (1 <= requests state <= 22)%nat /\
                   exists m, test state = web (requests state - 1) m).
  { unfold query_url in Hquery.
    destruct (fetch web browser _head 0) as [first|] eqn:E0; [|discriminate].
    destruct (fetch_answer _ _ _ E0) as (m0 & ->).
    set (retried := if (status_code (web 0%nat m0) =? 403) && _head then _ else _) in Hquery.
    assert (Hretried : forall h st, retried = Some (h, st) ->
              (1 <= requests st <= 2)%nat /\ exists m, test st = web (requests st - 1) m).
    { unfold retried. intros h st.
      destruct ((status_code (web 0%nat m0) =? 403) && _head).
      - destruct (fetch web browser false 1) as [second|] eqn:E1; [|discriminate].
        destruct (fetch_answer _ _ _ E1) as (m1 & ->).
        intros [= <- <-]. cbn. split; [lia | eauto].
      - intros [= <- <-]. cbn. split; [lia | eauto]. }
    destruct retried as [[h st]|]; [|discriminate].
    destruct (Hretried h st eq_refl) as (Hn & Hlast).
    destruct ((status_code (test st) =? 503) || cloudfront_error (test st)).
    - apply retry_bound in Hquery. destruct Hquery as (Hm & Hend).
      split; [lia|]. destruct Hend as [-> | Hend]; assumption.
    - injection Hquery as <-. split; [lia | exact Hlast]. }
  destruct Hbound as (Hn & Hlast). split; [exact Hn|]. split; [exact Hlast|].
  destruct (status_code (test state) >=? 400);
    [destruct (cloudfront_error (test state))|];
    inversion Hrun; subst; split; reflexivity.
Qed.

(** X7. A call without a driver fails on the unbound local [browser] as
    soon as it has to send a [GET]: when [_head] is off, or when the
    first [HEAD] is answered 403.  With a driver, and in every other case
    without one, the call comes to a verdict. *)
Theorem test_url_and_warn_needs_driver (_head : bool) :
  fst (fst (test_url_and_warn web browser _head)) = UnboundLocalError <->
  browser = None /\ (_head = false \/ status_code (web 0%nat HEAD) = 403).
Proof.
  assert (Hretry : forall h turns state,
             (h = true \/ browser <> None) ->
             retry web browser h turns state <> None).
  { intros h. induction turns as [|turns IH]; intros state Hh; cbn [retry]; [discriminate|].
    assert (Hfetch : fetch web browser h (requests state) <> None).
    { unfold fetch. destruct h; [discriminate|].
      destruct browser; [discriminate | destruct Hh; congruence]. }
    destruct (fetch web browser h (requests state)); [|congruence].
    destruct (status_code h0 =? 503); [now apply IH | discriminate]. }
  assert (Hverdict : forall state,
             fst (fst (if status_code (test state) >=? 400
                       then if cloudfront_error (test state)
                            then (Verdict true, true, Some state)
                            else (Verdict false, true, Some state)
                       else (Verdict true, false, Some state))) <> UnboundLocalError).
  { intros state. destruct (status_code (test state) >=? 400);
      [destruct (cloudfront_error (test state))|]; discriminate. }
  unfold test_url_and_warn.
  destruct (query_url web browser _head) as [state|] eqn:Hquery.
  - split; [intros H; now apply Hverdict in H|].
    intros (Hnone & Hget). exfalso. subst browser.
    unfold query_url, fetch in Hquery.
    destruct _head; [|discriminate].
    destruct Hget as [Hget | Hget]; [discriminate|].
    rewrite Hget in Hquery. cbn in Hquery. discriminate.
  - split; [|reflexivity]. intros _.
    unfold query_url in Hquery.
    destruct (fetch web browser _head 0) as [first|] eqn:E0.
    + destruct ((status_code first =? 403) && _head) eqn:E403.
      * apply andb_true_iff in E403. destruct E403 as (E403 & ->).
        cbn in E0. injection E0 as <-. apply Z.eqb_eq in E403.
        destruct (fetch web browser false 1) as [second|] eqn:E1.
        -- exfalso.
           destruct ((status_code (test {| test := second; requests := 2 |}) =? 503)
                     || cloudfront_error (test {| test := second; requests := 2 |}));
             [|discriminate].
           revert Hquery. apply Hretry. right.
           unfold fetch in E1. destruct browser; [discriminate | discriminate].
        -- unfold fetch in E1. destruct browser; [discriminate|]. auto.
      * exfalso.
        destruct ((status_code (test {| test := first; requests := 1 |}) =? 503)
                  || cloudfront_error (test {| test := first; requests := 1 |}));
          [|discriminate].
        revert Hquery. apply Hretry.
        unfold fetch in E0. destruct _head; [now left|].
        right. destruct browser; [discriminate | discriminate].
    + unfold fetch in E0. destruct _head; [discriminate|].
      destruct browser; [discriminate|]. auto.
Qed.

Lemma retry_unavailable : forall turns state,
  (forall n, status_code (web n HEAD) = 503) ->
  retry web browser true (S turns) state =
  Some {| test := web (requests state + turns) HEAD;
          requests := S (requests state + turns) |}.
Proof.
  induction turns as [|turns IH]; intros state Hdown.
  - cbn [retry fetch]. rewrite Hdown. cbn [Z.eqb Pos.eqb retry].
    now rewrite Nat.add_0_r.
  - change (retry web browser true (S (S turns)) state)
      with (match fetch web browser true (requests state) with
            | None => None
            | Some r =>
                let state' := {| test := r; requests := S (requests state) |} in
                if status_code r =? 503 then retry web browser true (S turns) state'
                else Some state'
            end).
    cbn [fetch]. rewrite Hdown. cbn [Z.eqb Pos.eqb]. cbv zeta.
    rewrite IH by exact Hdown. cbn [requests].
    replace (requests state + S turns)%nat with (S (requests state) + turns)%nat by lia.
    reflexivity.
Qed.

(** X8. A URL that answers every [HEAD] with 503 is given up after the
    first request and twenty repeats: a warning is issued, and the URL is
    reported as failing unless the last answer is a CloudFront error. *)
Theorem test_url_and_warn_gives_up :
  (forall n, status_code (web n HEAD) = 503) ->
  test_url_and_warn web browser true =
    (Verdict (cloudfront_error (web 20%nat HEAD)), true,
     Some {| test := web 20%nat HEAD; requests := 21 |}).
Proof.
  intros Hdown. unfold test_url_and_warn, query_url. cbn [fetch].
  rewrite Hdown. cbn [Z.eqb Pos.eqb andb test orb].
  rewrite Hdown. cbn [Z.eqb Pos.eqb andb test orb].
  rewrite retry_unavailable by exact Hdown. cbn [requests test Nat.add].
  rewrite Hdown. cbn [Z.geb Z.compare Pos.compare Pos.compare_cont].
  destruct (cloudfront_error (web 20%nat HEAD)); reflexivity.
Qed.

End UrlCheck.

Lemma test_url_and_warn_needs_driver_witness :
  fst (fst (test_url_and_warn (fun _ _ => {| status_code := 403; x_cache := "" |})
                              None true)) = UnboundLocalError.
Proof.
  apply (proj2 (test_url_and_warn_needs_driver
                  (fun _ _ => {| status_code := 403; x_cache := "" |}) None true)).
  split; [reflexivity | right; reflexivity].
Defined.

Lemma test_url_and_warn_bounded_witness :
  (1 <= 2 <= 22)%nat /\
  (exists m, {| status_code := 200; x_cache := "" |} =
             (fun (n : nat) (m : http_method) =>
                match m with
                | HEAD => {| status_code := 403; x_cache := "" |}
                | GET => {| status_code := 200; x_cache := "" |}
                end) (2 - 1)%nat m) /\
  false = (200 >=? 400) /\
  Verdict true = Verdict (negb false || cloudfront_error {| status_code := 200; x_cache := "" |}).
Proof.
  apply (test_url_and_warn_bounded
           (fun n m => match m with
                       | HEAD => {| status_code := 403; x_cache := "" |}
                       | GET => {| status_code := 200; x_cache := "" |}
                       end)
           (Some "chrome") true (Verdict true) false
           {| test := {| status_code := 200; x_cache := "" |}; requests := 2 |}).
  reflexivity.
Defined.

Lemma test_url_and_warn_gives_up_witness :
  test_url_and_warn (fun _ _ => {| status_code := 503; x_cache := "" |}) None true =
    (Verdict false, true,
     Some {| test := {| status_code := 503; x_cache := "" |}; requests := 21 |}).
Proof.
  apply (test_url_and_warn_gives_up (fun _ _ => {| status_code := 503; x_cache := "" |}) None).
  reflexivity.
Defined.

End WaitFacts.

(** ** Properties of the window switch *)

Module WindowFacts.
Import UtilityHelpers Notions.

(** X9. When [switch_to] returns, it has clicked the link (or run the
    action) once and then either found one window only and switched to
    none, or found several and switched to one of them: the second if the
    window it started in is the first of the list, the first otherwise.
    The window switched to is not the one it started in, the handles
    being distinct. *)
Theorem switch_to_leaves_current (w : windows) (log : list window_request)
        (action : bool) (r : option string) (log' : list window_request) :
  switch_to action w log = (Returns r, log') ->
  let handles := window_handles w (log ++ [Act]) in
  let current := current_window_handle w log in
  (Py.len handles = 1 /\ log' = log ++ [Act]) \/
  (1 < Py.len handles /\
   exists handle,
     log' = log ++ [Act; SwitchToWindow handle] /\
     Py.getitem handles (if String.eqb current (nth 0 handles "") then 1 else 0)
       = Some handle /\
     (NoDup handles -> handle <> current)).
Proof.
  intros Hrun handles current.
  unfold switch_to in Hrun. rewrite CallFacts.run_ask in Hrun. fold current in Hrun.
  cbn [bind Monad_M] in Hrun. unfold M_bind in Hrun.
  assert (Hcall : exists data,
             (if negb action
              then call Act (fun w log => match click_raises w log with
                                          | None => inr None
                                          | Some e => inl e
                                          end)
              else call Act action_returns) w log = (Returns data, log ++ [Act])).
  { destruct action; cbn [negb] in *; unfold call in *.
    - destruct (action_returns w log); [discriminate | eauto].
    - destruct (click_raises w log); [discriminate | eauto]. }
  destruct Hcall as (data & Hcall). rewrite Hcall in Hrun.
  unfold ask in Hrun. fold handles in Hrun.
  destruct handles as [|first rest] eqn:Hhandles.
  - discriminate.
  - change (Py.getitem (first :: rest) 0) with (Some first) in Hrun.
    cbn [nth].
    destruct (Z.gtb_spec (Py.len (first :: rest)) 1) as [Hmany | Hone].
    + right. split; [lia|].
      destruct rest as [|second rest]; [unfold Py.len in Hmany; cbn in Hmany; lia|].
      destruct (String.eqb_spec current first) as [Heq | Hneq].
      * change (Py.getitem (first :: second :: rest) 1) with (Some second) in Hrun.
        unfold emit, M_ret, raise in Hrun. cbn in Hrun. inversion Hrun; subst.
        exists second. split; [now rewrite <- app_assoc|]. split; [reflexivity|].
        intros Hnd Hsame. inversion Hnd; subst. apply H1. now left.
      * change (Py.getitem (first :: second :: rest) 0) with (Some first) in Hrun.
        unfold emit in Hrun. cbn in Hrun. inversion Hrun; subst.
        exists first. split; [now rewrite <- app_assoc|]. split; [reflexivity|].
        intros _ Hsame. now apply Hneq.
    + left. cbn in Hrun. inversion Hrun; subst.
      split; [|reflexivity]. unfold Py.len in *. cbn [List.length] in *. lia.
Qed.

Lemma switch_to_leaves_current_witness :
  (Py.len ["CDwindow-1"; "CDwindow-2"] = 1 /\
   [Act; SwitchToWindow "CDwindow-2"] = [] ++ [Act]) \/
  (1 < Py.len ["CDwindow-1"; "CDwindow-2"] /\
   exists handle,
     [Act; SwitchToWindow "CDwindow-2"] = [] ++ [Act; SwitchToWindow handle] /\
     Py.getitem ["CDwindow-1"; "CDwindow-2"]
                (if String.eqb "CDwindow-1" (nth 0 ["CDwindow-1"; "CDwindow-2"] "")
                 then 1 else 0) = Some handle /\
     (NoDup ["CDwindow-1"; "CDwindow-2"] -> handle <> "CDwindow-1")).
Proof.
  apply (switch_to_leaves_current two_windows [] true (Some "data")
           [Act; SwitchToWindow "CDwindow-2"]).
  reflexivity.
Defined.

End WindowFacts.

(** ** Properties of the test cards *)

Module CardFacts.
Import Card Notions.

Lemma matching_status n l :
  matching Status.STATUS (Int n) l = inr (filter (fun c => status c =? n) l).
Proof.
  induction l as [|c l IH]; [reflexivity|].
  cbn [matching filter]. change (item c Status.STATUS) with (@inr error _ (Int (status c))).
  rewrite IH. reflexivity.
Qed.

Lemma matching_type t l :
  matching Status.TYPE (Text t) l = inr (filter (fun c => String.eqb (type c) t) l).
Proof.
  induction l as [|c l IH]; [reflexivity|].
  cbn [matching filter]. change (item c Status.TYPE) with (@inr error _ (Text (type c))).
  rewrite IH. reflexivity.
Qed.

(** The cards that [get_test_credit_card] draws from. *)
Lemma test_cards_drawn_from g pos options card status :
  get_test_credit_card g pos options card status =
  let with_status := filter (fun c => Card.status c =? _status status) options in
  let pool := filter (fun c => String.eqb (type c) (_card card))
                     (match with_status with [] => options | _ :: _ => with_status end) in
  match pick g pos pool with
  | (inr use_card, pos') => (inr (number use_card, cvv use_card), pos')
  | (inl e, pos') => (inl e, pos')
  end.
Proof.
  unfold get_test_credit_card, get_by.
  assert (Hs : Str.truthy Status.STATUS = true) by reflexivity.
  assert (Ht : Str.truthy Status.TYPE = true) by reflexivity.
  rewrite Hs, Ht.
  assert (Hstatus : value_truthy (Int (_status status)) = true).
  { unfold _status, value_truthy. destruct status as [n|]; [|reflexivity].
    destruct (n =? 0) eqn:E; [reflexivity | cbn; now rewrite E]. }
  assert (Hcard : value_truthy (Text (_card card)) = true).
  { unfold _card, value_truthy. destruct card as [c|]; [|reflexivity].
    destruct (Str.truthy c) eqn:E; [exact E | reflexivity]. }
  rewrite Hstatus, Hcard, matching_status.
  cbv zeta. destruct (filter _ options) as [|c rest]; now rewrite matching_type.
Qed.

Lemma pick_member g pos cards :
  lawful g -> cards <> [] ->
  exists c, pick g pos cards = (inr c, S pos) /\ In c cards.
Proof.
  intros Hg Hcards. unfold pick.
  assert (Hlen : 1 <= Py.len cards).
  { destruct cards; [congruence | unfold Py.len; cbn [List.length]; lia]. }
  destruct (Z.ltb_spec (Py.len cards - 1) 0); [lia|].
  destruct (StrFacts.getitem_within cards (randint_at g pos 0 (Py.len cards - 1)))
    as (c & Hc & Hin).
  { pose proof (randint_range g Hg pos 0 (Py.len cards - 1) ltac:(lia)). lia. }
  rewrite Hc. eauto.
Qed.

(** X10. What [get_test_credit_card(card, status)] returns is the number
    and the CVV of a card of the deck that has the type asked for (Visa
    by default).  The card has the status asked for (valid by default) if
    the deck holds any card of that status; if it holds none, the status
    is not looked at, and the card may have any. *)
Theorem get_test_credit_card_returns
        (g : generator) (pos : nat) (options : list card)
        (card : option string) (status : option Z)
        (card_number card_cvv : string) (pos' : nat) :
  get_test_credit_card g pos options card status = (inr (card_number, card_cvv), pos') ->
  exists c,
    In c options /\ number c = card_number /\ cvv c = card_cvv /\
    type c = _card card /\
    ((exists c', In c' options /\ Card.status c' = _status status) ->
     Card.status c = _status status).
Proof.
  rewrite test_cards_drawn_from. cbv zeta.
  set (with_status := filter (fun c => Card.status c =? _status status) options).
  set (pool := filter _ _).
  intros Hrun.
  assert (Hpick : exists c, In c pool /\ number c = card_number /\ cvv c = card_cvv).
  { unfold pick in Hrun.
    destruct (Py.len pool - 1 <? 0); [discriminate|].
    destruct (Py.getitem pool (randint_at g pos 0 (Py.len pool - 1))) as [c|] eqn:E;
      [|discriminate].
    inversion Hrun; subst. exists c. split; [|split; reflexivity].
    unfold Py.getitem in E.
    destruct (0 <=? _); [eapply nth_error_In; eassumption|].
    destruct (- Py.len pool <=? _); [eapply nth_error_In; eassumption | discriminate]. }
  destruct Hpick as (c & Hin & Hn & Hv).
  exists c. unfold pool in Hin. apply filter_In in Hin. destruct Hin as (Hin & Htype).
  apply String.eqb_eq in Htype.
  assert (Hsome : forall c', In c' options -> Card.status c' = _status status ->
                             with_status <> []).
  { intros c' Hc' Hst Hnil.
    assert (Hmem : In c' with_status)
      by (apply filter_In; split; [exact Hc' | now apply Z.eqb_eq]).
    rewrite Hnil in Hmem. destruct Hmem. }
  destruct with_status as [|c0 rest] eqn:Hws.
  - split; [exact Hin|]. repeat split; try assumption.
    intros (c' & Hc' & Hst). exfalso. now apply (Hsome c' Hc' Hst).
  - assert (Hin' : In c (filter (fun c => Card.status c =? _status status) options))
      by (fold with_status; rewrite Hws; exact Hin).
    apply filter_In in Hin'. destruct Hin' as (Hopt & Hst). apply Z.eqb_eq in Hst.
    split; [exact Hopt|]. repeat split; try assumption. intros _. exact Hst.
Qed.

Lemma get_test_credit_card_returns_witness :
  exists c,
    In c small_deck /\ number c = "4000111111111115" /\ cvv c = "123" /\
    type c = _card None /\
    ((exists c', In c' small_deck /\ Card.status c' = _status (Some Status.NO_VERIFY)) ->
     Card.status c = _status (Some Status.NO_VERIFY)).
Proof.
  apply (get_test_credit_card_returns cycling 0 small_deck None (Some Status.NO_VERIFY)
           "4000111111111115" "123" 1).
  reflexivity.
Defined.

(** X11. [get_test_credit_card] returns a card whenever the deck holds
    one of the type and the status asked for, and also when it holds no
    card of that status at all and one of the type; it raises the
    [ValueError] of an empty range when cards of the status exist and none
    of them has the type, or when no card has the type. *)
Theorem get_test_credit_card_finds (g : generator) (pos : nat) (options : list card)
        (card : option string) (status : option Z) :
  lawful g ->
  let of_status c := Card.status c =? _status status in
  let of_type c := String.eqb (type c) (_card card) in
  ((existsb (fun c => of_status c && of_type c) options = true \/
    (existsb of_status options = false /\ existsb of_type options = true)) ->
   exists c, In c options /\ type c = _card card /\
             get_test_credit_card g pos options card status =
               (inr (number c, cvv c), S pos)) /\
  ((existsb of_status options = true /\
    existsb (fun c => of_status c && of_type c) options = false) \/
   existsb of_type options = false ->
   exists msg, get_test_credit_card g pos options card status =
               (inl (Raised (ValueError msg)), pos)).
Proof.
  intros Hg of_status of_type.
  rewrite test_cards_drawn_from. cbv zeta.
  fold of_status. fold of_type.
  set (with_status := filter of_status options).
  set (pool := filter of_type _).
  assert (Hws : with_status = [] <-> existsb of_status options = false).
  { unfold with_status. split.
    - intros Hnil. apply not_true_is_false. intros Hex.
      apply existsb_exists in Hex. destruct Hex as (c & Hc & Hst).
      assert (In c (filter of_status options)) by (apply filter_In; now split).
      rewrite Hnil in H. destruct H.
    - intros Hex. destruct (filter of_status options) as [|c rest] eqn:E; [reflexivity|].
      assert (Hc : In c (filter of_status options)) by (rewrite E; now left).
      apply filter_In in Hc. destruct Hc as (Hc & Hst).
      assert (existsb of_status options = true)
        by (apply existsb_exists; exists c; now split).
      congruence. }
  assert (Hboth : forall c, In c (filter of_type with_status) <->
                            In c options /\ of_status c = true /\ of_type c = true).
  { intros c. unfold with_status. rewrite !filter_In. tauto. }
  split.
  - intros Hcase.
    assert (Hpool : pool <> []).
    { unfold pool. destruct Hcase as [Hex | (Hnone & Hex)].
      - apply existsb_exists in Hex. destruct Hex as (c & Hc & Hb).
        apply andb_true_iff in Hb. destruct Hb as (Hst & Hty).
        assert (Hmem : In c (filter of_type with_status)) by (apply Hboth; tauto).
        destruct with_status as [|c0 rest]; [destruct Hmem|].
        intros Hnil. rewrite Hnil in Hmem. destruct Hmem.
      - apply Hws in Hnone. rewrite Hnone.
        apply existsb_exists in Hex. destruct Hex as (c & Hc & Hty).
        assert (Hmem : In c (filter of_type options)) by (apply filter_In; now split).
        intros Hnil. rewrite Hnil in Hmem. destruct Hmem. }
    destruct (pick_member g pos pool Hg Hpool) as (c & Hpick & Hin).
    rewrite Hpick. exists c.
    assert (Hc : In c options /\ of_type c = true).
    { unfold pool in Hin. apply filter_In in Hin. destruct Hin as (Hin & Hty).
      split; [|exact Hty].
      destruct with_status as [|c0 rest] eqn:E; [exact Hin|].
      assert (Hin' : In c (filter of_status options))
        by (fold with_status; rewrite E; exact Hin).
      apply filter_In in Hin'. tauto. }
    destruct Hc as (Hc & Hty). apply String.eqb_eq in Hty. repeat split; assumption.
  - intros Hcase.
    assert (Hpool : pool = []).
    { unfold pool. destruct Hcase as [(Hsome & Hnone) | Hnone].
      - destruct with_status as [|c0 rest] eqn:E.
        + assert (existsb of_status options = false) by (now apply Hws). congruence.
        + destruct (filter of_type (c0 :: rest)) as [|c rest'] eqn:E'; [reflexivity|].
          assert (Hmem : In c (c :: rest')) by now left.
          apply Hboth in Hmem. destruct Hmem as (Hc & Hst & Hty).
          assert (existsb (fun c => of_status c && of_type c) options = true).
          { apply existsb_exists. exists c. split; [exact Hc|]. now rewrite Hst, Hty. }
          congruence.
      - assert (Hnothing : forall l, incl l options -> filter of_type l = []).
        { intros l Hl. destruct (filter of_type l) as [|c rest] eqn:E; [reflexivity|].
          assert (Hmem : In c (filter of_type l)) by (rewrite E; now left).
          apply filter_In in Hmem. destruct Hmem as (Hc & Hty).
          assert (existsb of_type options = true).
          { apply existsb_exists. exists c. split; [now apply Hl | exact Hty]. }
          congruence. }
        destruct with_status as [|c0 rest] eqn:E.
        + apply Hnothing. apply incl_refl.
        + apply Hnothing. rewrite <- E. unfold with_status. apply incl_filter. }
    rewrite Hpool. cbn. eauto.
Qed.

Lemma get_test_credit_card_finds_witness :
  exists c, In c small_deck /\ type c = _card (Some Status.VISA) /\
            get_test_credit_card cycling 0 small_deck (Some Status.VISA)
                                 (Some Status.NO_VERIFY) =
              (inr (number c, cvv c), 1%nat).
Proof.
  apply (proj1 (get_test_credit_card_finds cycling 0 small_deck (Some Status.VISA)
                  (Some Status.NO_VERIFY) UtilityFacts.cycling_lawful)).
  right. split; reflexivity.
Defined.

(** The deck has no card without verification: the declined Visa card
    is handed out in its place. *)
Example status_dropped :
  get_test_credit_card cycling 0 small_deck None (Some Status.NO_VERIFY) =
  (inr ("4000111111111115", "123"), 1%nat).
Proof. reflexivity. Qed.

(** A valid Visa card is asked for; the deck has valid cards, none of
    them a Visa. *)
Example no_valid_visa :
  get_test_credit_card cycling 0 small_deck None None =
  (inl (Raised (ValueError "empty range for randrange()")), 0%nat).
Proof. reflexivity. Qed.

End CardFacts.

(** ** Properties of the wait behind an external link *)

Module ExternalFacts.
Import Notions CallFacts.

(** X12. [go_to_external_(destination, url)] with a URL waits for the
    page; if the wait times out, it requests the URL, once, and waits a
    second time.  It returns the destination when one of the two waits
    ends in time, and raises a [TimeoutException] otherwise.  Without a
    URL (or with an empty one) it is the single wait of [go_to_]. *)
Theorem go_to_external_reloads_once (s : site) (log : list request)
        (destination : page) (url : option string) :
  match url_given url with
  | None => go_to_external_ destination url s log = go_to_ destination s log
  | Some u =>
      if page_loads s log destination
      then go_to_external_ destination url s log =
           (Returns destination, log ++ [WaitForPageToLoad destination])
      else
        let reloaded := log ++ [WaitForPageToLoad destination; Get u] in
        exists r,
          go_to_external_ destination url s log =
            (r, reloaded ++ [WaitForPageToLoad destination]) /\
          if page_loads s reloaded destination
          then r = Returns destination
          else exists msg, r = Raises (TimeoutException msg)
  end.
Proof.
  unfold go_to_external_, go_to_.
  destruct (url_given url) as [u|].
  - unfold wait_for_page_to_load, try_, call, emit.
    cbn [bind Monad_M ret]. unfold M_bind, M_ret.
    destruct (page_loads s log destination) eqn:E1; [reflexivity|].
    cbv zeta. rewrite <- app_assoc. cbn [app].
    destruct (page_loads s (log ++ [WaitForPageToLoad destination; Get u]) destination);
      eexists; (split; [reflexivity|]); [reflexivity | eauto].
  - rewrite (run_ret false). unfold call.
    destruct (page_loads s log destination); reflexivity.
Qed.

Example reloaded_page :
  go_to_external_ ProfilePage (Some "https://openstax.org/profile") loads_after_get [] =
  (Returns ProfilePage,
   [WaitForPageToLoad ProfilePage; Get "https://openstax.org/profile";
    WaitForPageToLoad ProfilePage]).
Proof. reflexivity. Qed.

Example no_url_no_reload :
  go_to_external_ ProfilePage None loads_after_get [] =
  (Raises (TimeoutException
             "Expected page <Profile> failed to load; ended at: https://openstax.org/"),
   [WaitForPageToLoad ProfilePage]).
Proof. reflexivity. Qed.

End ExternalFacts.

(** ** Properties of the request for faculty access *)

Module AccessFacts.
Import SignupOld FacultyAccess Observations Notions CallFacts RunFacts.

Lemma random_subjects_unfold g fuel pos :
  lawful g ->
  exists size, 1 <= size <= 5 /\
    random_subjects g fuel pos =
    Utility.random_set_loop string_dec g fuel titles size [] (S pos).
Proof.
  intros Hg. unfold random_subjects.
  change (Utility.random g pos 1 5) with (randint_at g pos 1 5, S pos).
  pose proof (randint_range g Hg pos 1 5 ltac:(lia)) as Hsize.
  exists (randint_at g pos 1 5). split; [exact Hsize|].
  unfold subject_list. rewrite SubjectFacts.SUBJECTS_len.
  destruct (Z.gtb_spec (randint_at g pos 1 5) 28); [lia|].
  apply SubjectFacts.subject_list_loop_random_set.
Qed.

(** X13. [subject_list(Utility.random(1, 5))], with which the tests and
    [instructor_access] choose subjects at random, gives one to five
    titles of the catalog, none of them twice; with a fair generator it
    always comes to an end. *)
Theorem random_subjects_spec (g : generator) :
  lawful g ->
  (fair g 0 (Py.len SUBJECTS - 1) ->
     forall pos, exists fuel l pos', random_subjects g fuel pos = (Returns l, pos')) /\
  (forall fuel pos l pos',
     random_subjects g fuel pos = (Returns l, pos') ->
     1 <= Py.len l <= 5 /\ NoDup l /\ incl l titles).
Proof.
  intros Hg.
  assert (Hgroup : 2 <= Py.len titles) by (rewrite SubjectFacts.titles_len; lia).
  split.
  - intros Hfair pos.
    destruct (random_subjects_unfold g 0 pos Hg) as (size & Hsize & _).
    replace (Py.len SUBJECTS) with (Py.len titles) in Hfair by reflexivity.
    assert (Hdistinct : randint_at g pos 1 5 <= Py.len (nodup string_dec titles)).
    { rewrite (nodup_fixed_point string_dec SubjectFacts.titles_NoDup),
        SubjectFacts.titles_len.
      pose proof (randint_range g Hg pos 1 5 ltac:(lia)). lia. }
    destruct (UtilityFacts.loop_terminates string_dec g Hg titles (randint_at g pos 1 5)
                Hgroup Hfair Hdistinct _ [] (S pos) eq_refl)
      as (fuel & l & pos' & Hrun); [constructor | intros ? [] |].
    exists fuel, l, pos'.
    unfold random_subjects.
    change (Utility.random g pos 1 5) with (randint_at g pos 1 5, S pos).
    unfold subject_list. rewrite SubjectFacts.SUBJECTS_len.
    pose proof (randint_range g Hg pos 1 5 ltac:(lia)).
    destruct (Z.gtb_spec (randint_at g pos 1 5) 28); [lia|].
    now rewrite SubjectFacts.subject_list_loop_random_set.
  - intros fuel pos l pos' Hrun.
    destruct (random_subjects_unfold g fuel pos Hg) as (size & Hsize & Heq).
    rewrite Heq in Hrun.
    destruct (UtilityFacts.loop_returns string_dec g Hg titles size Hgroup
                                        fuel [] (S pos) l pos' Hrun)
      as (Hnd & Hincl & Hlen); [constructor | intros ? [] |].
    rewrite Hlen by (cbn; lia). repeat split; try assumption; lia.
Qed.

Lemma random_subjects_spec_witness :
  exists fuel l pos', random_subjects cycling fuel 2 = (Returns l, pos').
Proof.
  apply (proj1 (random_subjects_spec cycling UtilityFacts.cycling_lawful)).
  apply UtilityFacts.cycling_fair. rewrite SubjectFacts.SUBJECTS_len. lia.
Defined.

Example random_subjects_run :
  random_subjects cycling 10 2 =
  (Returns ["Anatomy and Physiology"; "Astronomy"; "Biology"], 6%nat).
Proof. reflexivity. Qed.

(** The loop over the books clicks those whose label is among the
    interests, in page order. *)
Lemma check_books_run interests s : forall shown (done : M site request unit) log log1,
  done s log = (Returns tt, log1) ->
  fold_left (fun (done : M site request unit) (title : string) =>
               done ;;
               if Py.contains string_dec title interests
               then emit (SelectSubject title) else ret tt)
            shown done s log =
  (Returns tt, log1 ++ books_checked shown interests).
Proof.
  induction shown as [|title shown IH]; intros done log log1 Hdone; cbn [fold_left].
  - unfold books_checked. cbn. now rewrite app_nil_r.
  - rewrite (IH _ log (log1 ++ books_checked [title] interests)).
    + unfold books_checked. cbn [filter map].
      destruct (Py.contains string_dec title interests); cbn [map app];
        now rewrite <- app_assoc.
    + rewrite (run_bind _ _ _ _ _ _ Hdone). unfold books_checked. cbn [filter map].
      destruct (Py.contains string_dec title interests); cbn [map].
      * reflexivity.
      * cbn. now rewrite app_nil_r.
Qed.

(** X14. A call of [instructor_access] that returns has filled the form,
    then checked the books of the page whose label is among the interests,
    in page order, then clicked the newsletter box exactly when
    [get_newsletter] is off, and submitted twice with the confirmation box
    checked in between.  The interests are those given or, when none are
    given, one to five titles of the catalog drawn for the call. *)
Theorem instructor_access_spec
        (g : generator) (fuel pos : nat) (role : string)
        (school_email phone_number school webpage students using_ : option string)
        (interests : option (list string)) (get_newsletter : bool)
        (s : site) (log log' : list request) :
  lawful g ->
  instructor_access g fuel pos role school_email phone_number school webpage
                    students using_ interests get_newsletter s log = (Returns tt, log') ->
  let filled := log ++ access_form_filled role school_email phone_number school webpage
                                          students using_ in
  exists chosen,
    (forall title rest, interests = Some (title :: rest) -> chosen = title :: rest) /\
    (no_interests interests ->
       1 <= Py.len chosen <= 5 /\ NoDup chosen /\ incl chosen titles) /\
    log' = filled ++
           books_checked (subject_titles s filled) chosen ++
           (if get_newsletter then [] else [Click _apply_newsletter_locator]) ++
           [Click _next_button_locator;
            Click InstructorNotice._get_email_confirmation_locator;
            Click _next_button_locator].
Proof.
  intros Hg Hrun filled.
  unfold instructor_access in Hrun.
  rewrite !run_emit in Hrun.
  assert (Hfilled : forall A (k : M site request A) l,
             ((if String.eqb role INSTRUCTOR
               then emit (SendKeys _apply_student_locator students) else ret tt) ;;
              emit (SendKeys _apply_url_locator webpage) ;;
              (if String.eqb role INSTRUCTOR
               then emit (Select _apply_using_locator using_) else ret tt) ;;
              k) s (l ++ [Select _apply_role_locator (Some role);
                          SendKeys _apply_email_locator school_email;
                          SendKeys _apply_phone_locator phone_number;
                          SendKeys _apply_school_locator school]) =
             k s (l ++ access_form_filled role school_email phone_number school webpage
                                          students using_)).
  { intros A k l. unfold access_form_filled.
    destruct (String.eqb role INSTRUCTOR); cbn; rewrite <- ?app_assoc; reflexivity. }
  rewrite <- !app_assoc in Hrun. cbn [app] in Hrun.
  rewrite Hfilled in Hrun. fold filled in Hrun.
  rewrite run_ask in Hrun.
  apply bind_returns in Hrun. destruct Hrun as (chosen & log1 & Hchosen & Hrun).
  assert (Hlog1 : log1 = filled).
  { unfold interests_or_random in Hchosen.
    destruct interests as [[|title rest]|];
      [destruct (fst (random_subjects g fuel pos)) |
       | destruct (fst (random_subjects g fuel pos))];
      inversion Hchosen; reflexivity. }
  subst log1. exists chosen. split; [|split].
  - intros title rest ->. cbn in Hchosen. now inversion Hchosen.
  - intros Hnone.
    assert (Hdrawn : fst (random_subjects g fuel pos) = Returns chosen).
    { unfold interests_or_random in Hchosen.
      destruct Hnone as [-> | ->];
        destruct (fst (random_subjects g fuel pos)); inversion Hchosen; reflexivity. }
    destruct (random_subjects g fuel pos) as [r pos'] eqn:E. cbn [fst] in Hdrawn. subst r.
    apply (proj2 (random_subjects_spec g Hg) fuel pos chosen pos' E).
  - unfold check_books in Hrun.
    assert (Hstart : (ret tt : M site request unit) s filled = (Returns tt, filled))
      by reflexivity.
    rewrite (run_bind _ _ _ _ _ _
               (check_books_run chosen s (subject_titles s filled) (ret tt) filled filled
                                Hstart)) in Hrun.
    unfold next, InstructorNotice.get_confirmation_email in Hrun.
    destruct get_newsletter; cbn [negb] in Hrun.
    + rewrite (run_ret tt), !run_emit in Hrun. unfold emit in Hrun.
      inversion Hrun. now rewrite <- !app_assoc.
    + rewrite !run_emit in Hrun. unfold emit in Hrun.
      inversion Hrun. now rewrite <- !app_assoc.
Qed.

Lemma instructor_access_spec_witness :
  let filled := [] ++ access_form_filled INSTRUCTOR (Some "ana.lee@rice.edu")
                        (Some "7135550123") (Some "Rice University")
                        (Some "http://openstax.org") (Some "40")
                        (Some "Interested in using OpenStax in the future") in
  exists chosen,
    (forall title rest,
       Some ["Biology"; "Calculus"] = Some (title :: rest) -> chosen = title :: rest) /\
    (no_interests (Some ["Biology"; "Calculus"]) ->
       1 <= Py.len chosen <= 5 /\ NoDup chosen /\ incl chosen titles) /\
    access_requested =
      filled ++
      books_checked (subject_titles smooth filled) chosen ++
      (if false then [] else [Click _apply_newsletter_locator]) ++
      [Click _next_button_locator;
       Click InstructorNotice._get_email_confirmation_locator;
       Click _next_button_locator].
Proof.
  apply (instructor_access_spec cycling 10 0 INSTRUCTOR (Some "ana.lee@rice.edu")
           (Some "7135550123") (Some "Rice University") (Some "http://openstax.org")
           (Some "40") (Some "Interested in using OpenStax in the future")
           (Some ["Biology"; "Calculus"]) false smooth [] access_requested
           UtilityFacts.cycling_lawful).
  reflexivity.
Defined.

Example instructor_access_run :
  filter (fun r => match r with SelectSubject _ | Click _ => true | _ => false end)
         access_requested =
  [SelectSubject "Biology"; SelectSubject "Calculus";
   Click _apply_newsletter_locator; Click _next_button_locator;
   Click InstructorNotice._get_email_confirmation_locator; Click _next_button_locator].
Proof. reflexivity. Qed.

End AccessFacts.

(** ** Further properties of the legacy signup workflow *)

Module LegacyFacts.
Import SignupOld Observations Notions CallFacts RunFacts WorkflowFacts.

(** *** Requests that a step never makes *)

Lemma select_subjects_quiet p l :
  (forall title, p (SelectSubject title) = false) ->
  silent p (InstructorVerification.select_subjects l).
Proof.
  intros Hp. unfold InstructorVerification.select_subjects.
  apply silent_bind; [apply silent_ask|]. intros shown.
  assert (H : forall (done : M site request unit),
             silent p done ->
             silent p
               (fold_left (fun (done : M site request unit) (title : string) =>
                             done ;;
                             if Py.contains string_dec title l
                             then emit (SelectSubject title) else ret tt)
                          shown done)).
  { induction shown as [|title shown IH]; intros done Hdone; [exact Hdone|].
    cbn [fold_left]. apply IH. apply silent_bind; [exact Hdone|]. intros _.
    apply silent_if; [apply silent_emit, Hp | apply silent_ret]. }
  apply H. apply silent_ret.
Qed.

Lemma verify_the_pin_quiet p fuel seed_url email provider kw :
  silent p (fetch_pin seed_url email provider kw) ->
  p (ClearField PinVerification._pin_locator) = false ->
  (forall keys, p (SendKeys PinVerification._pin_locator keys) = false) ->
  p (Click _next_button_locator) = false ->
  silent p (verify_the_pin fuel seed_url email provider kw).
Proof.
  intros Hfetch Hclear Hsend Hnext.
  induction fuel as [|fuel IH]; cbn [verify_the_pin]; [apply silent_out_of_fuel|].
  apply silent_bind.
  - unfold pin_attempt. apply silent_bind; [exact Hfetch|]. intros pin.
    apply silent_if; [apply silent_raise|].
    unfold PinVerification.clear_pin, PinVerification.set_verify_pin, next,
      PinVerification.pin_failure.
    apply silent_bind; [apply silent_emit, Hclear|]. intros _.
    apply silent_bind; [apply silent_emit, Hsend|]. intros _.
    apply silent_bind; [apply silent_emit, Hnext|]. intros _.
    apply silent_ask.
  - intros failure. apply silent_if; [exact IH | apply silent_ret].
Qed.

(** X15. A student who signs up through [account_signup] is never asked
    for what the form keeps for the elevated roles: no phone number, no
    number of students, no web page, no use of OpenStax and no subject is
    entered, and no confirmation message is asked for, however the run
    ends. *)
Theorem student_leaves_instructor_controls
        (fuel : nat) (seed_url email : string) (password : option string)
        (provider : string) (tutor : bool) (destination : option page) (kw : kwargs)
        (s : site) (log : list request) :
  exists added,
    snd (account_signup fuel seed_url email password STUDENT provider tutor
                        destination kw s log) = log ++ added /\
    count is_instructor_control added = 0%nat.
Proof.
  revert s log. change (silent is_instructor_control
                          (account_signup fuel seed_url email password STUDENT provider
                                          tutor destination kw)).
  unfold account_signup.
  apply silent_bind.
  { unfold select_user_type_and_email, next, assert_no_error, error. silence. }
  intros _. apply silent_bind.
  { apply verify_the_pin_quiet; try reflexivity.
    unfold fetch_pin, _get_pin, StudentSignup.newest_pin. silence. }
  intros _. apply silent_bind.
  { unfold password_or_social, next, assert_no_error, error. silence. }
  intros _. apply silent_bind; [silence|].
  intros _. apply silent_bind.
  { unfold enter_user_details, name_part.
    change (String.eqb STUDENT STUDENT) with true.
    change (String.eqb STUDENT INSTRUCTOR) with false.
    cbn [negb]. silence. }
  intros _. apply silent_bind.
  { unfold select_the_subjects. change (String.eqb STUDENT STUDENT) with true.
    cbn [negb]. silence. }
  intros _. apply silent_bind.
  { unfold terms_and_newsletter, UserFields.toggle_news, UserFields.agree_to_terms,
      next, assert_no_error, error.
    silence. }
  intros _. apply silent_bind.
  { unfold request_confirmation. change (String.eqb STUDENT STUDENT) with true.
    cbn [negb]. silence. }
  intros _. unfold go_to_. silence.
Qed.

(** X16. A signup for OpenStax Tutor never chooses a role and never
    clicks the agreement to the terms, whatever the account type and
    however the run ends. *)
Theorem tutor_signup_skips_role_and_terms
        (fuel : nat) (seed_url email : string) (password : option string)
        (_type provider : string) (destination : option page) (kw : kwargs)
        (s : site) (log : list request) :
  exists added,
    snd (account_signup fuel seed_url email password _type provider true
                        destination kw s log) = log ++ added /\
    count is_role_or_terms added = 0%nat.
Proof.
  revert s log. change (silent is_role_or_terms
                          (account_signup fuel seed_url email password _type provider
                                          true destination kw)).
  unfold account_signup.
  apply silent_bind.
  { unfold select_user_type_and_email, next, assert_no_error, error.
    cbn [negb]. silence. }
  intros _. apply silent_bind.
  { apply verify_the_pin_quiet; try reflexivity.
    unfold fetch_pin, _get_pin, StudentSignup.newest_pin. silence. }
  intros _. apply silent_bind.
  { unfold password_or_social, next, assert_no_error, error. silence. }
  intros _. apply silent_bind; [silence|].
  intros _. apply silent_bind.
  { unfold enter_user_details, name_part. silence. }
  intros _. apply silent_bind.
  { unfold select_the_subjects.
    destruct (if negb (_type =? STUDENT)%string
              then filter (fun title => Py.contains string_dec title (requested_subjects kw))
                          titles
              else []); [silence | now apply select_subjects_quiet]. }
  intros _. apply silent_bind.
  { unfold terms_and_newsletter, UserFields.toggle_news, UserFields.agree_to_terms,
      next, assert_no_error, error.
    cbn [negb]. silence. }
  intros _. apply silent_bind.
  { unfold request_confirmation, InstructorNotice.get_confirmation_email, next. silence. }
  intros _. unfold go_to_. silence.
Qed.

(** X17. [account_signup] returns the Terms page for a Tutor signup, the
    destination page if one is given, and the profile otherwise; and it
    returns only after the last thing it did, the wait for that page, has
    ended in time. *)
Theorem account_signup_ends_on_page
        (fuel : nat) (seed_url email : string) (password : option string)
        (_type provider : string) (tutor : bool) (destination : option page) (kw : kwargs)
        (s : site) (log : list request) (p : page) (log' : list request) :
  account_signup fuel seed_url email password _type provider tutor destination kw s log
    = (Returns p, log') ->
  p = landing tutor destination /\
  exists before, log' = before ++ [WaitForPageToLoad p] /\ page_loads s before p = true.
Proof.
  unfold account_signup. intros Hrun.
  do 7 (apply bind_returns in Hrun; destruct Hrun as (? & ? & _ & Hrun)).
  apply bind_returns in Hrun. destruct Hrun as (? & before & _ & Hrun).
  assert (Hlast : go_to_ (landing tutor destination) s before = (Returns p, log')).
  { unfold landing. destruct tutor; [exact Hrun|]. destruct destination; exact Hrun. }
  unfold go_to_, call in Hlast.
  destruct (page_loads s before (landing tutor destination)) eqn:Hloads; [|discriminate].
  inversion Hlast; subst. split; [reflexivity|].
  exists before. split; [reflexivity | exact Hloads].
Qed.

Lemma account_signup_ends_on_page_witness :
  ProfilePage = landing false None /\
  exists before,
    student_signed_up = before ++ [WaitForPageToLoad ProfilePage] /\
    page_loads smooth before ProfilePage = true.
Proof.
  apply (account_signup_ends_on_page 5 "https://accounts.openstax.org"
           "ana.lee@restmail.net" (Some "pw") STUDENT "restmail" false None
           student_details smooth [] ProfilePage student_signed_up).
  reflexivity.
Defined.

(** *** The subjects *)

Lemma contains_filter (f : string -> bool) (l : list string) title :
  Py.contains string_dec title (filter f l) = Py.contains string_dec title l && f title.
Proof.
  destruct (Py.contains string_dec title (filter f l)) eqn:E.
  - apply PyFacts.contains_true in E. apply filter_In in E. destruct E as (Hin & Hf).
    rewrite Hf, (proj2 (PyFacts.contains_true string_dec title l) Hin). reflexivity.
  - apply PyFacts.contains_false in E.
    destruct (Py.contains string_dec title l) eqn:El; [|reflexivity].
    destruct (f title) eqn:Ef; [|reflexivity].
    exfalso. apply E. apply filter_In. split; [|exact Ef].
    now apply PyFacts.contains_true in El.
Qed.

Lemma select_subjects_run l s log :
  InstructorVerification.select_subjects l s log =
  (Returns tt, log ++ books_checked (subject_titles s log) l).
Proof.
  unfold InstructorVerification.select_subjects. rewrite run_ask.
  assert (Hstart : (ret tt : M site request unit) s log = (Returns tt, log)) by reflexivity.
  exact (AccessFacts.check_books_run l s (subject_titles s log) (ret tt) log log Hstart).
Qed.

(** X18. The subjects that [account_signup] selects for an elevated
    role are the options shown by the form whose title is a title of the
    catalog and is among the subjects asked for, each clicked once, in
    the order of the form; for a student none is selected.  The step
    always returns. *)
Theorem subjects_selected_spec (_type : string) (kw : kwargs)
        (s : site) (log : list request) :
  select_the_subjects _type kw s log =
  (Returns tt,
   log ++ if String.eqb _type STUDENT then []
          else map SelectSubject (wanted_and_shown kw (subject_titles s log))).
Proof.
  unfold select_the_subjects.
  destruct (String.eqb _type STUDENT); cbn [negb].
  - cbn. now rewrite app_nil_r.
  - set (chosen := filter _ titles).
    assert (Hsame : books_checked (subject_titles s log) chosen =
                    map SelectSubject (wanted_and_shown kw (subject_titles s log))).
    { unfold books_checked, wanted_and_shown. f_equal. apply filter_ext.
      intros title. unfold chosen. apply contains_filter. }
    destruct chosen as [|title rest] eqn:E.
    + rewrite <- Hsame. unfold books_checked.
      assert (Hnone : forall l : list string,
                 filter (fun title => Py.contains string_dec title []) l = []).
      { induction l as [|t l IH]; [reflexivity | exact IH]. }
      rewrite Hnone. cbn. now rewrite app_nil_r.
    + rewrite select_subjects_run, Hsame. reflexivity.
Qed.

Example subjects_selected_run :
  snd (select_the_subjects INSTRUCTOR instructor_details smooth []) =
  [SelectSubject "Biology"; SelectSubject "Calculus"].
Proof. reflexivity. Qed.

(** X19. The titles of the catalog are what is matched against the
    subjects asked for, not its keys: a caller who names the subjects by
    the keys that the documentation of [account_signup] lists gets no
    subject selected. *)
Theorem subjects_named_by_key_are_ignored (_type : string) (kw : kwargs)
        (s : site) (log : list request) :
  incl (requested_subjects kw) keys ->
  select_the_subjects _type kw s log = (Returns tt, log).
Proof.
  intros Hkeys. rewrite subjects_selected_spec.
  destruct (String.eqb _type STUDENT); [now rewrite app_nil_r|].
  assert (Hnone : wanted_and_shown kw (subject_titles s log) = []).
  { unfold wanted_and_shown.
    induction (subject_titles s log) as [|title l IH]; [reflexivity|].
    cbn [filter].
    destruct (Py.contains string_dec title titles) eqn:Et; [|exact IH].
    destruct (Py.contains string_dec title (requested_subjects kw)) eqn:Er; [|exact IH].
    exfalso. apply PyFacts.contains_true in Et, Er. apply Hkeys in Er.
    assert (Hdisjoint : forallb (fun t => negb (Py.contains string_dec t keys)) titles
                        = true) by (vm_compute; reflexivity).
    rewrite forallb_forall in Hdisjoint. specialize (Hdisjoint title Et).
    apply negb_true_iff in Hdisjoint. apply PyFacts.contains_false in Hdisjoint.
    contradiction. }
  rewrite Hnone. cbn. now rewrite app_nil_r.
Qed.

Lemma subjects_named_by_key_witness :
  select_the_subjects INSTRUCTOR subjects_by_key smooth [] = (Returns tt, []).
Proof.
  apply (subjects_named_by_key_are_ignored INSTRUCTOR subjects_by_key smooth []).
  intros k [<- | [<- | []]]; vm_compute; tauto.
Defined.

(** *** The way into the PIN loop *)

(** X20. When the page shows an alert after the address has been
    submitted, [account_signup] raises an [AssertionError] with the text
    of the alert, stripped: it has made the entries of the first step and
    one click on the submit button, and has asked no mail service for a
    PIN. *)
Theorem alert_ends_signup_before_the_mail
        (fuel : nat) (seed_url email : string) (password : option string)
        (_type provider : string) (tutor : bool) (destination : option page) (kw : kwargs)
        (s : site) (log : list request) (text : string) :
  let entered := log ++ role_and_email_entered email _type tutor in
  element_text s entered _error_locator = Some text ->
  Str.strip text <> "" ->
  account_signup fuel seed_url email password _type provider tutor destination kw s log
    = (Raises (AssertionError (Str.strip text)), entered) /\
  count is_mail entered = count is_mail log.
Proof.
  intros entered Htext Halert. split.
  - unfold account_signup. apply run_bind_raises.
    assert (Hsame : select_user_type_and_email email _type tutor s log =
              (assert_no_error ;;
               if negb (_type =? STUDENT)%string && negb (Str.endswith email "edu")
               then next else ret tt) s entered).
    { unfold entered, role_and_email_entered, select_user_type_and_email.
      destruct tutor; cbn; rewrite <- ?app_assoc; reflexivity. }
    rewrite Hsame. apply run_bind_raises.
    assert (Htruthy : Str.truthy (Str.strip text) = true)
      by (destruct (Str.strip text); [congruence | reflexivity]).
    unfold assert_no_error, error. rewrite !run_ask, Htext, Htruthy.
    rewrite run_ask, Htext. reflexivity.
  - unfold entered, role_and_email_entered. rewrite count_app.
    destruct tutor; cbn; lia.
Qed.

Lemma alert_ends_signup_witness :
  account_signup 5 "https://accounts.openstax.org" "ana.lee@restmail.net" (Some "pw")
                 STUDENT "restmail" false None student_details address_taken []
    = (Raises (AssertionError "Email already in use"),
       [] ++ role_and_email_entered "ana.lee@restmail.net" STUDENT false) /\
  count is_mail ([] ++ role_and_email_entered "ana.lee@restmail.net" STUDENT false) =
  count is_mail [].
Proof.
  apply (alert_ends_signup_before_the_mail 5 "https://accounts.openstax.org"
           "ana.lee@restmail.net" (Some "pw") STUDENT "restmail" false None
           student_details address_taken [] "  Email already in use  ").
  - reflexivity.
  - discriminate.
Defined.

(** *** The mail box of the loop *)

Lemma fetch_pin_google seed_url email provider kw s log :
  Str.contains "google" provider = true ->
  fetch_pin seed_url email provider kw s log =
  (Returns (gmail_latest_pin s log (substring 0 7 email)),
   log ++ [ReadGmail (substring 0 7 email)]).
Proof. intros Hg. unfold fetch_pin. rewrite Hg. reflexivity. Qed.

(** X21. With a provider that names [google], the PIN loop reads the
    Gmail box named by the first seven characters of the address and
    looks at nothing else of it: for two addresses that agree on these
    seven characters the loop makes the same requests and ends the same
    way. *)
Theorem gmail_box_is_named_by_seven_characters
        (fuel : nat) (seed_url email other provider : string) (kw : kwargs)
        (s : site) (log : list request) :
  Str.contains "google" provider = true ->
  substring 0 7 email = substring 0 7 other ->
  verify_the_pin fuel seed_url email provider kw s log =
  verify_the_pin fuel seed_url other provider kw s log /\
  (fuel <> 0%nat ->
   exists rest,
     snd (verify_the_pin fuel seed_url email provider kw s log) =
     log ++ ReadGmail (substring 0 7 email) :: rest).
Proof.
  intros Hg Hsame.
  assert (Hattempt : forall address log0,
             pin_attempt seed_url address provider kw s log0 =
             (fun pin : string =>
                if negb (Str.truthy pin) then raise (ValueError "PIN not found")
                else
                  PinVerification.clear_pin ;;
                  PinVerification.set_verify_pin pin ;;
                  next ;;
                  PinVerification.pin_failure)
               (gmail_latest_pin s log0 (substring 0 7 address))
               s (log0 ++ [ReadGmail (substring 0 7 address)])).
  { intros address log0. unfold pin_attempt.
    now rewrite (run_bind _ _ _ _ _ _ (fetch_pin_google seed_url address provider kw s log0 Hg)). }
  split.
  - revert log. induction fuel as [|fuel IH]; intros log; [reflexivity|].
    cbn [verify_the_pin]. cbn [bind Monad_M]. unfold M_bind.
    rewrite !Hattempt, Hsame.
    match goal with
    | |- match ?run with _ => _ end = _ => destruct run as [[[|] | e |] log1]
    end; try reflexivity.
    apply IH.
  - intros Hfuel. destruct fuel as [|fuel]; [congruence|].
    cbn [verify_the_pin]. cbn [bind Monad_M]. unfold M_bind.
    rewrite Hattempt.
    assert (Hturn : silent (fun _ => false)
              (if negb (Str.truthy (gmail_latest_pin s log (substring 0 7 email)))
               then raise (ValueError "PIN not found")
               else
                 PinVerification.clear_pin ;;
                 PinVerification.set_verify_pin
                   (gmail_latest_pin s log (substring 0 7 email)) ;;
                 next ;;
                 PinVerification.pin_failure)).
    { unfold PinVerification.clear_pin, PinVerification.set_verify_pin, next,
        PinVerification.pin_failure. silence. }
    assert (Hloop : silent (fun _ => false)
                      (verify_the_pin fuel seed_url email provider kw)).
    { apply verify_the_pin_quiet; try reflexivity.
      unfold fetch_pin, _get_pin, StudentSignup.newest_pin. silence. }
    destruct (Hturn s (log ++ [ReadGmail (substring 0 7 email)])) as (d1 & Hd1 & _).
    cbv beta in *.
    match goal with
    | |- context [match ?run with _ => _ end] =>
        destruct run as [[[|] | e |] log1]
    end; cbn [snd] in Hd1; subst log1.
    + destruct (Hloop s ((log ++ [ReadGmail (substring 0 7 email)]) ++ d1))
        as (d2 & Hd2 & _).
      exists (d1 ++ d2). rewrite Hd2, <- !app_assoc. reflexivity.
    + exists d1. cbn. now rewrite <- app_assoc.
    + exists d1. cbn. now rewrite <- app_assoc.
    + exists d1. cbn. now rewrite <- app_assoc.
Qed.

Lemma gmail_box_witness :
  verify_the_pin 5 "https://accounts.openstax.org" "ana.lee@gmail.com" "google"
                 student_details smooth [] =
  verify_the_pin 5 "https://accounts.openstax.org" "ana.lee.other@example.org" "google"
                 student_details smooth [] /\
  (5%nat <> 0%nat ->
   exists rest,
     snd (verify_the_pin 5 "https://accounts.openstax.org" "ana.lee@gmail.com" "google"
                         student_details smooth []) =
     [] ++ ReadGmail (substring 0 7 "ana.lee@gmail.com") :: rest).
Proof.
  apply (gmail_box_is_named_by_seven_characters 5 "https://accounts.openstax.org"
           "ana.lee@gmail.com" "ana.lee.other@example.org" "google" student_details
           smooth []); reflexivity.
Defined.

(** X22. A provider that names none of [google], [guerrilla] and
    [restmail] ends the PIN loop in its first turn: the account type, a
    text, is called as if it were a mail reader, which raises a
    [TypeError] before any request is made. *)
Theorem unknown_provider_raises (fuel : nat) (seed_url email provider : string)
        (kw : kwargs) (s : site) (log : list request) :
  Str.contains "google" provider = false ->
  Str.contains "guerrilla" provider = false ->
  Str.contains "restmail" provider = false ->
  verify_the_pin (S fuel) seed_url email provider kw s log =
  (Raises (TypeError "'str' object is not callable"), log).
Proof.
  intros Hgoogle Hguerrilla Hrestmail.
  cbn [verify_the_pin]. unfold pin_attempt, fetch_pin.
  rewrite Hgoogle, Hguerrilla, Hrestmail. reflexivity.
Qed.

Lemma unknown_provider_raises_witness :
  verify_the_pin 3 "https://accounts.openstax.org" "ana.lee@yahoo.com" "yahoo"
                 student_details smooth [] =
  (Raises (TypeError "'str' object is not callable"), []).
Proof.
  apply (unknown_provider_raises 2 "https://accounts.openstax.org" "ana.lee@yahoo.com"
           "yahoo" student_details smooth []); reflexivity.
Defined.

End LegacyFacts.

(** ** What a finished PIN loop has done *)

Module LoopFacts.
Import SignupOld Observations Notions CallFacts RunFacts WorkflowFacts.

(** A turn that comes to its end has fetched a PIN, found one, and
    cleared, typed and submitted. *)
Lemma pin_attempt_returns seed_url email provider kw s log failure log' :
  pin_attempt seed_url email provider kw s log = (Returns failure, log') ->
  exists pin fetched,
    pin <> "" /\
    fetch_pin seed_url email provider kw s log = (Returns pin, fetched) /\
    log' = fetched ++ [ClearField PinVerification._pin_locator;
                       SendKeys PinVerification._pin_locator (Some pin);
                       Click _next_button_locator] /\
    failure = element_appears s log' PinVerification._error_locator.
Proof.
  unfold pin_attempt. intros Hrun.
  apply bind_returns in Hrun. destruct Hrun as (pin & fetched & Hfetch & Hrun).
  exists pin, fetched.
  destruct pin as [|c pin]; [discriminate|]. cbn [Str.truthy negb] in Hrun.
  unfold PinVerification.clear_pin, PinVerification.set_verify_pin, next,
    PinVerification.pin_failure in Hrun.
  rewrite !run_emit in Hrun. unfold ask in Hrun. rewrite <- !app_assoc in Hrun.
  cbn [app] in Hrun. inversion Hrun; subst.
  split; [discriminate|]. split; [exact Hfetch|]. split; reflexivity.
Qed.

Lemma fetch_pin_keeps p seed_url email provider kw s log pin fetched :
  (p = is_clear_pin \/ p = is_send_pin \/ p = is_next) ->
  fetch_pin seed_url email provider kw s log = (Returns pin, fetched) ->
  count p fetched = count p log.
Proof.
  intros Hp Hfetch.
  assert (H : silent p (fetch_pin seed_url email provider kw)).
  { destruct Hp as [-> | [-> | ->]];
      unfold fetch_pin, _get_pin, StudentSignup.newest_pin; silence. }
  pose proof (silent_count p _ s log H) as Hc. now rewrite Hfetch in Hc.
Qed.

(** X23. When the PIN loop of [account_signup] returns, its last three
    requests were the clearing of the PIN field, the entry of a PIN that
    is not empty and the click on the submit button, and the page shows no
    failure notice after them.  The loop has then made the same number of
    mail fetches, clearings, entries and submissions, at least one of
    each. *)
Theorem pin_loop_ends_on_an_accepted_pin
        (fuel : nat) (seed_url email provider : string) (kw : kwargs)
        (s : site) (log log' : list request) :
  verify_the_pin fuel seed_url email provider kw s log = (Returns tt, log') ->
  element_appears s log' PinVerification._error_locator = false /\
  (exists before pin,
     pin <> "" /\
     log' = before ++ [ClearField PinVerification._pin_locator;
                       SendKeys PinVerification._pin_locator (Some pin);
                       Click _next_button_locator]) /\
  exists turns,
    (1 <= turns <= fuel)%nat /\
    count is_fetch log' = (count is_fetch log + turns)%nat /\
    count is_clear_pin log' = (count is_clear_pin log + turns)%nat /\
    count is_send_pin log' = (count is_send_pin log + turns)%nat /\
    count is_next log' = (count is_next log + turns)%nat.
Proof.
  revert log. induction fuel as [|fuel IH]; intros log Hrun; [discriminate|].
  cbn [verify_the_pin] in Hrun.
  apply bind_returns in Hrun. destruct Hrun as (failure & log1 & Hturn & Hrun).
  destruct (pin_attempt_returns _ _ _ _ _ _ _ _ Hturn)
    as (pin & fetched & Hpin & Hfetch & Hlog1 & Hfailure).
  assert (Hcounts :
            count is_fetch log1 = S (count is_fetch log) /\
            count is_clear_pin log1 = S (count is_clear_pin log) /\
            count is_send_pin log1 = S (count is_send_pin log) /\
            count is_next log1 = S (count is_next log)).
  { rewrite Hlog1, !count_app.
    rewrite (fetch_pin_adds _ _ _ _ _ _ _ _ Hfetch).
    rewrite (fetch_pin_keeps is_clear_pin _ _ _ _ _ _ _ _ (or_introl eq_refl) Hfetch).
    rewrite (fetch_pin_keeps is_send_pin _ _ _ _ _ _ _ _
               (or_intror (or_introl eq_refl)) Hfetch).
    rewrite (fetch_pin_keeps is_next _ _ _ _ _ _ _ _
               (or_intror (or_intror eq_refl)) Hfetch).
    cbn. repeat split; lia. }
  destruct Hcounts as (Hc1 & Hc2 & Hc3 & Hc4).
  destruct failure.
  - destruct (IH log1 Hrun) as (Hshown & Hlast & turns & Hturns & H1 & H2 & H3 & H4).
    split; [exact Hshown|]. split; [exact Hlast|].
    exists (S turns). split; [lia|]. repeat split; lia.
  - inversion Hrun; subst log'.
    split; [now rewrite <- Hfailure|]. split.
    + exists fetched, pin. split; [exact Hpin | exact Hlog1].
    + exists 1%nat. split; [lia|]. repeat split; lia.
Qed.

Lemma pin_loop_ends_witness :
  element_appears smooth pin_verified PinVerification._error_locator = false /\
  (exists before pin,
     pin <> "" /\
     pin_verified = before ++ [ClearField PinVerification._pin_locator;
                               SendKeys PinVerification._pin_locator (Some pin);
                               Click _next_button_locator]) /\
  exists turns,
    (1 <= turns <= 5)%nat /\
    count is_fetch pin_verified = (count is_fetch [] + turns)%nat /\
    count is_clear_pin pin_verified = (count is_clear_pin [] + turns)%nat /\
    count is_send_pin pin_verified = (count is_send_pin [] + turns)%nat /\
    count is_next pin_verified = (count is_next [] + turns)%nat.
Proof.
  apply (pin_loop_ends_on_an_accepted_pin 5 "https://accounts.openstax.org"
           "ana.lee@restmail.net" "restmail" student_details smooth [] pin_verified).
  reflexivity.
Defined.

End LoopFacts.

(** ** Properties of the new signup pages *)

Module PageFacts.
Import Observations Notions CallFacts RunFacts WorkflowFacts.



(** X25. A [StudentSignup.sign_up] that returns hands back the
    destination page if one is given and the profile otherwise; it has
    asked the mail box of the address once and has typed one PIN. *)
Theorem student_sign_up_returns (first last : string) (email : RestMail)
        (password : string) (destination : option page)
        (s : site) (log : list request) (p : page) (log' : list request) :
  StudentSignup.sign_up first last email password destination s log = (Returns p, log') ->
  p = arrival destination /\
  count is_fetch log' = S (count is_fetch log) /\
  count is_confirm_pin log' = S (count is_confirm_pin log) /\
  In (WaitForMail (account email)) log'.
Proof.
  intros Hrun.
  assert (Hpage : p = arrival destination).
  { unfold StudentSignup.sign_up in Hrun.
    do 12 (apply bind_returns in Hrun; destruct Hrun as (? & ? & _ & Hrun)).
    unfold arrival. unfold go_to_, call in Hrun.
    destruct destination as [d|];
      match type of Hrun with
      | context [page_loads ?a ?b ?c] => destruct (page_loads a b c)
      end; inversion Hrun; reflexivity. }
  split; [exact Hpage|].
  assert (Hfetch : adds is_fetch (0 + (0 + (0 + (0 + (0 + (0 + (1 + 0)))))))
                        (StudentSignup.sign_up first last email password destination)).
  { unfold StudentSignup.sign_up, StudentSignup.i_agree.
    do 5 (apply adds_bind; [apply silent_adds; silence | intros _]).
    apply adds_bind.
    { apply silent_adds. unfold StudentSignup._continue, location, go_to_. silence. }
    intros _. apply adds_bind; [apply adds_call; reflexivity|].
    intros box. apply silent_adds.
    unfold StudentSignup.newest_pin, ConfirmEmail.set_pin, ConfirmEmail.confirm_my_account,
      location, StudentSignup.content, CompleteSignup.finish, go_to_.
    silence. }
  assert (Hpin : adds is_confirm_pin (0 + (0 + (0 + (0 + (0 + (0 + (0 + (0 + (1 + 0)))))))))
                      (StudentSignup.sign_up first last email password destination)).
  { unfold StudentSignup.sign_up, StudentSignup.i_agree.
    do 5 (apply adds_bind; [apply silent_adds; silence | intros _]).
    apply adds_bind.
    { apply silent_adds. unfold StudentSignup._continue, location, go_to_. silence. }
    intros _. apply adds_bind; [apply silent_adds; silence|].
    intros box. apply adds_bind.
    { apply silent_adds. unfold StudentSignup.newest_pin. silence. }
    intros pin. apply adds_bind.
    { unfold ConfirmEmail.set_pin.
      apply (adds_bind is_confirm_pin 0 1); [apply silent_adds; silence|].
      intros _. apply adds_emit. reflexivity. }
    intros _. apply silent_adds.
    unfold ConfirmEmail.confirm_my_account, location, StudentSignup.content,
      CompleteSignup.finish, go_to_.
    silence. }
  split; [|split].
  - rewrite (Hfetch s log p log' Hrun). cbn. lia.
  - rewrite (Hpin s log p log' Hrun). cbn. lia.
  - unfold StudentSignup.sign_up in Hrun.
    do 5 (apply bind_returns in Hrun; destruct Hrun as (? & ? & _ & Hrun)).
    apply bind_returns in Hrun. destruct Hrun as (? & accepted & _ & Hrun).
    apply bind_returns in Hrun. destruct Hrun as (box & asked & Hask & Hrun).
    unfold call in Hask. inversion Hask; subst.
    assert (Hrest : silent (fun _ => false)
              (pin <- StudentSignup.newest_pin
                        (wait_for_mail s accepted (account email)) ;;
               ConfirmEmail.set_pin pin ;;
               complete_sign_up <- ConfirmEmail.confirm_my_account ;;
               StudentSignup.content complete_sign_up ;;
               CompleteSignup.finish ;;
               match destination with
               | Some p => go_to_ p
               | None => go_to_ ProfilePage
               end)).
    { unfold StudentSignup.newest_pin, ConfirmEmail.set_pin,
        ConfirmEmail.confirm_my_account, location, StudentSignup.content,
        CompleteSignup.finish, go_to_.
      silence. }
    destruct (Hrest s (accepted ++ [WaitForMail (account email)])) as (rest & Hlog & _).
    rewrite Hrun in Hlog. cbn [snd] in Hlog. subst log'.
    apply in_or_app. left. apply in_or_app. right. now left.
Qed.

Lemma student_sign_up_returns_witness :
  ProfilePage = arrival None /\
  count is_fetch student_registered = S (count is_fetch []) /\
  count is_confirm_pin student_registered = S (count is_confirm_pin []) /\
  In (WaitForMail (account {| account := "ana.lee"; address := "ana.lee@restmail.net" |}))
     student_registered.
Proof.
  apply (student_sign_up_returns "Ana" "Lee"
           {| account := "ana.lee"; address := "ana.lee@restmail.net" |}
           "pw" None accepting [] ProfilePage student_registered).
  reflexivity.
Defined.



End PageFacts.

(** ** How often an option is clicked *)

Module ClickCountFacts.
Import Utility Observations Notions CallFacts.

Lemma native_clicks_snoc log c :
  native_clicks (log ++ [c]) = (native_clicks log + if is_native_click c then 1 else 0)%nat.
Proof.
  unfold native_clicks. rewrite filter_app, length_app. cbn.
  destruct (is_native_click c); reflexivity.
Qed.

(** Settles a bound on the clicks from the bound for the rest of the
    loop. *)
Ltac count_clicks IH :=
  match goal with
  | |- context [javascript_click_attempts ?n ?loc ?t ?d ?l] =>
      let H1 := fresh "H" in
      let H2 := fresh "H" in
      destruct (IH t l) as (H1 & H2); rewrite H1;
      repeat rewrite native_clicks_snoc in *;
      repeat rewrite ClickFacts.javascript_clicks_snoc in *;
      cbn [is_native_click is_javascript_click] in *; split; lia
  | |- _ =>
      cbn [snd];
      repeat rewrite native_clicks_snoc;
      repeat rewrite ClickFacts.javascript_clicks_snoc;
      cbn [is_native_click is_javascript_click]; split; lia
  end.

(** The fallback loop makes no click of the driver itself and at most
    one synthetic click a turn. *)
Lemma attempts_bound (d : driver) (loc : option locator) : forall n target log,
  native_clicks (snd (javascript_click_attempts n loc target d log)) = native_clicks log /\
  (javascript_clicks (snd (javascript_click_attempts n loc target d log))
   <= javascript_clicks log + n)%nat.
Proof.
  induction n as [|n IH]; intros target log.
  - change (snd (javascript_click_attempts 0 loc target d log)) with log. split; lia.
  - cbn [javascript_click_attempts].
    cbn [bind ret Monad_M]. unfold M_bind, M_ret, try_, call, raise.
    destruct (javascript_click d log target) as [e|]; cbn [done_or_raised].
    + destruct e; try count_clicks IH;
        (destruct loc as [l|]; [|count_clicks IH]);
        (destruct (find_element d (log ++ [JavascriptClick target]) l) as [e | a];
         count_clicks IH).
    + count_clicks IH.
Qed.

(** X27. However [click_option] ends, it has clicked with the driver
    itself at most once, and not at all when the click is forced to the
    script or the browser is Safari; it has made at most ten synthetic
    clicks. *)
Theorem click_option_click_counts (d : driver) (loc : option locator)
        (target : option element) (force_js_click : bool) (log : list command) :
  let log' := snd (click_option loc target force_js_click d log) in
  (native_clicks log' <= native_clicks log + 1)%nat /\
  (bypassed d force_js_click = true -> native_clicks log' = native_clicks log) /\
  (javascript_clicks log' <= javascript_clicks log + 10)%nat.
Proof.
  assert (Hresolved : forall el log0,
             native_clicks log0 = native_clicks log ->
             javascript_clicks log0 = javascript_clicks log ->
             let log' := snd (click_option loc (Some el) force_js_click d log0) in
             (native_clicks log' <= native_clicks log + 1)%nat /\
             (bypassed d force_js_click = true -> native_clicks log' = native_clicks log) /\
             (javascript_clicks log' <= javascript_clicks log + 10)%nat).
  { intros el log0 Hn Hj. unfold click_option, scroll_to. cbn [Z.eqb Z.opp].
    unfold bind, ret, Monad_M, M_bind, M_ret, try_, emit, ask, raise.
    set (log1 := (log0 ++ [ScrollIntoView el]) ++ [ShiftViewBy (-80)]).
    assert (Hn1 : native_clicks log1 = native_clicks log).
    { unfold log1. rewrite !native_clicks_snoc. cbn [is_native_click]. lia. }
    assert (Hj1 : javascript_clicks log1 = javascript_clicks log).
    { unfold log1. rewrite !ClickFacts.javascript_clicks_snoc.
      cbn [is_javascript_click]. lia. }
    unfold bypassed.
    destruct (force_js_click || String.eqb (Str.lower (browserName d)) "safari").
    - cbn [is_WebDriverException].
      destruct (attempts_bound d loc 10 el log1) as (H1 & H2).
      cbv zeta. rewrite H1. repeat split; try lia.
    - unfold call. cbv zeta.
      destruct (element_click d log1 el) as [e|]; cbn [done_or_raised].
      + destruct (is_WebDriverException e).
        * destruct (attempts_bound d loc 10 el (log1 ++ [NativeClick el])) as (H1 & H2).
          rewrite H1, native_clicks_snoc.
          rewrite ClickFacts.javascript_clicks_snoc in H2.
          cbn [is_native_click is_javascript_click] in *.
          repeat split; try lia; discriminate.
        * cbn [snd]. rewrite native_clicks_snoc, ClickFacts.javascript_clicks_snoc.
          cbn [is_native_click is_javascript_click].
          repeat split; try lia; discriminate.
      + cbn [snd]. rewrite native_clicks_snoc, ClickFacts.javascript_clicks_snoc.
        cbn [is_native_click is_javascript_click].
        repeat split; try lia; discriminate. }
  destruct target as [el|]; [apply Hresolved; reflexivity|].
  destruct loc as [l|].
  - destruct (find_element d log l) as [e | el] eqn:Hel.
    + assert (Hrun : click_option (Some l) None force_js_click d log =
                     (Raises e, log ++ [FindElement l])).
      { unfold click_option. apply run_bind_raises. unfold call. now rewrite Hel. }
      rewrite Hrun. cbn [snd].
      rewrite native_clicks_snoc, ClickFacts.javascript_clicks_snoc.
      cbn [is_native_click is_javascript_click]. repeat split; lia.
    + assert (Hrun : click_option (Some l) None force_js_click d log =
                     click_option (Some l) (Some el) force_js_click d
                                  (log ++ [FindElement l])).
      { unfold click_option. rewrite (run_call _ _ _ _ _ _ Hel). reflexivity. }
      rewrite Hrun. apply Hresolved.
      * rewrite native_clicks_snoc. cbn [is_native_click]. lia.
      * rewrite ClickFacts.javascript_clicks_snoc. cbn [is_javascript_click]. lia.
  - change (snd (click_option None None force_js_click d log)) with log.
    cbv zeta. repeat split; lia.
Qed.

Lemma click_option_click_counts_witness :
  native_clicks (snd (click_option None (Some 3%nat) false safari [])) = native_clicks [].
Proof.
  apply (proj1 (proj2 (click_option_click_counts safari None (Some 3%nat) false []))).
  reflexivity.
Defined.

Example safari_click :
  click_option None (Some 3%nat) false safari [] =
  (Returns tt, [ScrollIntoView 3%nat; ShiftViewBy (-80); JavascriptClick 3%nat]).
Proof. reflexivity. Qed.

End ClickCountFacts.

(** ** Properties of the draw of a number *)

Module DrawFacts.
Import Utility.

(** X28. [Utility.random(start, end)] gives a number from [start] to
    [end] when [start] is the smaller one, with one draw; with the bounds
    equal or in the wrong order it gives [start] and draws nothing, where
    the library call it stands for would refuse the range. *)
Theorem random_spec (g : generator) (pos : nat) (start end_ : Z) :
  lawful g ->
  (start < end_ ->
     start <= fst (random g pos start end_) <= end_ /\
     snd (random g pos start end_) = S pos) /\
  (end_ <= start -> random g pos start end_ = (start, pos)).
Proof.
  intros Hg. unfold random. split.
  - intros Hlt. destruct (Z.geb_spec start end_); [lia|]. cbn [fst snd].
    split; [apply (randint_range g Hg); lia | reflexivity].
  - intros Hle. destruct (Z.geb_spec start end_); [reflexivity | lia].
Qed.

Lemma random_spec_witness :
  (1 <= fst (random cycling 4 1 5) <= 5 /\ snd (random cycling 4 1 5) = 5%nat) /\
  random cycling 4 5 1 = (5, 4%nat).
Proof.
  split.
  - apply (proj1 (random_spec cycling 4 1 5 UtilityFacts.cycling_lawful)). lia.
  - apply (proj2 (random_spec cycling 4 5 1 UtilityFacts.cycling_lawful)). lia.
Defined.

End DrawFacts.
